(** * gros: the trajectory dataset [SpaceTimeData] of gros/utils/datahandling.py

    A shallow embedding of the class [SpaceTimeData] and of what its methods
    hand to the Rerun viewer, followed by the properties of the trajectory
    specification that were checked against it.

    Modelling conventions.
    - A float64 cell of the trajectory array is the real number it denotes
      ([R]).  The arithmetic that decides the control flow,
      [anim_step_size / data["tau"].max() * self.size()] and the [math.ceil]
      after it, is binary64 arithmetic: the quotient and the product are each
      rounded to the nearest double, ties to even ([round64]), a result too
      large becomes an infinity and one too small becomes zero; [float64]
      adds the infinities and NaN with the outcome CPython and NumPy give for
      them.  The sign of a zero is not kept: no branch of the class depends
      on it.  Values that are only handed to the viewer, the Cartesian
      coordinates and the labels of a frame, are kept as exact reals.
    - NumPy arrays are objects in a store ([heap]); a Python name holds a
      reference ([loc]).  [pd.DataFrame(trajectory, ...)] keeps the buffer of
      a two-dimensional float array instead of copying it, so the frame and
      the caller's array are two names for one buffer.
    - Calls into Rerun and into the logger are recorded, in order, as a list
      of [event]s; an uncaught exception ends the method and keeps the events
      emitted before it. *)

From Stdlib Require Import Reals Lra Lia ZArith String List Sorted.
From stdpp Require Import base option list gmap.

(** ** Exceptions and the two effect layers *)

Inductive exn :=
| ValueError (msg : string)
| TypeError (msg : string)
| AttributeError (msg : string)
| OverflowError (msg : string)
| KeyError (msg : string).

Inductive result (A : Type) :=
| OK (a : A)
| Raise (e : exn).
Arguments OK {A} a.
Arguments Raise {A} e.

Definition rbind {A B} (r : result A) (k : A -> result B) : result B :=
  match r with
  | OK a => k a
  | Raise e => Raise e
  end.

Notation "'let?' x ':=' r 'in' k" := (rbind r (fun x => k))
  (at level 10, x pattern, r at level 100, k at level 200).

(** ** Numbers *)

(** A float64 result that may have left the finite numbers. *)
Inductive float64 :=
| Fin (x : R)
| Inf (positive : bool)
| NaN.

Definition Rsign_pos (x : R) : bool := if Rlt_dec 0 x then true else false.
Definition Ris_zero (x : R) : bool := if Req_dec_T x 0 then true else false.

(** Rounding to binary64 (IEEE 754 double precision, the default rounding:
    to nearest, ties to even).  A double other than an infinity or NaN is an
    integer of at most 53 bits times a power of two, the exponent of the
    last bit being at least -1074. *)
Definition bpow (e : Z) : R := powerRZ 2 e.

(** floor(log2 |x|), for [x <> 0]. *)
Definition mag (x : R) : Z := Zfloor (ln (Rabs x) / ln 2).

(** The integer nearest to [y]; of two equally near ones, the even one. *)
Definition round_half_even (y : R) : Z :=
  let n := Zfloor y in
  if Rlt_dec (y - IZR n) (1 / 2) then n
  else if Rlt_dec (1 / 2) (y - IZR n) then (n + 1)%Z
  else if Z.even n then n else (n + 1)%Z.

(** The exponent of the last bit of the doubles around [x]: 52 below that
    of the leading bit, and -1074 in the subnormal range. *)
Definition ulp_exponent (x : R) : Z := Z.max (mag x - 52) (-1074).

(** The double an operation returns for the exact result [x]: the nearest
    multiple of the last bit; an infinity once that reaches 2^1024; zero
    when [x] is nearer to zero than to the least subnormal number. *)
Definition round64 (x : R) : float64 :=
  if Ris_zero x then Fin 0
  else
    let e := ulp_exponent x in
    let r := (IZR (round_half_even (x / bpow e)) * bpow e)%R in
    if Rle_dec (bpow 1024) (Rabs r) then Inf (Rsign_pos x) else Fin r.
Arguments round64 : simpl never.

(** [a / b] on float64 scalars: NumPy warns on a zero divisor and returns an
    infinity (or NaN for 0/0); it does not raise. *)
Definition np_truediv (a b : float64) : float64 :=
  match a, b with
  | NaN, _ | _, NaN => NaN
  | Fin x, Fin y =>
      if Ris_zero y
      then (if Ris_zero x then NaN else Inf (Rsign_pos x))
      else round64 (x / y)
  | Fin _, Inf _ => Fin 0
  | Inf s, Fin y => Inf (if Rsign_pos y then s else if Ris_zero y then s else negb s)
  | Inf _, Inf _ => NaN
  end.

Definition np_mul (a b : float64) : float64 :=
  match a, b with
  | NaN, _ | _, NaN => NaN
  | Fin x, Fin y => round64 (x * y)
  | Fin x, Inf s | Inf s, Fin x =>
      if Ris_zero x then NaN else Inf (if Rsign_pos x then s else negb s)
  | Inf s, Inf s' => Inf (negb (xorb s s'))
  end.

(** [math.ceil]: an [int] for a finite argument, an exception otherwise. *)
Definition math_ceil (v : float64) : result Z :=
  match v with
  | Fin x => OK (Zceil x)
  | Inf _ => Raise (OverflowError "cannot convert float infinity to integer")
  | NaN => Raise (ValueError "cannot convert float NaN to integer")
  end.

(** The builtin [range(start, stop, step)], as the list of its items. *)
Definition range_len (start stop step : Z) : Z :=
  if (0 <? step)%Z
  then (if (start <? stop)%Z then (stop - start - 1) / step + 1 else 0)%Z
  else (if (stop <? start)%Z then (start - stop - 1) / (- step) + 1 else 0)%Z.

Definition py_range (start stop step : Z) : result (list Z) :=
  if (step =? 0)%Z
  then Raise (ValueError "range() arg 3 must not be zero")
  else OK (map (fun i : nat => (start + Z.of_nat i * step)%Z)
               (seq 0 (Z.to_nat (range_len start stop step)))).

(** ** gros.utils.transforms *)

Module tf.

(** Modelled from the spec: the enumeration [CoordinateConversion] of the
    module gros/utils/transforms.py, which is not among the sources.  The
    specification names two conversion policies, spherical-to-Cartesian and
    identity. *)
Module CoordinateConversion.
Inductive t :=
| spherical_to_cartesian
| identity.
End CoordinateConversion.

(** Modelled from the spec: [spherical_to_cartesian(r, theta, phi)] of the
    missing module gros/utils/transforms.py, with theta the polar angle and
    phi the azimuth. *)
Definition spherical_to_cartesian (r theta phi : R) : R * R * R :=
  (r * sin theta * cos phi, r * sin theta * sin phi, r * cos theta)%R.

(** The same function called on two arrays of one shape acts cell by cell
    (NumPy broadcasting of the scalar radius). *)
Definition spherical_to_cartesian_grid (r : R) (theta phi : list (list R))
  : list (list R) * list (list R) * list (list R) :=
  let cell (f : R * R * R -> R) :=
    zip_with (zip_with (fun t p => f (spherical_to_cartesian r t p))) theta phi in
  (cell (fun c => c.1.1), cell (fun c => c.1.2), cell (fun c => c.2)).

End tf.

(** ** NumPy arrays, the store, and data frames *)

Abbreviation loc := positive.

(** An array with its shape: no axis, one axis, two axes (the cells by row)
    or more.  Arrays of three and more axes are rejected before a cell is
    read, so only their shape is kept. *)
Inductive ndarray :=
| nd0 (v : R)
| nd1 (v : list R)
| nd2 (ncols : nat) (rows : list (list R))
| ndN (d0 d1 d2 : nat) (more : list nat).

Definition shape (a : ndarray) : list nat :=
  match a with
  | nd0 _ => []
  | nd1 v => [length v]
  | nd2 c rows => [length rows; c]
  | ndN d0 d1 d2 more => d0 :: d1 :: d2 :: more
  end.

(** Every row of a two-axis array has the declared width. *)
Definition wf_ndarray (a : ndarray) : Prop :=
  match a with
  | nd2 c rows => Forall (fun row => length row = c) rows
  | _ => True
  end.

(** [len(a)]: the first axis; an array without axes has no length. *)
Definition len (a : ndarray) : result nat :=
  match shape a with
  | [] => Raise (TypeError "len() of unsized object")
  | n :: _ => OK n
  end.

(** [a.any()]: some cell is not zero. *)
Definition any (a : ndarray) : bool :=
  match a with
  | nd0 v => negb (Ris_zero v)
  | nd1 v => existsb (fun x => negb (Ris_zero x)) v
  | nd2 _ rows => existsb (existsb (fun x => negb (Ris_zero x))) rows
  | ndN _ _ _ _ => false   (* not reached: the shape test comes first *)
  end.

Abbreviation heap := (gmap loc ndarray).

(** What a Python name can hold when it is passed as [trajectory]. *)
Inductive pyval :=
| PyNdarray (l : loc)
| PyList (rows : list (list R))
| PyNone.

(** [isinstance(v, np.ndarray)], giving the array the reference points to. *)
Definition as_ndarray (h : heap) (v : pyval) : option (loc * ndarray) :=
  match v with
  | PyNdarray l => (fun a => (l, a)) <$> h !! l
  | _ => None
  end.

Definition DATA_COLUMNS : list string :=
  ["tau"; "t"; "x"; "y"; "z"]%string.

(** A data frame built on an array: the reference to the buffer, not a copy
    of it, and the column labels. *)
Record DataFrame := {
  df_values : loc;
  df_columns : list string
}.

Fixpoint index_of (name : string) (cols : list string) : option nat :=
  match cols with
  | [] => None
  | c :: cols' => if String.eqb name c then Some 0 else S <$> index_of name cols'
  end.

Definition df_rows (h : heap) (d : DataFrame) : list (list R) :=
  match h !! df_values d with
  | Some (nd2 _ rows) => rows
  | _ => []
  end.

(** [data[name]]: the column with that label, in row order. *)
Definition df_col (h : heap) (d : DataFrame) (name : string) : result (list R) :=
  match index_of name (df_columns d) with
  | Some j => OK (map (fun row => nth j row 0%R) (df_rows h d))
  | None => Raise (KeyError name)
  end.

(** [series[k]] under the default integer index. *)
Definition series_at (s : list R) (k : Z) : result R :=
  if (k <? 0)%Z then Raise (KeyError "index")
  else match s !! Z.to_nat k with
       | Some v => OK v
       | None => Raise (KeyError "index")
       end.

(** [series.max()]: NaN on an empty column. *)
Definition series_max (s : list R) : float64 :=
  match s with
  | [] => NaN
  | x :: s' => Fin (fold_left Rmax s' x)
  end.

(** ** The Rerun calls and the logger, as events *)

Definition point := (R * R * R)%type.

(** The text labels of an animation frame, by their value. *)
Inductive label :=
| label_tau (v : R)
| label_t (v : R)
| label_gamma (v : R)
| label_dt (v : R).

Inductive archetype :=
| LineStrips3D (strips : list (list point))
| Points3D (positions : list point) (radii : R) (colors : list Z)
    (labels : list label).

Inductive event :=
| rr_init (application_id : string)
| rr_log (entity_path : string) (a : archetype)
| rr_set_time (timeline : string) (duration : R)
| logger_warning (msg : string) (limit : Z)   (* the text and the number in it *)
| rr_spawn
| rr_connect_grpc (host_ip : string).

(** A method that talks to Rerun: the events it emits, in order, and how it
    ends. *)
Definition M (A : Type) := (list event * result A)%type.

Definition mret {A} (a : A) : M A := ([], OK a).
Definition mbind {A B} (m : M A) (k : A -> M B) : M B :=
  match m with
  | (evs, OK a) => let '(evs', r) := k a in (evs ++ evs', r)
  | (evs, Raise e) => (evs, Raise e)
  end.
Definition emit (e : event) : M unit := ([e], OK tt).
Definition lift {A} (r : result A) : M A := ([], r).

Notation "'do!' x ':=' m 'in' k" := (mbind m (fun x => k))
  (at level 10, x pattern, m at level 100, k at level 200).
Notation "m ';;;' k" := (mbind m (fun _ => k))
  (at level 100, k at level 200, right associativity).

(** [for x in xs: body(x)] *)
Fixpoint for_each {A} (xs : list A) (body : A -> M unit) : M unit :=
  match xs with
  | [] => mret tt
  | x :: xs' => body x ;;; for_each xs' body
  end.

(** [np.linspace(start, stop, num)] *)
Definition linspace (start stop : R) (num : nat) : list R :=
  map (fun i : nat => (start + INR i * ((stop - start) / INR (num - 1)))%R)
      (seq 0 num).

(** [np.meshgrid(a, b)] with the default "xy" indexing: both grids have one
    row per item of [b] and one column per item of [a]. *)
Definition meshgrid (a b : list R) : list (list R) * list (list R) :=
  (map (fun _ => a) b, map (fun y => map (fun _ => y) a) b).

(** [np.column_stack((x, y, z))] on three one-axis arrays. *)
Definition column_stack (x y z : list R) : list point :=
  zip_with (fun xy z => (xy.1, xy.2, z)) (zip_with pair x y) z.

(** The environment of the process: the address printed by [ip route] when
    the variable WSL_DISTRO_NAME is set. *)
Definition environ := option string.

(** ** The class SpaceTimeData *)

Module SpaceTimeData.

(** The attributes of an instance; [df] is absent until [__init__] sets it. *)
Record self := {
  rs : R;
  max_num_anim_frames : Z;
  df : option DataFrame
}.

(** One turn of [for traj_point in trajectory]: [traj_point] is a view of
    row [i] of the buffer at [l]; the right-hand side is computed from the
    row as it is, then the three cells are overwritten. *)
Definition convert_row_at (l : loc) (h : heap) (i : nat) : heap :=
  match h !! l with
  | Some (nd2 c rows) =>
      match rows !! i with
      | Some traj_point =>
          let '(x, y, z) :=
            tf.spherical_to_cartesian
              (nth 2 traj_point 0%R) (nth 3 traj_point 0%R) (nth 4 traj_point 0%R) in
          <[l := nd2 c (<[i := <[4 := z]> (<[3 := y]> (<[2 := x]> traj_point))]> rows)]> h
      | None => h
      end
  | _ => h
  end.

Definition __init__ (h : heap) (trajectory : pyval) (rs : R)
    (conversion : tf.CoordinateConversion.t) : heap * result self :=
  match as_ndarray h trajectory with
  | None => (h, Raise (ValueError "dataset must be numpy ndarray!"))
  | Some (l, a) =>
      match len a with
      | Raise e => (h, Raise e)
      | OK n =>
          if decide (shape a = [n; 5])
          then
            if any a
            then
              let d := {| df_values := l; df_columns := DATA_COLUMNS |} in
              let h' :=
                match conversion with
                | tf.CoordinateConversion.spherical_to_cartesian =>
                    foldl (convert_row_at l) h (seq 0 n)
                | _ => h
                end in
              (h', OK {| rs := rs; max_num_anim_frames := 100; df := Some d |})
            else (h, OK {| rs := rs; max_num_anim_frames := 100; df := None |})
          else (h, Raise (ValueError "dataset shape needs to be (N,5)!"))
      end
  end.

(** Reading the attribute [self.df]. *)
Definition get_df (s : self) : result DataFrame :=
  match df s with
  | Some d => OK d
  | None => Raise (AttributeError "'SpaceTimeData' object has no attribute 'df'")
  end.

Definition size (h : heap) (s : self) : result Z :=
  let? d := get_df s in
  OK (Z.of_nat (length (df_rows h d))).

Definition _log_sphere (s : self) (radius : R) (name : string)
    (color : list Z) (opacity : R) : M unit :=
  let sph_theta := linspace 0 (2 * PI) 16 in
  let sph_phi := linspace 0 PI 16 in
  let '(sph_theta, sph_phi) := meshgrid sph_phi sph_theta in
  let '(sph_x, sph_y, sph_z) :=
    tf.spherical_to_cartesian_grid radius sph_theta sph_phi in
  let points := column_stack (concat sph_x) (concat sph_y) (concat sph_z) in
  emit (rr_log ("world/" ++ name) (Points3D points 2 color [])).

Definition time_dilation (current_t current_tau : R) : R :=
  if Req_dec_T current_tau 0 then 0%R else (current_t / current_tau)%R.

Definition time_diff (current_t current_tau : R) : R :=
  Rabs (current_t - current_tau).

(** [math.ceil(anim_step_size / data["tau"].max() * self.size())] *)
Definition computed_frame_step_size (h : heap) (s : self) (data : DataFrame)
    (anim_step_size : R) : result Z :=
  let? tau := df_col h data "tau" in
  let? n := size h s in
  math_ceil (np_mul (np_truediv (Fin anim_step_size) (series_max tau))
                    (Fin (IZR n))).

(** The body of the loop over the frame indices. *)
Definition log_frame (h : heap) (data : DataFrame) (k : Z) : M unit :=
  do! current_tau := lift (let? c := df_col h data "tau" in series_at c k) in
  do! current_t := lift (let? c := df_col h data "t" in series_at c k) in
  let time_dilation := time_dilation current_t current_tau in
  let time_diff := time_diff current_t current_tau in
  emit (rr_set_time "tau" current_tau) ;;;
  do! x := lift (let? c := df_col h data "x" in series_at c k) in
  do! y := lift (let? c := df_col h data "y" in series_at c k) in
  do! z := lift (let? c := df_col h data "z" in series_at c k) in
  emit (rr_log "world/particle"
          (Points3D [(x, y, z)] 6 [255; 0; 0]%Z
             [label_tau current_tau; label_t current_t;
              label_gamma time_dilation; label_dt time_diff])).

Definition _add_rerun_animation_frames (h : heap) (s : self)
    (anim_step_size : R) : M unit :=
  if Rle_dec anim_step_size 0 then mret tt
  else
    do! data := lift (get_df s) in
    do! frame_step_size :=
      lift (computed_frame_step_size h s data anim_step_size) in
    do! frame_step_size :=
      (if (max_num_anim_frames s <? frame_step_size)%Z
       then
         emit (logger_warning
                 "animation_step_size is too large. Maximum number of animation frames will be limited to"
                 (max_num_anim_frames s)) ;;;
         mret (max_num_anim_frames s)
       else mret frame_step_size) in
    do! n := lift (size h s) in
    do! ks := lift (py_range 1 n frame_step_size) in
    for_each ks (log_frame h data).

Definition plot (h : heap) (s : self) (attractor_radius animation_step_size : R)
    (env : environ) : M unit :=
  emit (rr_init "gros") ;;;
  do! data := lift (get_df s) in
  do! x := lift (df_col h data "x") in
  do! y := lift (df_col h data "y") in
  do! z := lift (df_col h data "z") in
  let trajectory_points := column_stack x y z in
  emit (rr_log "world/trajectory" (LineStrips3D [trajectory_points])) ;;;
  emit (rr_log "world/singularity"
          (Points3D [(0, 0, 0)%R] 5 [138; 43; 226]%Z [])) ;;;
  _log_sphere s (rs s) "black_hole" [138; 43; 226]%Z (2 / 10) ;;;
  (if Rlt_dec 0 attractor_radius
   then _log_sphere s attractor_radius "attractor" [255; 255; 0]%Z (1 / 10)
   else mret tt) ;;;
  (if Rlt_dec 0 animation_step_size
   then _add_rerun_animation_frames h s animation_step_size
   else mret tt) ;;;
  match env with
  | Some host_ip => emit (rr_connect_grpc host_ip)
  | None => emit rr_spawn
  end.

End SpaceTimeData.

(** ** Derived notions used to state the properties *)

(** The row a turn of the conversion loop leaves behind. *)
Definition convert_row (traj_point : list R) : list R :=
  let '(x, y, z) :=
    tf.spherical_to_cartesian
      (nth 2 traj_point 0%R) (nth 3 traj_point 0%R) (nth 4 traj_point 0%R) in
  <[4 := z]> (<[3 := y]> (<[2 := x]> traj_point)).

(** The rows a constructor leaves in the buffer, by conversion policy. *)
Definition converted (conversion : tf.CoordinateConversion.t)
    (rows : list (list R)) : list (list R) :=
  match conversion with
  | tf.CoordinateConversion.spherical_to_cartesian => map convert_row rows
  | tf.CoordinateConversion.identity => rows
  end.

(** The instance [s] has a data frame, and the buffer under it holds [rows]. *)
Definition holds (h : heap) (s : SpaceTimeData.self) (rows : list (list R)) : Prop :=
  exists l,
    SpaceTimeData.df s = Some {| df_values := l; df_columns := DATA_COLUMNS |} /\
    h !! l = Some (nd2 5 rows).

(** The column of a list of rows. *)
Definition column (j : nat) (rows : list (list R)) : list R :=
  map (fun row => nth j row 0%R) rows.

(** The two events of one animation frame, from the row it shows. *)
Definition frame_at (row : list R) : list event :=
  let tau := nth 0 row 0%R in
  let t := nth 1 row 0%R in
  [rr_set_time "tau" tau;
   rr_log "world/particle"
     (Points3D [(nth 2 row 0%R, nth 3 row 0%R, nth 4 row 0%R)] 6 [255; 0; 0]%Z
        [label_tau tau; label_t t;
         label_gamma (SpaceTimeData.time_dilation t tau);
         label_dt (SpaceTimeData.time_diff t tau)])].

(** The frames of the rows at the indices [ks]. *)
Definition frames_at (rows : list (list R)) (ks : list Z) : list event :=
  concat (map (fun k : Z => frame_at (nth (Z.to_nat k) rows [])) ks).

(** The indices [1, 1 + f, 1 + 2 f, ...] that [range(1, n, f)] yields. *)
Definition frame_indices (n f : Z) : list Z :=
  map (fun i : nat => (1 + Z.of_nat i * f)%Z)
      (seq 0 (Z.to_nat (range_len 1 n f))).

(** The value handed to [math.ceil] for a frame that holds [rows]. *)
Definition density (anim_step_size : R) (rows : list (list R)) : float64 :=
  np_mul (np_truediv (Fin anim_step_size) (series_max (column 0 rows)))
         (Fin (IZR (Z.of_nat (length rows)))).

(** The step after the comparison with [max_num_anim_frames], and the
    warning that goes with it. *)
Definition capped (limit c : Z) : Z := if (limit <? c)%Z then limit else c.

Definition cap_warning (limit c : Z) : list event :=
  if (limit <? c)%Z
  then [logger_warning
          "animation_step_size is too large. Maximum number of animation frames will be limited to"
          limit]
  else [].

(** The point cloud of a sphere: for each azimuth of the grid, in order, the
    points of all polar angles of the grid. *)
Definition sphere_points (radius : R) : list point :=
  flat_map (fun phi => map (fun theta => tf.spherical_to_cartesian radius theta phi)
                           (linspace 0 PI 16))
           (linspace 0 (2 * PI) 16).

(** What [plot] logs before it turns to the animation: the session, the
    path, the singularity, the horizon sphere and, for a positive radius,
    the attractor sphere. *)
Definition static_scene (s : SpaceTimeData.self) (rows : list (list R))
    (attractor_radius : R) : list event :=
  [rr_init "gros";
   rr_log "world/trajectory"
     (LineStrips3D [column_stack (column 2 rows) (column 3 rows) (column 4 rows)]);
   rr_log "world/singularity" (Points3D [(0, 0, 0)%R] 5 [138; 43; 226]%Z []);
   rr_log "world/black_hole"
     (Points3D (sphere_points (SpaceTimeData.rs s)) 2 [138; 43; 226]%Z [])]
  ++ (if Rlt_dec 0 attractor_radius
      then [rr_log "world/attractor"
              (Points3D (sphere_points attractor_radius) 2 [255; 255; 0]%Z [])]
      else []).

(** The viewer [plot] ends with. *)
Definition sink (env : environ) : event :=
  match env with
  | Some host_ip => rr_connect_grpc host_ip
  | None => rr_spawn
  end.

Definition no_df : exn :=
  AttributeError "'SpaceTimeData' object has no attribute 'df'".

(** An event that belongs to an animation frame. *)
Definition is_frame_event (e : event) : bool :=
  match e with
  | rr_set_time _ _ => true
  | rr_log path _ => String.eqb path "world/particle"
  | _ => false
  end.

(** The point of an animation frame. *)
Definition is_particle_log (e : event) : bool :=
  match e with
  | rr_log path _ => String.eqb path "world/particle"
  | _ => false
  end.

(** The number of animation frames in a log: one "world/particle" point per
    frame. *)
Definition count_frames (evs : list event) : nat :=
  length (List.filter is_particle_log evs).

Definition norm (p : point) : R :=
  sqrt (p.1.1 * p.1.1 + p.1.2 * p.1.2 + p.2 * p.2).

(** ** Sample trajectories *)

(** A store with one array, at the reference 1. *)
Definition store_of (a : ndarray) : heap := {[ 1%positive := a ]}.

(** An all-zero array of shape (2,5). *)
Definition zero_rows : list (list R) :=
  [[0; 0; 0; 0; 0]; [0; 0; 0; 0; 0]]%R.

(** Two samples at proper time 0. *)
Definition still_rows : list (list R) :=
  [[0; 0; 10; PI / 2; 0]; [0; 1; 10; PI / 2; 1 / 10]]%R.

(** The three samples of the end-to-end scenario. *)
Definition scenario_rows : list (list R) :=
  [[0; 0; 10; PI / 2; 0];
   [1; 3 / 2; 10; PI / 2; 1 / 10];
   [2; 31 / 10; 10; PI / 2; 2 / 10]]%R.

(** 102 samples, one per unit of proper time. *)
Definition dense_rows : list (list R) :=
  map (fun k : nat => [INR k; 2 * INR k; 10; PI / 2; 0]%R) (seq 0 102).

(** The instance a successful construction from the store [store_of] leaves
    when the array holds data, and the one it leaves when it holds none. *)
Definition dataset_of (rs : R) : SpaceTimeData.self :=
  {| SpaceTimeData.rs := rs;
     SpaceTimeData.max_num_anim_frames := 100;
     SpaceTimeData.df := Some {| df_values := 1%positive; df_columns := DATA_COLUMNS |} |}.

Definition empty_state (rs : R) : SpaceTimeData.self :=
  {| SpaceTimeData.rs := rs;
     SpaceTimeData.max_num_anim_frames := 100;
     SpaceTimeData.df := None |}.

Definition infinite : exn :=
  OverflowError "cannot convert float infinity to integer".

(** The end-to-end scenario: the store before and after construction. *)
Definition scenario_before : heap := store_of (nd2 5 scenario_rows).
Definition scenario_after : heap := store_of (nd2 5 (map convert_row scenario_rows)).

(** The data frame of [dataset_of]. *)
Definition frame1 : DataFrame :=
  {| df_values := 1%positive; df_columns := DATA_COLUMNS |}.

(** The Cartesian coordinates of a row [tau; t; r; theta; phi], as the
    specification writes them, and the row with them in place. *)
Definition cartesian_x (row : list R) : R :=
  (nth 2 row 0 * sin (nth 3 row 0) * cos (nth 4 row 0))%R.
Definition cartesian_y (row : list R) : R :=
  (nth 2 row 0 * sin (nth 3 row 0) * sin (nth 4 row 0))%R.
Definition cartesian_z (row : list R) : R :=
  (nth 2 row 0 * cos (nth 3 row 0))%R.
Definition cartesian_row (row : list R) : list R :=
  [nth 0 row 0%R; nth 1 row 0%R; cartesian_x row; cartesian_y row; cartesian_z row].

(** The store after construction from the 102 samples. *)
Definition dense_after : heap := store_of (nd2 5 (map convert_row dense_rows)).

(** ** Observations on a log *)

(** The time stamps set in a log, in order. *)
Definition frame_times (evs : list event) : list R :=
  flat_map (fun e => match e with
                     | rr_set_time _ duration => [duration]
                     | _ => []
                     end) evs.

(** The event that opens a viewer. *)
Definition is_viewer (e : event) : bool :=
  match e with
  | rr_spawn | rr_connect_grpc _ => true
  | _ => false
  end.

(** The warning of the frame selection. *)
Definition is_warning (e : event) : bool :=
  match e with
  | logger_warning _ _ => true
  | _ => false
  end.

(** The spatial triple of a row. *)
Definition position (row : list R) : point :=
  (nth 2 row 0%R, nth 3 row 0%R, nth 4 row 0%R).

(** Two samples with negative proper times. *)
Definition backward_rows : list (list R) :=
  [[-2; 0; 10; PI / 2; 0]; [-1; 1; 10; PI / 2; 1 / 10]]%R.

(** Two samples, the first at the proper time 0 and the second at [tau]. *)
Definition extreme_rows (tau : R) : list (list R) :=
  [[0; 0; 10; 0; 0]; [tau; 1; 10; 0; 0]]%R.

(** [n] samples at the proper times 1, 2, ..., n, and the store after
    construction from them. *)
Definition ramp_rows (n : nat) : list (list R) :=
  map (fun k : nat => [INR (S k); 2 * INR (S k); 10; PI / 2; 0]%R) (seq 0 n).

Definition ramp_after (n : nat) : heap :=
  store_of (nd2 5 (map convert_row (ramp_rows n))).

(** ** Numbers: tests, ceiling, maximum *)

Lemma Ris_zero_true (x : R) : x = 0%R -> Ris_zero x = true.
Proof. intros ->. unfold Ris_zero. destruct (Req_dec_T 0 0); [reflexivity | contradiction]. Qed.

Lemma Ris_zero_false (x : R) : x <> 0%R -> Ris_zero x = false.
Proof. intros Hx. unfold Ris_zero. destruct (Req_dec_T x 0); [contradiction | reflexivity]. Qed.

Lemma Rsign_pos_true (x : R) : (0 < x)%R -> Rsign_pos x = true.
Proof. intros Hx. unfold Rsign_pos. destruct (Rlt_dec 0 x); [reflexivity | contradiction]. Qed.

(** ** Rounding to binary64 *)

Lemma bpow_gt_0 (e : Z) : (0 < bpow e)%R.
Proof. apply powerRZ_lt. lra. Qed.

Lemma bpow_add (a b : Z) : bpow (a + b) = (bpow a * bpow b)%R.
Proof. apply powerRZ_add. lra. Qed.

Lemma bpow_pos_num (p : positive) : bpow (Z.pos p) = IZR (2 ^ Z.pos p).
Proof. unfold bpow. simpl. rewrite pow_IZR. now rewrite positive_nat_Z. Qed.

Lemma bpow_neg_num (p : positive) : bpow (Z.neg p) = (/ IZR (2 ^ Z.pos p))%R.
Proof. unfold bpow. simpl. rewrite pow_IZR. now rewrite positive_nat_Z. Qed.

Lemma bpow_0 : bpow 0 = 1%R.
Proof. reflexivity. Qed.

(** Powers of two with a literal exponent, as numerals. *)
Ltac bpow_num :=
  repeat match goal with
  | |- context [bpow (?a + ?b)] =>
      let v := eval vm_compute in (a + b)%Z in
      lazymatch v with
      | Z0 => change (bpow (a + b)) with (bpow v)
      | Z.pos _ => change (bpow (a + b)) with (bpow v)
      | Z.neg _ => change (bpow (a + b)) with (bpow v)
      end
  end;
  repeat match goal with
  | |- context [bpow (Z.pos ?p)] =>
      let v := eval vm_compute in (2 ^ Z.pos p)%Z in
      rewrite (bpow_pos_num p); change (2 ^ Z.pos p)%Z with v
  | |- context [bpow (Z.neg ?p)] =>
      let v := eval vm_compute in (2 ^ Z.pos p)%Z in
      rewrite (bpow_neg_num p); change (2 ^ Z.pos p)%Z with v
  | |- context [bpow 0] => rewrite bpow_0
  end.

Lemma bpow_gt_1 (z : Z) : (0 < z)%Z -> (1 < bpow z)%R.
Proof.
  intros Hz. destruct z as [|p|p]; try lia.
  rewrite bpow_pos_num. apply IZR_lt. apply (Z.pow_gt_1 2 (Z.pos p)); lia.
Qed.

Lemma bpow_le (a b : Z) : (a <= b)%Z -> (bpow a <= bpow b)%R.
Proof.
  intros Hab. pose proof (bpow_gt_0 a) as Ha.
  destruct (Z.eq_dec a b) as [->|Hne]; [lra|].
  replace b with ((b - a) + a)%Z by lia. rewrite bpow_add.
  pose proof (bpow_gt_1 (b - a) ltac:(lia)). nra.
Qed.

Lemma bpow_lt (a b : Z) : (a < b)%Z -> (bpow a < bpow b)%R.
Proof.
  intros Hab. pose proof (bpow_gt_0 a) as Ha.
  replace b with ((b - a) + a)%Z by lia. rewrite bpow_add.
  pose proof (bpow_gt_1 (b - a) ltac:(lia)). nra.
Qed.

Lemma bpow_div (a b : Z) : (bpow a / bpow b)%R = bpow (a - b).
Proof.
  pose proof (bpow_gt_0 b) as Hb.
  replace a with ((a - b) + b)%Z at 1 by lia. rewrite bpow_add. field. lra.
Qed.

Lemma ln_bpow (k : Z) : ln (bpow k) = (IZR k * ln 2)%R.
Proof. unfold bpow. rewrite powerRZ_Rpower by lra. apply ln_Rpower. Qed.

(** The leading bit of [x] is the one of the power of two just below [|x|]. *)
Lemma mag_unique (x : R) (k : Z) :
  (bpow k <= Rabs x < bpow (k + 1))%R -> mag x = k.
Proof.
  intros [Hlo Hhi]. unfold mag. apply Zfloor_eq.
  pose proof ln_lt_2 as H2. assert (0 < ln 2)%R as Hln by lra.
  pose proof (bpow_gt_0 k) as Hk.
  assert (IZR k * ln 2 <= ln (Rabs x))%R as H1.
  { rewrite <- ln_bpow. destruct Hlo as [Hlo| <-]; [|lra].
    left. apply ln_increasing; assumption. }
  assert (ln (Rabs x) < (IZR k + 1) * ln 2)%R as H3.
  { rewrite <- plus_IZR, <- ln_bpow. apply ln_increasing; lra. }
  split.
  - apply (Rmult_le_reg_r (ln 2)); [assumption|]. field_simplify; lra.
  - apply (Rmult_lt_reg_r (ln 2)); [assumption|]. field_simplify; lra.
Qed.

Lemma round_half_even_eq (y : R) (n : Z) :
  (IZR n - 1 / 2 < y < IZR n + 1 / 2)%R -> round_half_even y = n.
Proof.
  intros [Hlo Hhi]. unfold round_half_even.
  destruct (Rle_dec (IZR n) y) as [Hge|Hlt].
  - rewrite (Zfloor_eq n y) by lra.
    destruct (Rlt_dec (y - IZR n) (1 / 2)); [reflexivity | lra].
  - rewrite (Zfloor_eq (n - 1) y) by (rewrite minus_IZR; lra).
    rewrite minus_IZR.
    destruct (Rlt_dec (y - (IZR n - 1)) (1 / 2)); [lra|].
    destruct (Rlt_dec (1 / 2) (y - (IZR n - 1))); [lia | lra].
Qed.

(** An integer of at most 53 bits times a power of two whose exponent is at
    most 970 lies below 2^1024. *)
Lemma binary64_finite (n e : Z) :
  (Z.abs n <= 9007199254740992)%Z -> (e <= 970)%Z ->
  (Rabs (IZR n * bpow e) < bpow 1024)%R.
Proof.
  intros Hn He. rewrite Rabs_mult, <- abs_IZR.
  rewrite (Rabs_pos_eq (bpow e)) by (left; apply bpow_gt_0).
  replace 1024%Z with ((971 - e) + (53 + e))%Z by lia.
  rewrite bpow_add. pose proof (bpow_gt_1 (971 - e) ltac:(lia)) as H1.
  pose proof (bpow_gt_0 (53 + e)) as H2. pose proof (bpow_gt_0 e) as H3.
  assert (IZR (Z.abs n) * bpow e <= bpow (53 + e))%R as H4.
  { rewrite bpow_add. apply Rmult_le_compat_r; [lra|].
    change 53%Z with (Z.pos 53). rewrite bpow_pos_num. now apply IZR_le. }
  nra.
Qed.

(** [round64] at a non-zero real [x]: [k] is the exponent of its leading
    bit, [e] that of the last bit of the doubles around it, and [n] the
    integer nearest to [x] counted in units of the last bit. *)
Lemma round64_eval (x : R) (k e n : Z) :
  (bpow k <= Rabs x < bpow (k + 1))%R ->
  e = Z.max (k - 52) (-1074) ->
  (IZR n - 1 / 2 < x / bpow e < IZR n + 1 / 2)%R ->
  (Z.abs n <= 9007199254740992)%Z -> (e <= 970)%Z ->
  round64 x = Fin (IZR n * bpow e).
Proof.
  intros Hk He Hn Hb He'. unfold round64.
  rewrite Ris_zero_false.
  2:{ intros ->. rewrite Rabs_R0 in Hk. pose proof (bpow_gt_0 k). lra. }
  unfold ulp_exponent. rewrite (mag_unique x k Hk), <- He.
  rewrite (round_half_even_eq _ n Hn).
  pose proof (binary64_finite n e Hb He').
  destruct (Rle_dec _ _); [lra | reflexivity].
Qed.

(** A real that is a double is returned as it is. *)
Lemma round64_double (x : R) (k e n : Z) :
  (bpow k <= Rabs x < bpow (k + 1))%R ->
  e = Z.max (k - 52) (-1074) ->
  x = (IZR n * bpow e)%R ->
  (Z.abs n <= 9007199254740992)%Z -> (e <= 970)%Z ->
  round64 x = Fin x.
Proof.
  intros Hk He Hx Hb He'. rewrite (round64_eval x k e n); try assumption.
  - now rewrite <- Hx.
  - pose proof (bpow_gt_0 e) as Hp.
    replace (x / bpow e)%R with (IZR n) by (rewrite Hx; field; lra). lra.
Qed.

Lemma round64_0 : round64 0 = Fin 0.
Proof. unfold round64. now rewrite Ris_zero_true. Qed.

Lemma mag_bpow (k : Z) : mag (bpow k) = k.
Proof.
  apply mag_unique. pose proof (bpow_gt_0 k). rewrite Rabs_pos_eq by lra.
  split; [lra | apply bpow_lt; lia].
Qed.

(** A power of two from 2^1024 on is rounded to +infinity. *)
Lemma round64_bpow_overflow (k : Z) : (1024 <= k)%Z -> round64 (bpow k) = Inf true.
Proof.
  intros Hk. unfold round64. pose proof (bpow_gt_0 k) as Hp.
  rewrite Ris_zero_false by lra. unfold ulp_exponent. rewrite mag_bpow.
  rewrite Z.max_l by lia. rewrite bpow_div.
  replace (k - (k - 52))%Z with 52%Z by lia.
  rewrite (round_half_even_eq _ 4503599627370496) by (bpow_num; lra).
  replace (IZR 4503599627370496 * bpow (k - 52))%R with (bpow k).
  2:{ replace k with (52 + (k - 52))%Z at 1 by lia. rewrite bpow_add.
      f_equal. bpow_num. reflexivity. }
  rewrite Rabs_pos_eq by lra.
  destruct (Rle_dec (bpow 1024) (bpow k)) as [|Hn].
  - now rewrite Rsign_pos_true.
  - exfalso. apply Hn, bpow_le. lia.
Qed.

(** A power of two below 2^-1075, half the least subnormal number, is
    rounded to zero. *)
Lemma round64_bpow_underflow (k : Z) : (k <= -1076)%Z -> round64 (bpow k) = Fin 0.
Proof.
  intros Hk. unfold round64. pose proof (bpow_gt_0 k) as Hp.
  rewrite Ris_zero_false by lra. unfold ulp_exponent. rewrite mag_bpow.
  rewrite Z.max_r by lia. rewrite bpow_div.
  assert (bpow (k - -1074) <= bpow (-2))%R as Hle by (apply bpow_le; lia).
  assert (bpow (-2) = / 4)%R as E by (bpow_num; reflexivity).
  pose proof (bpow_gt_0 (k - -1074)) as Hq.
  rewrite (round_half_even_eq _ 0) by lra.
  rewrite Rmult_0_l, Rabs_R0.
  destruct (Rle_dec (bpow 1024) 0) as [H|]; [|reflexivity].
  pose proof (bpow_gt_0 1024). lra.
Qed.

Lemma round_half_even_sign (y : R) :
  ((0 <= y)%R -> (0 <= round_half_even y)%Z) /\
  ((y <= 0)%R -> (round_half_even y <= 0)%Z).
Proof.
  unfold round_half_even. pose proof (Zfloor_bound y) as Hb. split; intros Hy.
  - assert (0 <= Zfloor y)%Z by (apply Zfloor_lub; exact Hy).
    destruct (Rlt_dec _ _); [lia|]. destruct (Rlt_dec _ _); [lia|].
    destruct (Z.even _); lia.
  - assert (Zfloor y <= 0)%Z by (apply le_IZR; lra).
    destruct (Rlt_dec (y - IZR (Zfloor y)) (1 / 2)) as [|Hge]; [lia|].
    assert (Zfloor y < 0)%Z by (apply lt_IZR; lra).
    destruct (Rlt_dec _ _); [lia|]. destruct (Z.even _); lia.
Qed.

(** Rounding keeps the sign, and never gives NaN. *)
Lemma round64_sign (x r : R) :
  round64 x = Fin r ->
  ((0 <= x)%R -> (0 <= r)%R) /\ ((x <= 0)%R -> (r <= 0)%R).
Proof.
  unfold round64. destruct (Ris_zero x).
  - intros E. injection E as <-. split; intros; lra.
  - destruct (Rle_dec _ _); [discriminate|]. intros E. injection E as <-.
    pose proof (bpow_gt_0 (ulp_exponent x)) as Hp.
    destruct (round_half_even_sign (x / bpow (ulp_exponent x))) as [Hpos Hneg].
    split; intros Hx.
    + assert (0 <= x / bpow (ulp_exponent x))%R as Hy.
      { apply Rmult_le_pos; [exact Hx | left; now apply Rinv_0_lt_compat]. }
      apply Hpos, IZR_le in Hy. nra.
    + assert (x / bpow (ulp_exponent x) <= 0)%R as Hy.
      { pose proof (Rinv_0_lt_compat _ Hp). unfold Rdiv. nra. }
      apply Hneg, IZR_le in Hy. nra.
Qed.

Lemma round64_not_nan (x : R) : round64 x <> NaN.
Proof.
  unfold round64. destruct (Ris_zero x); [discriminate|].
  destruct (Rle_dec _ _); discriminate.
Qed.

Lemma np_truediv_fin (x y : R) :
  y <> 0%R -> np_truediv (Fin x) (Fin y) = round64 (x / y).
Proof. intros Hy. unfold np_truediv. now rewrite Ris_zero_false. Qed.

Lemma np_mul_fin (x y : R) : np_mul (Fin x) (Fin y) = round64 (x * y).
Proof. reflexivity. Qed.

Lemma fold_Rmax_ge (s : list R) (x : R) : (x <= fold_left Rmax s x)%R.
Proof.
  revert x. induction s as [|y s IH]; intros x; simpl.
  - lra.
  - specialize (IH (Rmax x y)). pose proof (Rmax_l x y). lra.
Qed.

Lemma fold_Rmax_upper (s : list R) (x : R) :
  Forall (fun y => (y <= fold_left Rmax s x)%R) s.
Proof.
  revert x. induction s as [|y s IH]; intros x; simpl; constructor.
  - pose proof (fold_Rmax_ge s (Rmax x y)). pose proof (Rmax_r x y). lra.
  - apply IH.
Qed.

Lemma fold_Rmax_In (s : list R) (x : R) :
  fold_left Rmax s x = x \/ In (fold_left Rmax s x) s.
Proof.
  revert x. induction s as [|y s IH]; intros x; simpl.
  - now left.
  - destruct (IH (Rmax x y)) as [E | HIn].
    + rewrite E. unfold Rmax. destruct (Rle_dec x y); auto.
    + auto.
Qed.

(** [series.max()] of a column with a row is its greatest entry. *)
Lemma series_max_spec (s : list R) :
  s <> [] ->
  exists m, series_max s = Fin m /\ In m s /\ Forall (fun y => (y <= m)%R) s.
Proof.
  destruct s as [|x s]; [congruence | intros _].
  exists (fold_left Rmax s x). simpl. split; [reflexivity | split].
  - destruct (fold_Rmax_In s x) as [E | HIn]; [left; now rewrite E | now right].
  - constructor; [apply fold_Rmax_ge | apply fold_Rmax_upper].
Qed.

Lemma series_max_unique (s : list R) (m : R) :
  In m s -> Forall (fun y => (y <= m)%R) s -> series_max s = Fin m.
Proof.
  intros HIn Hub.
  destruct (series_max_spec s) as (m' & E & HIn' & Hub').
  { intros ->. destruct HIn. }
  rewrite E. f_equal. apply Rle_antisym.
  - rewrite Forall_forall in Hub. apply Hub. now apply list_elem_of_In.
  - rewrite Forall_forall in Hub'. apply Hub'. now apply list_elem_of_In.
Qed.

(** ** [range] with a positive step *)

Lemma range_len_pos (start stop step : Z) (i : nat) :
  (0 < step)%Z ->
  (i < Z.to_nat (range_len start stop step))%nat <->
  (start + Z.of_nat i * step < stop)%Z.
Proof.
  intros Hs. unfold range_len.
  destruct (Z.ltb_spec 0 step); [|lia].
  destruct (Z.ltb_spec start stop).
  - pose proof (Z.div_mod (stop - start - 1) step ltac:(lia)) as Hdm.
    pose proof (Z.mod_pos_bound (stop - start - 1) step ltac:(lia)) as Hr.
    set (q := ((stop - start - 1) / step)%Z) in *.
    set (r := ((stop - start - 1) mod step)%Z) in *.
    assert (0 <= q)%Z by (apply Z.div_pos; lia).
    split; intros Hi; nia.
  - simpl. split; [lia | nia].
Qed.

Lemma py_range_pos (start stop step : Z) :
  (0 < step)%Z ->
  py_range start stop step =
    OK (map (fun i : nat => (start + Z.of_nat i * step)%Z)
            (seq 0 (Z.to_nat (range_len start stop step)))).
Proof.
  intros Hs. unfold py_range. destruct (Z.eqb_spec step 0); [lia | reflexivity].
Qed.

(** ** Construction *)

Lemma convert_row_at_step (h : heap) (l : loc) (c : nat)
    (rows : list (list R)) (i : nat) (traj_point : list R) :
  h !! l = Some (nd2 c rows) ->
  rows !! i = Some traj_point ->
  SpaceTimeData.convert_row_at l h i =
    <[l := nd2 c (<[i := convert_row traj_point]> rows)]> h.
Proof.
  intros Hl Hi. unfold SpaceTimeData.convert_row_at, convert_row.
  rewrite Hl, Hi.
  destruct (tf.spherical_to_cartesian _ _ _) as [[x y] z]. reflexivity.
Qed.

Section Construction.
Variables (h : heap) (l : loc).

Lemma convert_loop_prefix (c : nat) (rows : list (list R)) (i : nat) :
  h !! l = Some (nd2 c rows) ->
  (i <= length rows)%nat ->
  foldl (SpaceTimeData.convert_row_at l) h (seq 0 i) =
    <[l := nd2 c (map convert_row (take i rows) ++ drop i rows)]> h.
Proof.
  intros Hl. induction i as [|i IH]; intros Hi.
  - simpl. rewrite drop_0. symmetry. now apply insert_id.
  - rewrite seq_S, foldl_app. simpl. rewrite IH by lia.
    destruct (lookup_lt_is_Some_2 rows i ltac:(lia)) as [tp Htp].
    erewrite convert_row_at_step.
    2: { apply lookup_insert_eq. }
    2: { rewrite lookup_app_r; rewrite length_map, length_take; [|lia].
         replace (i - i `min` length rows)%nat with 0%nat by lia.
         rewrite lookup_drop, Nat.add_0_r. exact Htp. }
    rewrite insert_insert_eq. do 2 f_equal.
    rewrite insert_app_r_alt; rewrite length_map, length_take; [|lia].
    replace (i - i `min` length rows)%nat with 0%nat by lia.
    rewrite (drop_S _ _ _ Htp). simpl.
    rewrite (take_S_r _ _ _ Htp), map_app. simpl.
    now rewrite <- app_assoc.
Qed.

(** The conversion loop overwrites every row of the buffer, and nothing
    else in the store. *)
Lemma convert_loop (c : nat) (rows : list (list R)) :
  h !! l = Some (nd2 c rows) ->
  foldl (SpaceTimeData.convert_row_at l) h (seq 0 (length rows)) =
    <[l := nd2 c (map convert_row rows)]> h.
Proof.
  intros Hl. rewrite (convert_loop_prefix c rows) by (auto; lia).
  now rewrite firstn_all, drop_all, app_nil_r.
Qed.

Lemma init_not_ndarray (v : pyval) (rs : R) (conversion : tf.CoordinateConversion.t) :
  as_ndarray h v = None ->
  SpaceTimeData.__init__ h v rs conversion =
    (h, Raise (ValueError "dataset must be numpy ndarray!")).
Proof. intros E. unfold SpaceTimeData.__init__. now rewrite E. Qed.

Lemma init_unsized (a : ndarray) (rs : R) (conversion : tf.CoordinateConversion.t) :
  h !! l = Some a -> shape a = [] ->
  SpaceTimeData.__init__ h (PyNdarray l) rs conversion =
    (h, Raise (TypeError "len() of unsized object")).
Proof.
  intros Hl Hs. unfold SpaceTimeData.__init__, as_ndarray, len.
  rewrite Hl. simpl. now rewrite Hs.
Qed.

Lemma init_bad_shape (a : ndarray) (rs : R) (conversion : tf.CoordinateConversion.t) :
  h !! l = Some a -> shape a <> [] -> (forall n, shape a <> [n; 5]) ->
  SpaceTimeData.__init__ h (PyNdarray l) rs conversion =
    (h, Raise (ValueError "dataset shape needs to be (N,5)!")).
Proof.
  intros Hl Hs Hn. unfold SpaceTimeData.__init__, as_ndarray, len.
  rewrite Hl. simpl. destruct (shape a) as [|n rest] eqn:E; [congruence|].
  destruct (decide (n :: rest = [n; 5])) as [E'|]; [|reflexivity].
  exfalso. now apply (Hn n).
Qed.

Lemma init_empty_state (rows : list (list R)) (rs : R)
    (conversion : tf.CoordinateConversion.t) :
  h !! l = Some (nd2 5 rows) -> any (nd2 5 rows) = false ->
  SpaceTimeData.__init__ h (PyNdarray l) rs conversion =
    (h, OK {| SpaceTimeData.rs := rs;
              SpaceTimeData.max_num_anim_frames := 100;
              SpaceTimeData.df := None |}).
Proof.
  intros Hl Ha. unfold SpaceTimeData.__init__, as_ndarray, len.
  rewrite Hl. simpl in Ha |- *.
  destruct (decide (_ = _)) as [_|Hne]; [|congruence].
  now rewrite Ha.
Qed.

Lemma init_with_data (rows : list (list R)) (rs : R)
    (conversion : tf.CoordinateConversion.t) :
  h !! l = Some (nd2 5 rows) -> any (nd2 5 rows) = true ->
  SpaceTimeData.__init__ h (PyNdarray l) rs conversion =
    (<[l := nd2 5 (converted conversion rows)]> h,
     OK {| SpaceTimeData.rs := rs;
           SpaceTimeData.max_num_anim_frames := 100;
           SpaceTimeData.df :=
             Some {| df_values := l; df_columns := DATA_COLUMNS |} |}).
Proof.
  intros Hl Ha. unfold SpaceTimeData.__init__, as_ndarray, len.
  rewrite Hl. simpl in Ha |- *.
  destruct (decide (_ = _)) as [_|Hne]; [|congruence].
  rewrite Ha. f_equal. destruct conversion; simpl.
  - now apply convert_loop.
  - symmetry. now apply insert_id.
Qed.

End Construction.

(** What a successful construction leaves: an instance without a frame and
    an untouched store, or a frame on the caller's buffer, converted. *)
Lemma init_inv (h h' : heap) (v : pyval) (rs : R)
    (conversion : tf.CoordinateConversion.t) (s : SpaceTimeData.self) :
  SpaceTimeData.__init__ h v rs conversion = (h', OK s) ->
  SpaceTimeData.rs s = rs /\ SpaceTimeData.max_num_anim_frames s = 100%Z /\
  ((SpaceTimeData.df s = None /\ h' = h) \/
   exists l rows,
     v = PyNdarray l /\ h !! l = Some (nd2 5 rows) /\
     any (nd2 5 rows) = true /\
     h' = <[l := nd2 5 (converted conversion rows)]> h /\
     holds h' s (converted conversion rows)).
Proof.
  intros H.
  destruct v as [l | rows | ]; try (rewrite init_not_ndarray in H by reflexivity; discriminate).
  destruct (h !! l) as [a|] eqn:Hl.
  2: { rewrite init_not_ndarray in H by (simpl; now rewrite Hl). discriminate. }
  destruct (shape a) as [|n rest] eqn:Hs.
  { rewrite (init_unsized h l a) in H by assumption. discriminate. }
  destruct (decide (rest = [5%nat])) as [->|Hrest].
  - destruct a as [x | x | c rows | d0 d1 d2 more]; simpl in Hs; try discriminate.
    injection Hs as <- ->.
    destruct (any (nd2 5 rows)) eqn:Ha.
    + rewrite (init_with_data h l rows) in H by assumption.
      injection H as <- <-. simpl. repeat split.
      right. exists l, rows. repeat split; try assumption.
      exists l. split; [reflexivity | apply lookup_insert_eq].
    + rewrite (init_empty_state h l rows) in H by assumption.
      injection H as <- <-. simpl. repeat split. now left.
  - rewrite (init_bad_shape h l a) in H; [discriminate | assumption | congruence |].
    intros m E. rewrite Hs in E. injection E as _ E. contradiction.
Qed.

Lemma any_rows_nonempty (c : nat) (rows : list (list R)) :
  any (nd2 c rows) = true -> rows <> [].
Proof. intros H ->. discriminate. Qed.

(** ** Reading a data frame *)

Section Reading.
Variables (h : heap) (s : SpaceTimeData.self) (rows : list (list R)).
Hypothesis Hholds : holds h s rows.

Lemma holds_get_df :
  exists data, SpaceTimeData.get_df s = OK data /\
               df_columns data = DATA_COLUMNS /\ df_rows h data = rows.
Proof.
  destruct Hholds as (l & Hdf & Hl). eexists. unfold SpaceTimeData.get_df.
  rewrite Hdf. split; [reflexivity|]. split; [reflexivity|].
  unfold df_rows. simpl. now rewrite Hl.
Qed.

Lemma holds_size : SpaceTimeData.size h s = OK (Z.of_nat (length rows)).
Proof.
  destruct holds_get_df as (data & Hd & _ & Hr).
  unfold SpaceTimeData.size. rewrite Hd. simpl. now rewrite Hr.
Qed.

End Reading.

Lemma df_col_tau (h : heap) (data : DataFrame) :
  df_columns data = DATA_COLUMNS ->
  df_col h data "tau" = OK (column 0 (df_rows h data)).
Proof. intros E. unfold df_col. now rewrite E. Qed.

Lemma df_col_t (h : heap) (data : DataFrame) :
  df_columns data = DATA_COLUMNS ->
  df_col h data "t" = OK (column 1 (df_rows h data)).
Proof. intros E. unfold df_col. now rewrite E. Qed.

Lemma df_col_x (h : heap) (data : DataFrame) :
  df_columns data = DATA_COLUMNS ->
  df_col h data "x" = OK (column 2 (df_rows h data)).
Proof. intros E. unfold df_col. now rewrite E. Qed.

Lemma df_col_y (h : heap) (data : DataFrame) :
  df_columns data = DATA_COLUMNS ->
  df_col h data "y" = OK (column 3 (df_rows h data)).
Proof. intros E. unfold df_col. now rewrite E. Qed.

Lemma df_col_z (h : heap) (data : DataFrame) :
  df_columns data = DATA_COLUMNS ->
  df_col h data "z" = OK (column 4 (df_rows h data)).
Proof. intros E. unfold df_col. now rewrite E. Qed.

Lemma series_at_column (j : nat) (rows : list (list R)) (k : Z) (row : list R) :
  (0 <= k)%Z -> rows !! Z.to_nat k = Some row ->
  series_at (column j rows) k = OK (nth j row 0%R).
Proof.
  intros Hk Hrow. unfold series_at, column.
  destruct (Z.ltb_spec k 0); [lia|].
  now rewrite list_lookup_fmap, Hrow.
Qed.

(** ** The event layer *)

Lemma mbind_OK {A B} (evs : list event) (a : A) (k : A -> M B) :
  mbind (evs, OK a) k = (evs ++ (k a).1, (k a).2).
Proof. unfold mbind. now destruct (k a). Qed.

Lemma mbind_Raise {A B} (evs : list event) (e : exn) (k : A -> M B) :
  mbind (evs, Raise e) k = (evs, Raise e).
Proof. reflexivity. Qed.

Lemma mbind_lift_OK {A B} (a : A) (k : A -> M B) : mbind (lift (OK a)) k = k a.
Proof. unfold lift. rewrite mbind_OK. now destruct (k a). Qed.

Lemma mbind_mret {A B} (a : A) (k : A -> M B) : mbind (mret a) k = k a.
Proof. apply mbind_lift_OK. Qed.

Lemma mbind_emit {B} (e : event) (k : unit -> M B) :
  mbind (emit e) k = (e :: (k tt).1, (k tt).2).
Proof. unfold emit. now rewrite mbind_OK. Qed.

(** An event of a sequence comes from its first part, or from the second
    part run on the value of the first. *)
Lemma mbind_In {A B} (m : M A) (k : A -> M B) (e : event) :
  In e (mbind m k).1 ->
  In e m.1 \/ exists a, m.2 = OK a /\ In e (k a).1.
Proof.
  destruct m as [evs [a | x]].
  - rewrite mbind_OK. simpl. intros H. apply in_app_or in H as [H | H]; eauto.
  - rewrite mbind_Raise. simpl. auto.
Qed.

Lemma for_each_In {A} (xs : list A) (body : A -> M unit) (e : event) :
  In e (for_each xs body).1 -> exists x, In x xs /\ In e (body x).1.
Proof.
  induction xs as [|x xs IH]; simpl.
  - intros [].
  - intros H. apply mbind_In in H as [H | (_ & _ & H)].
    + exists x. auto.
    + destruct (IH H) as (y & Hy & He). exists y. auto.
Qed.

Lemma for_each_OK {A} (xs : list A) (body : A -> M unit) (out : A -> list event) :
  Forall (fun x => body x = (out x, OK tt)) xs ->
  for_each xs body = (concat (map out xs), OK tt).
Proof.
  induction 1 as [|x xs Hx _ IH]; simpl; [reflexivity|].
  now rewrite Hx, mbind_OK, IH.
Qed.

(** ** Animation frames *)

Section Frames.
Variables (h : heap) (data : DataFrame) (rows : list (list R)).
Hypothesis Hcols : df_columns data = DATA_COLUMNS.
Hypothesis Hrows : df_rows h data = rows.

Lemma log_frame_ok (k : Z) (row : list R) :
  (0 <= k)%Z -> rows !! Z.to_nat k = Some row ->
  SpaceTimeData.log_frame h data k = (frame_at row, OK tt).
Proof.
  intros Hk Hrow. unfold SpaceTimeData.log_frame.
  rewrite df_col_tau, df_col_t, df_col_x, df_col_y, df_col_z by assumption.
  rewrite Hrows. simpl rbind.
  rewrite !(series_at_column _ rows k row) by assumption.
  reflexivity.
Qed.

Lemma log_frames_ok (ks : list Z) :
  Forall (fun k => (0 <= k < Z.of_nat (length rows))%Z) ks ->
  for_each ks (SpaceTimeData.log_frame h data) = (frames_at rows ks, OK tt).
Proof.
  intros Hks. unfold frames_at. apply for_each_OK.
  eapply Forall_impl; [exact Hks|]. intros k Hk. simpl in Hk.
  destruct (lookup_lt_is_Some_2 rows (Z.to_nat k) ltac:(lia)) as [row Hrow].
  rewrite (nth_lookup_Some _ _ _ _ Hrow). apply log_frame_ok; [lia | assumption].
Qed.

End Frames.

Lemma frame_indices_bounds (n f : Z) :
  (0 < f)%Z -> Forall (fun k => (1 <= k < n)%Z) (frame_indices n f).
Proof.
  intros Hf. unfold frame_indices. rewrite Forall_forall. intros k Hk.
  apply list_elem_of_In, in_map_iff in Hk as (i & <- & Hi).
  apply in_seq in Hi. pose proof (range_len_pos 1 n f i Hf) as Hr. nia.
Qed.

Section Sampler.
Variables (h : heap) (s : SpaceTimeData.self) (rows : list (list R)).
Hypothesis Hholds : holds h s rows.
Variable anim_step_size : R.
Hypothesis Hstep : (0 < anim_step_size)%R.

Let limit := SpaceTimeData.max_num_anim_frames s.
Let n := Z.of_nat (length rows).

Lemma computed_frame_step_size_holds (data : DataFrame) :
  SpaceTimeData.get_df s = OK data ->
  SpaceTimeData.computed_frame_step_size h s data anim_step_size =
    math_ceil (density anim_step_size rows).
Proof.
  intros Hd. destruct (holds_get_df h s rows Hholds) as (data' & Hd' & Hc & Hr).
  rewrite Hd in Hd'. injection Hd' as <-.
  unfold SpaceTimeData.computed_frame_step_size.
  rewrite df_col_tau, (holds_size h s rows), Hr by assumption. reflexivity.
Qed.

Lemma add_frames_ceil_raise (e : exn) :
  math_ceil (density anim_step_size rows) = Raise e ->
  SpaceTimeData._add_rerun_animation_frames h s anim_step_size = ([], Raise e).
Proof.
  intros Hc. destruct (holds_get_df h s rows Hholds) as (data & Hd & _ & _).
  unfold SpaceTimeData._add_rerun_animation_frames.
  destruct (Rle_dec anim_step_size 0); [lra|].
  rewrite Hd, mbind_lift_OK, (computed_frame_step_size_holds data Hd), Hc.
  reflexivity.
Qed.

Lemma add_frames_step (data : DataFrame) (c : Z) :
  SpaceTimeData.get_df s = OK data ->
  math_ceil (density anim_step_size rows) = OK c ->
  SpaceTimeData._add_rerun_animation_frames h s anim_step_size =
    match py_range 1 n (capped limit c) with
    | OK ks =>
        let '(evs, r) := for_each ks (SpaceTimeData.log_frame h data) in
        (cap_warning limit c ++ evs, r)
    | Raise e => (cap_warning limit c, Raise e)
    end.
Proof.
  intros Hd Hc.
  unfold SpaceTimeData._add_rerun_animation_frames.
  destruct (Rle_dec anim_step_size 0); [lra|].
  rewrite Hd, mbind_lift_OK, (computed_frame_step_size_holds data Hd), Hc.
  rewrite mbind_lift_OK, (holds_size h s rows Hholds).
  fold limit n. unfold capped, cap_warning.
  destruct (limit <? c)%Z.
  - unfold emit, mret, lift, mbind; simpl.
    destruct (py_range 1 n limit) as [ks|e].
    + now destruct (for_each ks _).
    + reflexivity.
  - unfold emit, mret, lift, mbind; simpl.
    destruct (py_range 1 n c) as [ks|e].
    + now destruct (for_each ks _).
    + reflexivity.
Qed.

(** With a positive step the loop shows the rows at [frame_indices]. *)
Lemma add_frames_pos (c : Z) :
  math_ceil (density anim_step_size rows) = OK c ->
  (0 < capped limit c)%Z ->
  SpaceTimeData._add_rerun_animation_frames h s anim_step_size =
    (cap_warning limit c ++ frames_at rows (frame_indices n (capped limit c)),
     OK tt).
Proof.
  intros Hc Hf.
  destruct (holds_get_df h s rows Hholds) as (data & Hd & Hcols & Hr).
  rewrite (add_frames_step data c Hd Hc), py_range_pos by assumption.
  fold (frame_indices n (capped limit c)).
  rewrite (log_frames_ok h data rows); [reflexivity | assumption | assumption |].
  eapply Forall_impl; [apply frame_indices_bounds; assumption|].
  simpl. intros k Hk. fold n. lia.
Qed.

End Sampler.

(** ** Sphere surfaces *)

Lemma log_sphere_eq (s : SpaceTimeData.self) (radius : R) (name : string)
    (color : list Z) (opacity : R) :
  SpaceTimeData._log_sphere s radius name color opacity =
    ([rr_log ("world/" ++ name) (Points3D (sphere_points radius) 2 color [])],
     OK tt).
Proof. reflexivity. Qed.

Lemma linspace_In (start stop : R) (num : nat) (x : R) :
  (2 <= num)%nat -> (start <= stop)%R ->
  In x (linspace start stop num) -> (start <= x <= stop)%R.
Proof.
  intros Hn Hle Hx. unfold linspace in Hx.
  apply in_map_iff in Hx as (i & <- & Hi). apply in_seq in Hi.
  assert (0 < INR (num - 1))%R as Hpos by (apply lt_0_INR; lia).
  assert (0 <= INR i <= INR (num - 1))%R as [Hi0 Hi1].
  { split; [apply pos_INR | apply le_INR; lia]. }
  set (d := INR (num - 1)) in *. set (t := INR i) in *.
  assert (0 <= t / d <= 1)%R as [Hq0 Hq1].
  { split.
    - apply Rmult_le_pos; [assumption | left; now apply Rinv_0_lt_compat].
    - apply (Rmult_le_reg_r d); [assumption|]. field_simplify; lra. }
  replace (start + t * ((stop - start) / d))%R
    with (start + (t / d) * (stop - start))%R by (field; lra).
  nra.
Qed.

Lemma linspace_last (start stop : R) (num : nat) :
  (2 <= num)%nat -> In stop (linspace start stop num).
Proof.
  intros Hn. unfold linspace. apply in_map_iff. exists (num - 1)%nat. split.
  - assert (0 < INR (num - 1))%R by (apply lt_0_INR; lia). field. lra.
  - apply in_seq. lia.
Qed.

Lemma linspace_In_first (start stop : R) (num : nat) :
  (1 <= num)%nat -> In start (linspace start stop num).
Proof.
  intros Hn. destruct num as [|num]; [lia|]. unfold linspace. left.
  change (INR 0) with 0%R. rewrite Rmult_0_l. apply Rplus_0_r.
Qed.

(** A point made from a radius and two angles lies at that distance. *)
Lemma norm_spherical_to_cartesian (r theta phi : R) :
  norm (tf.spherical_to_cartesian r theta phi) = Rabs r.
Proof.
  unfold norm, tf.spherical_to_cartesian. simpl.
  rewrite <- sqrt_Rsqr_abs. f_equal. unfold Rsqr.
  pose proof (sin2_cos2 theta) as Ht. pose proof (sin2_cos2 phi) as Hp.
  unfold Rsqr in Ht, Hp.
  replace (r * sin theta * cos phi * (r * sin theta * cos phi) +
           r * sin theta * sin phi * (r * sin theta * sin phi) +
           r * cos theta * (r * cos theta))%R
    with (r * r * (sin theta * sin theta * (sin phi * sin phi + cos phi * cos phi)
                   + cos theta * cos theta))%R by ring.
  rewrite Hp, Rmult_1_r, Ht. ring.
Qed.

Lemma sphere_points_length (radius : R) : length (sphere_points radius) = 256%nat.
Proof. reflexivity. Qed.

Lemma sphere_points_In (radius : R) (p : point) :
  In p (sphere_points radius) ->
  exists theta phi,
    In theta (linspace 0 PI 16) /\ In phi (linspace 0 (2 * PI) 16) /\
    p = tf.spherical_to_cartesian radius theta phi.
Proof.
  unfold sphere_points. intros H. apply in_flat_map in H as (phi & Hphi & H).
  apply in_map_iff in H as (theta & <- & Htheta). eauto.
Qed.

(** ** The whole of [plot] *)

Lemma plot_no_df (h : heap) (s : SpaceTimeData.self)
    (attractor_radius animation_step_size : R) (env : environ) :
  SpaceTimeData.df s = None ->
  SpaceTimeData.plot h s attractor_radius animation_step_size env =
    ([rr_init "gros"], Raise no_df).
Proof.
  intros Hdf. unfold SpaceTimeData.plot, SpaceTimeData.get_df.
  rewrite Hdf. reflexivity.
Qed.

Lemma size_no_df (h : heap) (s : SpaceTimeData.self) :
  SpaceTimeData.df s = None -> SpaceTimeData.size h s = Raise no_df.
Proof.
  intros Hdf. unfold SpaceTimeData.size, SpaceTimeData.get_df. now rewrite Hdf.
Qed.

Lemma plot_holds (h : heap) (s : SpaceTimeData.self) (rows : list (list R))
    (attractor_radius animation_step_size : R) (env : environ) :
  holds h s rows ->
  SpaceTimeData.plot h s attractor_radius animation_step_size env =
    match (if Rlt_dec 0 animation_step_size
           then SpaceTimeData._add_rerun_animation_frames h s animation_step_size
           else mret tt) with
    | (evs, OK _) => (static_scene s rows attractor_radius ++ evs ++ [sink env], OK tt)
    | (evs, Raise e) => (static_scene s rows attractor_radius ++ evs, Raise e)
    end.
Proof.
  intros Hholds. destruct (holds_get_df h s rows Hholds) as (data & Hd & Hcols & Hr).
  unfold SpaceTimeData.plot, static_scene.
  rewrite Hd, !mbind_lift_OK.
  rewrite df_col_x, df_col_y, df_col_z, Hr, !mbind_lift_OK by assumption.
  rewrite !log_sphere_eq.
  destruct (Rlt_dec 0 attractor_radius);
    destruct (if Rlt_dec 0 animation_step_size then _ else _) as [evs [[]|e]];
    destruct env; reflexivity.
Qed.

(** ** The value under [math.ceil] *)

(** Over a non-zero greatest proper time the value is the double nearest to
    the product of the number of rows and [q], the double nearest to the
    quotient, provided the latter is finite. *)
Lemma density_pos (anim_step_size m q : R) (rows : list (list R)) :
  series_max (column 0 rows) = Fin m -> m <> 0%R ->
  round64 (anim_step_size / m) = Fin q ->
  density anim_step_size rows = round64 (q * IZR (Z.of_nat (length rows))).
Proof.
  intros Hm Hne Hq. unfold density.
  now rewrite Hm, (np_truediv_fin _ m Hne), Hq, np_mul_fin.
Qed.

(** A positive step over a zero time span is +infinity, whatever the number
    of rows (there is at least one). *)
Lemma density_zero_span (anim_step_size : R) (rows : list (list R)) :
  (0 < anim_step_size)%R -> rows <> [] ->
  series_max (column 0 rows) = Fin 0 ->
  density anim_step_size rows = Inf true.
Proof.
  intros Hs Hne Hm. unfold density. rewrite Hm. simpl.
  rewrite (Ris_zero_true 0 eq_refl), (Ris_zero_false anim_step_size) by lra.
  rewrite (Rsign_pos_true anim_step_size Hs).
  assert (0 < IZR (Z.of_nat (length rows)))%R as Hn.
  { apply IZR_lt. destruct rows; [congruence | simpl; lia]. }
  simpl. rewrite Ris_zero_false by lra. now rewrite Rsign_pos_true.
Qed.

Lemma Zceil_pos (x : R) : (0 < x)%R -> (0 < Zceil x)%Z.
Proof.
  intros Hx. apply lt_IZR. pose proof (Zceil_bound x). lra.
Qed.

Lemma any_true_intro (c : nat) (rows : list (list R)) (row : list R) (x : R) :
  In row rows -> In x row -> x <> 0%R -> any (nd2 c rows) = true.
Proof.
  intros Hrow Hx Hne. simpl. apply existsb_exists. exists row. split; [assumption|].
  apply existsb_exists. exists x. split; [assumption|].
  now rewrite Ris_zero_false.
Qed.

Lemma any_false_intro (c : nat) (rows : list (list R)) :
  Forall (Forall (fun x => x = 0%R)) rows -> any (nd2 c rows) = false.
Proof.
  intros H. simpl. apply not_true_is_false. intros E.
  apply existsb_exists in E as (row & Hrow & E).
  apply existsb_exists in E as (x & Hx & E).
  rewrite Forall_forall in H. specialize (H row (proj2 (list_elem_of_In _ _) Hrow)).
  rewrite Forall_forall in H. specialize (H x (proj2 (list_elem_of_In _ _) Hx)).
  rewrite (Ris_zero_true x H) in E. discriminate.
Qed.

(** ** Rows before and after the conversion *)

Lemma nth_insert_ne (l : list R) (i j : nat) (x d : R) :
  i <> j -> nth j (<[i := x]> l) d = nth j l d.
Proof.
  intros Hne. destruct (l !! j) as [y|] eqn:E.
  - rewrite (nth_lookup_Some _ _ _ _ E).
    apply nth_lookup_Some. now rewrite list_lookup_insert_ne.
  - rewrite !nth_overflow; [reflexivity | |].
    + now apply lookup_ge_None.
    + rewrite length_insert. now apply lookup_ge_None.
Qed.

(** The time columns are not touched by the conversion. *)
Lemma column_convert_row (j : nat) (rows : list (list R)) :
  (j < 2)%nat -> column j (map convert_row rows) = column j rows.
Proof.
  intros Hj. unfold column. rewrite map_map. apply map_ext. intros row.
  unfold convert_row. destruct (tf.spherical_to_cartesian _ _ _) as [[x y] z].
  rewrite !nth_insert_ne by lia. reflexivity.
Qed.

Lemma converted_length (conversion : tf.CoordinateConversion.t)
    (rows : list (list R)) :
  length (converted conversion rows) = length rows.
Proof. destruct conversion; [apply length_map | reflexivity]. Qed.

(** ** Construction from a one-array store *)

Lemma init_store (rows : list (list R)) (rs : R)
    (conversion : tf.CoordinateConversion.t) :
  any (nd2 5 rows) = true ->
  SpaceTimeData.__init__ (store_of (nd2 5 rows)) (PyNdarray 1) rs conversion =
    (store_of (nd2 5 (converted conversion rows)), OK (dataset_of rs)).
Proof.
  intros Ha. unfold store_of.
  rewrite (init_with_data _ 1 rows rs conversion (lookup_singleton_eq _ _) Ha).
  now rewrite insert_singleton_eq.
Qed.

Lemma holds_store (rows : list (list R)) (rs : R) :
  holds (store_of (nd2 5 rows)) (dataset_of rs) rows.
Proof. exists 1%positive. split; [reflexivity | apply lookup_singleton_eq]. Qed.

Lemma count_frames_static (s : SpaceTimeData.self) (rows : list (list R))
    (attractor_radius : R) :
  count_frames (static_scene s rows attractor_radius) = 0%nat.
Proof.
  unfold static_scene, count_frames.
  destruct (Rlt_dec 0 attractor_radius); reflexivity.
Qed.

Lemma count_frames_app (evs evs' : list event) :
  count_frames (evs ++ evs') = (count_frames evs + count_frames evs')%nat.
Proof. unfold count_frames. now rewrite List.filter_app, length_app. Qed.

Lemma count_frames_frames_at (rows : list (list R)) (ks : list Z) :
  count_frames (frames_at rows ks) = length ks.
Proof.
  unfold frames_at. induction ks as [|k ks IH]; [reflexivity|].
  cbn [map concat]. rewrite count_frames_app, IH. reflexivity.
Qed.

(** ** The events of the animation, whatever the instance *)

Lemma lift_bind_In {A B} (r : result A) (k : A -> M B) (e : event) :
  In e (mbind (lift r) k).1 -> exists a, r = OK a /\ In e (k a).1.
Proof.
  intros H. apply mbind_In in H as [[] | (a & Ha & H)]. eauto.
Qed.

Lemma rbind_OK {A B} (r : result A) (k : A -> result B) (b : B) :
  rbind r k = OK b -> exists a, r = OK a /\ k a = OK b.
Proof. destruct r as [a|e]; simpl; [eauto | discriminate]. Qed.

(** A turn of the loop logs the time of row [k] and one point labelled with
    the two times of that row and the two quantities derived from them. *)
Lemma log_frame_events (h : heap) (data : DataFrame) (k : Z) (e : event) :
  In e (SpaceTimeData.log_frame h data k).1 ->
  exists tau_col t_col current_tau current_t,
    df_col h data "tau" = OK tau_col /\ series_at tau_col k = OK current_tau /\
    df_col h data "t" = OK t_col /\ series_at t_col k = OK current_t /\
    (e = rr_set_time "tau" current_tau \/
     exists x y z,
       e = rr_log "world/particle"
             (Points3D [(x, y, z)] 6 [255; 0; 0]%Z
                [label_tau current_tau; label_t current_t;
                 label_gamma (SpaceTimeData.time_dilation current_t current_tau);
                 label_dt (SpaceTimeData.time_diff current_t current_tau)])).
Proof.
  unfold SpaceTimeData.log_frame. intros H.
  apply lift_bind_In in H as (current_tau & Htau & H).
  apply lift_bind_In in H as (current_t & Ht & H).
  apply rbind_OK in Htau as (tau_col & Htc & Htau).
  apply rbind_OK in Ht as (t_col & Htc' & Ht).
  exists tau_col, t_col, current_tau, current_t. repeat (split; [assumption|]).
  apply mbind_In in H as [[<- | []] | (_ & _ & H)]; [now left|].
  apply lift_bind_In in H as (x & _ & H).
  apply lift_bind_In in H as (y & _ & H).
  apply lift_bind_In in H as (z & _ & H).
  destruct H as [<- | []]. right. now exists x, y, z.
Qed.

(** The events of [_add_rerun_animation_frames]: at most the warning, then
    events of turns of the loop. *)
Lemma add_frames_events (h : heap) (s : SpaceTimeData.self) (anim_step_size : R)
    (e : event) :
  In e (SpaceTimeData._add_rerun_animation_frames h s anim_step_size).1 ->
  (0 < anim_step_size)%R /\
  ((exists msg limit, e = logger_warning msg limit) \/
   (exists data k, SpaceTimeData.get_df s = OK data /\
                   In e (SpaceTimeData.log_frame h data k).1)).
Proof.
  unfold SpaceTimeData._add_rerun_animation_frames.
  destruct (Rle_dec anim_step_size 0) as [|Hpos]; [intros [] |].
  intros H. split; [lra|].
  apply lift_bind_In in H as (data & Hd & H).
  apply lift_bind_In in H as (c & Hc & H).
  apply mbind_In in H as [H | (f & _ & H)].
  - left. destruct (_ <? _)%Z; [|destruct H].
    apply mbind_In in H as [[<- | []] | (_ & _ & [])]. eauto.
  - right. apply lift_bind_In in H as (n & _ & H).
    apply lift_bind_In in H as (ks & _ & H).
    apply for_each_In in H as (k & _ & H). eauto.
Qed.

(** ** Sampling with the computed step *)

Lemma capped_pos (limit c : Z) : (0 < limit)%Z -> (0 < c)%Z -> (0 < capped limit c)%Z.
Proof. intros Hl Hc. unfold capped. now destruct (limit <? c)%Z. Qed.

Lemma series_max_nonempty (rows : list (list R)) (m : R) :
  series_max (column 0 rows) = Fin m -> rows <> [].
Proof. intros H ->. discriminate. Qed.

Lemma rows_nonempty_length (rows : list (list R)) :
  rows <> [] -> (1 <= Z.of_nat (length rows))%Z.
Proof. destruct rows; [congruence | simpl; lia]. Qed.

(** Below a sample count of at least 1, a negative step yields no index. *)
Lemma frame_indices_neg (n f : Z) : (1 <= n)%Z -> (f < 0)%Z -> frame_indices n f = [].
Proof.
  intros Hn Hf. unfold frame_indices, range_len.
  destruct (Z.ltb_spec 0 f); [lia|]. destruct (Z.ltb_spec n 1); [lia|]. reflexivity.
Qed.

(** What the method does with the step [c] that [math.ceil] returned: the
    warning, if [c] is capped, and then the frames of the rows at
    [frame_indices], unless the step is zero, for which [range] raises. *)
Lemma add_frames_computed (h : heap) (s : SpaceTimeData.self)
    (rows : list (list R)) (anim_step_size : R) (data : DataFrame) (c : Z) :
  holds h s rows -> rows <> [] ->
  (0 < anim_step_size)%R ->
  SpaceTimeData.get_df s = OK data ->
  SpaceTimeData.computed_frame_step_size h s data anim_step_size = OK c ->
  (capped (SpaceTimeData.max_num_anim_frames s) c <> 0%Z ->
   SpaceTimeData._add_rerun_animation_frames h s anim_step_size =
     (cap_warning (SpaceTimeData.max_num_anim_frames s) c
      ++ frames_at rows
           (frame_indices (Z.of_nat (length rows))
              (capped (SpaceTimeData.max_num_anim_frames s) c)),
      OK tt)) /\
  (capped (SpaceTimeData.max_num_anim_frames s) c = 0%Z ->
   SpaceTimeData._add_rerun_animation_frames h s anim_step_size =
     (cap_warning (SpaceTimeData.max_num_anim_frames s) c,
      Raise (ValueError "range() arg 3 must not be zero"))).
Proof.
  intros Hholds Hne Hs Hd Hc.
  rewrite (computed_frame_step_size_holds h s rows Hholds anim_step_size data Hd) in Hc.
  pose proof (rows_nonempty_length rows Hne) as Hn.
  split; intros Hf.
  - destruct (Z.lt_total (capped (SpaceTimeData.max_num_anim_frames s) c) 0)
      as [Hneg | [E | Hpos]]; [|contradiction|].
    + rewrite (add_frames_step h s rows Hholds anim_step_size Hs data c Hd Hc).
      rewrite (frame_indices_neg _ _ Hn Hneg). unfold py_range, range_len.
      destruct (Z.eqb_spec (capped (SpaceTimeData.max_num_anim_frames s) c) 0);
        [contradiction|].
      destruct (Z.ltb_spec 0 (capped (SpaceTimeData.max_num_anim_frames s) c)); [lia|].
      destruct (Z.ltb_spec (Z.of_nat (length rows)) 1); [lia|]. reflexivity.
    + now apply (add_frames_pos h s rows Hholds anim_step_size Hs).
  - rewrite (add_frames_step h s rows Hholds anim_step_size Hs data c Hd Hc), Hf.
    reflexivity.
Qed.

(** ** The arithmetic progression of frame indices *)

Lemma frame_indices_lookup (n f : Z) (i : nat) (k : Z) :
  (0 < f)%Z ->
  frame_indices n f !! i = Some k <-> (k = 1 + Z.of_nat i * f /\ k < n)%Z.
Proof.
  intros Hf. unfold frame_indices. rewrite list_lookup_fmap.
  pose proof (range_len_pos 1 n f i Hf) as Hr. split.
  - intros H. destruct (seq 0 _ !! i) as [j|] eqn:E; [|discriminate].
    apply lookup_seq in E as [-> Hi]. simpl in H. injection H as <-.
    split; [reflexivity | now apply Hr].
  - intros [-> Hk]. apply Hr in Hk.
    now rewrite (proj2 (lookup_seq 0 _ i i) (conj eq_refl Hk)).
Qed.

Lemma frame_indices_sorted (n f : Z) :
  (0 < f)%Z -> StronglySorted Z.lt (frame_indices n f).
Proof.
  intros Hf. unfold frame_indices.
  generalize (Z.to_nat (range_len 1 n f)) as len. intros len.
  generalize 0%nat as start. induction len as [|len IH]; intros start; simpl.
  - constructor.
  - constructor; [apply IH|].
    rewrite Forall_forall. intros k Hk.
    apply list_elem_of_In, in_map_iff in Hk as (j & <- & Hj).
    apply in_seq in Hj. nia.
Qed.

Lemma frame_indices_head (n f : Z) :
  (0 < f)%Z -> (1 < n)%Z -> frame_indices n f !! 0%nat = Some 1%Z.
Proof. intros Hf Hn. apply frame_indices_lookup; [assumption | lia]. Qed.

(** ** Instances with a data frame *)

(** A constructed instance whose attribute [df] can be read holds at least
    one row, and its limit is 100. *)
Lemma init_dataset (h0 h : heap) (v : pyval) (rs : R)
    (conversion : tf.CoordinateConversion.t) (s : SpaceTimeData.self)
    (data : DataFrame) :
  SpaceTimeData.__init__ h0 v rs conversion = (h, OK s) ->
  SpaceTimeData.get_df s = OK data ->
  SpaceTimeData.max_num_anim_frames s = 100%Z /\
  exists rows,
    holds h s rows /\ rows <> [] /\
    df_col h data "tau" = OK (column 0 rows) /\
    SpaceTimeData.size h s = OK (Z.of_nat (length rows)).
Proof.
  intros Hinit Hd.
  destruct (init_inv _ _ _ _ _ _ Hinit) as (_ & Hmax & [[Hnone _] | Hsome]).
  { unfold SpaceTimeData.get_df in Hd. rewrite Hnone in Hd. discriminate. }
  destruct Hsome as (l & rows & _ & _ & Hany & _ & Hholds).
  split; [exact Hmax|]. exists (converted conversion rows).
  destruct (holds_get_df _ _ _ Hholds) as (data' & Hd' & Hcols & Hr).
  rewrite Hd in Hd'. injection Hd' as <-.
  split; [exact Hholds|]. split; [|split].
  - intros E. apply (f_equal (@length _)) in E.
    rewrite converted_length in E. apply any_rows_nonempty in Hany.
    destruct rows; [congruence | discriminate].
  - rewrite df_col_tau, Hr by assumption. reflexivity.
  - now apply holds_size.
Qed.

(** ** Two samples at proper time 0 *)

Lemma still_init :
  SpaceTimeData.__init__ (store_of (nd2 5 still_rows)) (PyNdarray 1) 1
    tf.CoordinateConversion.spherical_to_cartesian
    = (store_of (nd2 5 (map convert_row still_rows)), OK (dataset_of 1)).
Proof.
  apply (init_store still_rows 1 tf.CoordinateConversion.spherical_to_cartesian).
  apply (any_true_intro 5 still_rows [0; 0; 10; PI / 2; 0]%R 10%R);
    [now left | simpl; tauto | lra].
Qed.

Lemma still_add_frames :
  SpaceTimeData._add_rerun_animation_frames
    (store_of (nd2 5 (map convert_row still_rows))) (dataset_of 1) 1
    = ([], Raise infinite).
Proof.
  apply (add_frames_ceil_raise _ _ _ (holds_store _ 1)); [lra|].
  rewrite (density_zero_span 1); [reflexivity | lra | discriminate |].
  rewrite column_convert_row by lia.
  apply series_max_unique; [now left | repeat constructor; lra].
Qed.

(** ** The end-to-end scenario *)

Lemma scenario_init :
  SpaceTimeData.__init__ scenario_before (PyNdarray 1) 1
    tf.CoordinateConversion.spherical_to_cartesian
    = (scenario_after, OK (dataset_of 1)).
Proof.
  apply (init_store scenario_rows 1 tf.CoordinateConversion.spherical_to_cartesian).
  apply (any_true_intro 5 scenario_rows [0; 0; 10; PI / 2; 0]%R 10%R);
    [now left | simpl; tauto | lra].
Qed.

Lemma scenario_holds : holds scenario_after (dataset_of 1) (map convert_row scenario_rows).
Proof. apply holds_store. Qed.

Lemma scenario_tau_max : series_max [0; 1; 2]%R = Fin 2.
Proof.
  apply series_max_unique; [simpl; tauto | repeat constructor; lra].
Qed.

(** The step computation in the scenario with the step 2: 2.0 / 2.0 is 1.0, 1.0 * 3 is
    3.0, and the ceiling is 3. *)
Lemma scenario_quotient : round64 (2 / 2) = Fin 1.
Proof.
  replace (2 / 2)%R with 1%R by lra.
  apply (round64_double 1 0 (-52) 4503599627370496); try reflexivity; try lia.
  - rewrite Rabs_pos_eq by lra. bpow_num. lra.
  - bpow_num. lra.
Qed.

Lemma scenario_product : round64 (1 * IZR 3) = Fin 3.
Proof.
  replace (1 * IZR 3)%R with 3%R by lra.
  apply (round64_double 3 1 (-51) 6755399441055744); try reflexivity; try lia.
  - rewrite Rabs_pos_eq by lra. bpow_num. lra.
  - bpow_num. lra.
Qed.

Lemma scenario_step :
  SpaceTimeData.computed_frame_step_size scenario_after (dataset_of 1) frame1 2 = OK 3%Z.
Proof.
  rewrite (computed_frame_step_size_holds _ _ _ scenario_holds _ frame1 eq_refl).
  rewrite (density_pos 2 2 1 (map convert_row scenario_rows) scenario_tau_max
             ltac:(lra) scenario_quotient).
  change (Z.of_nat (length (map convert_row scenario_rows))) with 3%Z.
  rewrite scenario_product. simpl. f_equal. apply Zceil_eq. lra.
Qed.

(** With the step 2 the scenario shows one frame, that of index 1. *)
Lemma scenario_add_frames :
  SpaceTimeData._add_rerun_animation_frames scenario_after (dataset_of 1) 2
    = (frame_at [1; 3 / 2; 10 * sin (PI / 2) * cos (1 / 10);
                 10 * sin (PI / 2) * sin (1 / 10); 10 * cos (PI / 2)]%R,
       OK tt).
Proof.
  destruct (add_frames_computed scenario_after (dataset_of 1)
              (map convert_row scenario_rows) 2 frame1 3 scenario_holds
              ltac:(discriminate) ltac:(lra) eq_refl scenario_step) as [E _].
  rewrite E by discriminate. reflexivity.
Qed.

(** ** Rows of five cells *)

Lemma convert_row_wf (row : list R) :
  length row = 5%nat -> convert_row row = cartesian_row row.
Proof.
  destruct row as [|a [|b [|c [|d [|e [|]]]]]]; try discriminate. reflexivity.
Qed.

Lemma map_convert_row_wf (rows : list (list R)) :
  Forall (fun row => length row = 5%nat) rows ->
  map convert_row rows = map cartesian_row rows.
Proof.
  induction 1 as [|row rows Hrow _ IH]; [reflexivity|].
  simpl. now rewrite IH, (convert_row_wf row Hrow).
Qed.

(** ** 102 samples *)

Lemma dense_init :
  SpaceTimeData.__init__ (store_of (nd2 5 dense_rows)) (PyNdarray 1) 1
    tf.CoordinateConversion.spherical_to_cartesian
    = (dense_after, OK (dataset_of 1)).
Proof.
  apply (init_store dense_rows 1 tf.CoordinateConversion.spherical_to_cartesian).
  apply (any_true_intro 5 dense_rows [INR 0; 2 * INR 0; 10; PI / 2; 0]%R 10%R);
    [now left | simpl; tauto | lra].
Qed.

Lemma dense_holds : holds dense_after (dataset_of 1) (map convert_row dense_rows).
Proof. apply holds_store. Qed.

Lemma dense_tau_max : series_max (column 0 (map convert_row dense_rows)) = Fin 101.
Proof.
  rewrite column_convert_row by lia.
  change (column 0 dense_rows) with (map INR (seq 0 102)).
  apply series_max_unique.
  - apply in_map_iff. exists 101%nat. split.
    + rewrite INR_IZR_INZ. reflexivity.
    + apply in_seq. lia.
  - rewrite Forall_forall. intros x Hx.
    apply list_elem_of_In, in_map_iff in Hx as (k & <- & Hk). apply in_seq in Hk.
    rewrite INR_IZR_INZ. apply IZR_le. lia.
Qed.

(** The step computation for the 102 samples with the step 1/2: the double nearest to
    0.5 / 101 is 5707532201023995 / 2^60, the double nearest to 102 times that
    is 4548189722690996 / 2^53, about 0.505, and the ceiling is 1. *)
Lemma dense_step :
  SpaceTimeData.computed_frame_step_size dense_after (dataset_of 1) frame1 (1 / 2)
    = OK 1%Z.
Proof.
  rewrite (computed_frame_step_size_holds _ _ _ dense_holds _ frame1 eq_refl).
  assert (round64 (1 / 2 / 101) = Fin (IZR 5707532201023995 * bpow (-60))) as Hq.
  { apply (round64_eval _ (-8)); try reflexivity; try lia.
    - rewrite Rabs_pos_eq by lra. bpow_num. lra.
    - bpow_num. lra. }
  rewrite (density_pos _ 101 _ _ dense_tau_max ltac:(lra) Hq).
  change (Z.of_nat (length (map convert_row dense_rows))) with 102%Z.
  rewrite (round64_eval _ (-1) (-53) 4548189722690996); try reflexivity; try lia.
  - simpl. f_equal. apply Zceil_eq. bpow_num. lra.
  - bpow_num. rewrite Rabs_pos_eq by lra. lra.
  - bpow_num. lra.
Qed.

(** With the step 1/2 every sample but the first is shown: 101 frames. *)
Lemma dense_add_frames :
  SpaceTimeData._add_rerun_animation_frames dense_after (dataset_of 1) (1 / 2)
    = (frames_at (map convert_row dense_rows) (frame_indices 102 1), OK tt).
Proof.
  destruct (add_frames_computed dense_after (dataset_of 1)
              (map convert_row dense_rows) (1 / 2) frame1 1 dense_holds
              ltac:(discriminate) ltac:(lra) eq_refl dense_step) as [E _].
  rewrite E by discriminate. reflexivity.
Qed.

(** ** What the static part of the scene contains *)

Lemma static_scene_no_frame (s : SpaceTimeData.self) (rows : list (list R))
    (attractor_radius : R) :
  Forall (fun e => is_frame_event e = false /\
                   forall msg limit, e <> logger_warning msg limit)
         (static_scene s rows attractor_radius).
Proof.
  unfold static_scene. destruct (Rlt_dec 0 attractor_radius);
    repeat constructor; discriminate.
Qed.

Lemma sink_no_frame (env : environ) :
  is_frame_event (sink env) = false /\
  forall msg limit, sink env <> logger_warning msg limit.
Proof. destruct env; split; (reflexivity || discriminate). Qed.

(** The path of a sphere surface. *)
Lemma frame_event_not_sphere (h : heap) (data : DataFrame) (k : Z)
    (path : string) (a : archetype) :
  In (rr_log path a) (SpaceTimeData.log_frame h data k).1 ->
  path = "world/particle"%string.
Proof.
  intros H. apply log_frame_events in H
    as (tc & tc' & tau & t & _ & _ & _ & _ & [H | (x & y & z & H)]); [discriminate|].
  injection H as E _. exact E.
Qed.

(** ** Samples at the proper times 1, 2, ..., n *)

Lemma ramp_init (n : nat) :
  SpaceTimeData.__init__ (store_of (nd2 5 (ramp_rows (S n)))) (PyNdarray 1) 1
    tf.CoordinateConversion.spherical_to_cartesian
    = (ramp_after (S n), OK (dataset_of 1)).
Proof.
  apply (init_store (ramp_rows (S n)) 1 tf.CoordinateConversion.spherical_to_cartesian).
  apply (any_true_intro 5 (ramp_rows (S n)) [INR 1; 2 * INR 1; 10; PI / 2; 0]%R 10%R);
    [now left | simpl; tauto | lra].
Qed.

Lemma ramp_holds (n : nat) :
  holds (ramp_after n) (dataset_of 1) (map convert_row (ramp_rows n)).
Proof. apply holds_store. Qed.

Lemma ramp_tau_max (n : nat) :
  series_max (column 0 (map convert_row (ramp_rows (S n)))) = Fin (INR (S n)).
Proof.
  rewrite column_convert_row by lia.
  unfold column, ramp_rows. rewrite map_map. cbn [nth].
  apply series_max_unique.
  - apply in_map_iff. exists n. split; [reflexivity | apply in_seq; lia].
  - rewrite Forall_forall. intros x Hx.
    apply list_elem_of_In, in_map_iff in Hx as (k & <- & Hk). apply in_seq in Hk.
    apply le_INR. lia.
Qed.

(** The step computation for 25 samples over the time span 25 with the step 7: the
    double nearest to 7 / 25 is 5044031582654956 / 2^54, a little above 0.28;
    the exact product with 25 lies above 7, and the double nearest to it is
    7881299347898369 / 2^50, the one that follows 7; the ceiling is 8. *)
Lemma ramp25_tau_max :
  series_max (column 0 (map convert_row (ramp_rows 25))) = Fin 25.
Proof.
  rewrite (ramp_tau_max 24). f_equal. rewrite INR_IZR_INZ. reflexivity.
Qed.

Lemma ramp25_quotient :
  round64 (7 / 25) = Fin (IZR 5044031582654956 * bpow (-54)).
Proof.
  apply (round64_eval _ (-2)); try reflexivity; try lia.
  - rewrite Rabs_pos_eq by lra. bpow_num. lra.
  - bpow_num. lra.
Qed.

Lemma ramp25_product :
  round64 (IZR 5044031582654956 * bpow (-54) * IZR 25)
    = Fin (IZR 7881299347898369 * bpow (-50)).
Proof.
  apply (round64_eval _ 2); try reflexivity; try lia.
  - bpow_num. rewrite Rabs_pos_eq by lra. lra.
  - bpow_num. lra.
Qed.

Lemma ramp25_step :
  SpaceTimeData.computed_frame_step_size (ramp_after 25) (dataset_of 1) frame1 7
    = OK 8%Z.
Proof.
  rewrite (computed_frame_step_size_holds _ _ _ (ramp_holds 25) _ frame1 eq_refl).
  rewrite (density_pos _ 25 _ (map convert_row (ramp_rows 25)) ramp25_tau_max
             ltac:(lra) ramp25_quotient).
  change (Z.of_nat (length (map convert_row (ramp_rows 25)))) with 25%Z.
  rewrite ramp25_product. simpl. f_equal. apply Zceil_eq. bpow_num. lra.
Qed.

(** ** Instances without a data frame *)

(** From an array of shape (N,5) without a non-zero cell the constructor
    returns an instance without the attribute [df]; reading it raises. *)
Lemma empty_state_raises (h : heap) (l : loc) (rows : list (list R)) (rs : R)
    (conversion : tf.CoordinateConversion.t)
    (attractor_radius animation_step_size : R) (env : environ) :
  h !! l = Some (nd2 5 rows) -> any (nd2 5 rows) = false ->
  SpaceTimeData.__init__ h (PyNdarray l) rs conversion = (h, OK (empty_state rs)) /\
  SpaceTimeData.size h (empty_state rs) = Raise no_df /\
  SpaceTimeData.plot h (empty_state rs) attractor_radius animation_step_size env
    = ([rr_init "gros"], Raise no_df).
Proof.
  intros Hl Ha. split; [now apply (init_empty_state h l rows)|].
  split; [now apply size_no_df | now apply plot_no_df].
Qed.

(** ** The claims *)

(** C1 (the code departs from it).  Built from an all-zero array of shape
    (2,5), or from an array of shape (0,5), the instance has no data frame:
    [size()] raises AttributeError instead of returning 0, and [plot], even
    with a positive attractor radius, raises it right after opening the
    session, before the singularity marker or a sphere is logged. *)
Theorem C1_empty_state_raises :
  (SpaceTimeData.__init__ (store_of (nd2 5 zero_rows)) (PyNdarray 1) 1
     tf.CoordinateConversion.spherical_to_cartesian
     = (store_of (nd2 5 zero_rows), OK (empty_state 1)) /\
   SpaceTimeData.size (store_of (nd2 5 zero_rows)) (empty_state 1) = Raise no_df /\
   SpaceTimeData.plot (store_of (nd2 5 zero_rows)) (empty_state 1) 1 0 None
     = ([rr_init "gros"], Raise no_df)) /\
  (SpaceTimeData.__init__ (store_of (nd2 5 [])) (PyNdarray 1) 1
     tf.CoordinateConversion.spherical_to_cartesian
     = (store_of (nd2 5 []), OK (empty_state 1)) /\
   SpaceTimeData.size (store_of (nd2 5 [])) (empty_state 1) = Raise no_df /\
   SpaceTimeData.plot (store_of (nd2 5 [])) (empty_state 1) 1 0 None
     = ([rr_init "gros"], Raise no_df)).
Proof.
  split.
  - apply (empty_state_raises _ 1%positive zero_rows 1
             tf.CoordinateConversion.spherical_to_cartesian 1 0 None);
      [apply lookup_singleton_eq|].
    apply any_false_intro. repeat constructor.
  - apply (empty_state_raises _ 1%positive [] 1
             tf.CoordinateConversion.spherical_to_cartesian 1 0 None);
      [apply lookup_singleton_eq | reflexivity].
Qed.

(** C2 (the code departs from it).  102 samples, one per unit of proper
    time, and the animation step 1/2: the computed step between indices is 1,
    below the limit 100, no warning is logged, and [plot] shows 101 frames,
    more than [max_num_anim_frames]. *)
Theorem C2_frame_count_exceeds_limit :
  SpaceTimeData.__init__ (store_of (nd2 5 dense_rows)) (PyNdarray 1) 1
    tf.CoordinateConversion.spherical_to_cartesian
    = (dense_after, OK (dataset_of 1)) /\
  SpaceTimeData.max_num_anim_frames (dataset_of 1) = 100%Z /\
  SpaceTimeData.size dense_after (dataset_of 1) = OK 102%Z /\
  SpaceTimeData.computed_frame_step_size dense_after (dataset_of 1) frame1 (1 / 2)
    = OK 1%Z /\
  SpaceTimeData._add_rerun_animation_frames dense_after (dataset_of 1) (1 / 2)
    = (frames_at (map convert_row dense_rows) (frame_indices 102 1), OK tt) /\
  count_frames (SpaceTimeData.plot dense_after (dataset_of 1) 0 (1 / 2) None).1
    = 101%nat.
Proof.
  split; [exact dense_init|]. split; [reflexivity|]. split; [reflexivity|].
  split; [exact dense_step|]. split; [exact dense_add_frames|].
  rewrite (plot_holds _ _ _ _ _ _ dense_holds).
  destruct (Rlt_dec 0 (1 / 2)); [|lra]. rewrite dense_add_frames.
  cbn [fst]. rewrite !count_frames_app, count_frames_static, count_frames_frames_at.
  reflexivity.
Qed.

(** C3 (the code departs from it).  Two samples, both at proper time 0, and
    the animation step 1: the division by the greatest proper time gives
    +infinity, [math.ceil] raises OverflowError, no frame is logged, and the
    exception leaves [plot]. *)
Theorem C3_zero_time_span_raises :
  SpaceTimeData.__init__ (store_of (nd2 5 still_rows)) (PyNdarray 1) 1
    tf.CoordinateConversion.spherical_to_cartesian
    = (store_of (nd2 5 (map convert_row still_rows)), OK (dataset_of 1)) /\
  df_col (store_of (nd2 5 (map convert_row still_rows)))
    {| df_values := 1%positive; df_columns := DATA_COLUMNS |} "tau"
    = OK [0; 0]%R /\
  SpaceTimeData.size (store_of (nd2 5 (map convert_row still_rows))) (dataset_of 1)
    = OK 2%Z /\
  SpaceTimeData._add_rerun_animation_frames
    (store_of (nd2 5 (map convert_row still_rows))) (dataset_of 1) 1
    = ([], Raise infinite) /\
  SpaceTimeData.plot (store_of (nd2 5 (map convert_row still_rows)))
    (dataset_of 1) 0 1 None
    = (static_scene (dataset_of 1) (map convert_row still_rows) 0, Raise infinite).
Proof.
  split; [|split; [|split; [|split]]].
  - exact still_init.
  - reflexivity.
  - reflexivity.
  - exact still_add_frames.
  - rewrite (plot_holds _ _ _ _ _ _ (holds_store _ 1)).
    destruct (Rlt_dec 0 1); [|lra]. rewrite still_add_frames. now rewrite app_nil_r.
Qed.

(** C4 (the code departs from it).  Two samples (N = 2 > 1), both at proper
    time 0, and the positive step 1: the method raises OverflowError before
    its loop, so index 1 is not shown, whatever the step between indices is
    taken to be. *)
Theorem C4_zero_time_span_no_index :
  SpaceTimeData.__init__ (store_of (nd2 5 still_rows)) (PyNdarray 1) 1
    tf.CoordinateConversion.spherical_to_cartesian
    = (store_of (nd2 5 (map convert_row still_rows)), OK (dataset_of 1)) /\
  SpaceTimeData.size (store_of (nd2 5 (map convert_row still_rows))) (dataset_of 1)
    = OK 2%Z /\
  SpaceTimeData._add_rerun_animation_frames
    (store_of (nd2 5 (map convert_row still_rows))) (dataset_of 1) 1
    = ([], Raise infinite) /\
  ~ (exists frame_step_size : Z,
       (0 < frame_step_size)%Z /\
       (SpaceTimeData._add_rerun_animation_frames
          (store_of (nd2 5 (map convert_row still_rows))) (dataset_of 1) 1).1
       = frames_at (map convert_row still_rows) (frame_indices 2 frame_step_size)).
Proof.
  split; [exact still_init | split; [reflexivity | split; [exact still_add_frames|]]].
  intros (f & Hf & E). rewrite still_add_frames in E. simpl in E.
  pose proof (frame_indices_head 2 f Hf ltac:(lia)) as Hhd.
  destruct (frame_indices 2 f) as [|k ks]; discriminate.
Qed.



(** C6 (the code departs from it).  An array without axes (shape [()]) is
    not of shape (N,5), yet the constructor does not reach its shape error:
    [len] raises TypeError inside the comparison of the shapes. *)
Theorem C6_unsized_array_type_error :
  shape (nd0 1) = [] /\
  SpaceTimeData.__init__ (store_of (nd0 1)) (PyNdarray 1) 1
    tf.CoordinateConversion.spherical_to_cartesian
    = (store_of (nd0 1), Raise (TypeError "len() of unsized object")) /\
  SpaceTimeData.__init__ (store_of (nd0 1)) (PyNdarray 1) 1
    tf.CoordinateConversion.spherical_to_cartesian
    <> (store_of (nd0 1), Raise (ValueError "dataset shape needs to be (N,5)!")).
Proof.
  assert (SpaceTimeData.__init__ (store_of (nd0 1)) (PyNdarray 1) 1
            tf.CoordinateConversion.spherical_to_cartesian
          = (store_of (nd0 1), Raise (TypeError "len() of unsized object"))) as E.
  { apply (init_unsized _ 1 (nd0 1)); [apply lookup_singleton_eq | reflexivity]. }
  split; [reflexivity | split; [exact E|]].
  rewrite E. intros H. discriminate.
Qed.

(** C7, counterexample.  25 samples at the proper times 1, ..., 25 and the
    step 7: ceil(7 / 25 * 25) is 7, but the step between frame indices is 8,
    since the double nearest to 7 / 25, multiplied by 25 and rounded again,
    lies above 7; the frames shown are those of the indices 1, 9 and 17. *)
Lemma C7_counterexample_rounded_product :
  SpaceTimeData.__init__ (store_of (nd2 5 (ramp_rows 25))) (PyNdarray 1) 1
    tf.CoordinateConversion.spherical_to_cartesian
    = (ramp_after 25, OK (dataset_of 1)) /\
  df_col (ramp_after 25) frame1 "tau"
    = OK (column 0 (map convert_row (ramp_rows 25))) /\
  series_max (column 0 (map convert_row (ramp_rows 25))) = Fin 25 /\
  SpaceTimeData.size (ramp_after 25) (dataset_of 1) = OK 25%Z /\
  Zceil (7 / 25 * IZR 25) = 7%Z /\
  SpaceTimeData.computed_frame_step_size (ramp_after 25) (dataset_of 1) frame1 7
    = OK 8%Z /\
  SpaceTimeData._add_rerun_animation_frames (ramp_after 25) (dataset_of 1) 7
    = (frames_at (map convert_row (ramp_rows 25)) [1; 9; 17]%Z, OK tt).
Proof.
  split; [exact (ramp_init 24)|]. split; [reflexivity|].
  split; [exact ramp25_tau_max|]. split; [reflexivity|].
  split; [apply Zceil_eq; lra|]. split; [exact ramp25_step|].
  destruct (add_frames_computed (ramp_after 25) (dataset_of 1)
              (map convert_row (ramp_rows 25)) 7 frame1 8 (ramp_holds 25)
              ltac:(discriminate) ltac:(lra) eq_refl ramp25_step) as [E _].
  rewrite E by discriminate. reflexivity.
Qed.

(** C7, amended.  For a constructed dataset whose greatest proper time
    tau_max is positive and a positive animation step, the step between frame
    indices, before it is compared with the limit, is the ceiling of
    step / tau_max * N as evaluated in double precision: [q] is
    the double nearest to step / tau_max, [p] the double nearest to q * N, and
    the step is ceil(p), whenever both are finite; tau_max is an entry of the
    tau column that no entry exceeds and N is [size()].  The step is not
    negative; when it is positive the loop runs over [range(1, N, ...)] of
    that step, capped, and when it is zero [range] raises ValueError. *)
Theorem C7_index_spacing (h0 h : heap) (v : pyval) (rs : R)
    (conversion : tf.CoordinateConversion.t) (s : SpaceTimeData.self)
    (data : DataFrame) (tau : list R) (tau_max : R) (N : Z)
    (animation_step_size q p : R) :
  SpaceTimeData.__init__ h0 v rs conversion = (h, OK s) ->
  SpaceTimeData.get_df s = OK data ->
  df_col h data "tau" = OK tau ->
  series_max tau = Fin tau_max ->
  SpaceTimeData.size h s = OK N ->
  (0 < tau_max)%R -> (0 < animation_step_size)%R ->
  round64 (animation_step_size / tau_max) = Fin q ->
  round64 (q * IZR N) = Fin p ->
  In tau_max tau /\ Forall (fun x => (x <= tau_max)%R) tau /\
  SpaceTimeData.computed_frame_step_size h s data animation_step_size
    = OK (Zceil p) /\
  (0 <= Zceil p)%Z /\
  exists rows,
    holds h s rows /\ N = Z.of_nat (length rows) /\
    ((0 < Zceil p)%Z ->
     SpaceTimeData._add_rerun_animation_frames h s animation_step_size =
       (cap_warning 100 (Zceil p)
        ++ frames_at rows (frame_indices N (capped 100 (Zceil p))),
        OK tt)) /\
    (Zceil p = 0%Z ->
     SpaceTimeData._add_rerun_animation_frames h s animation_step_size =
       ([], Raise (ValueError "range() arg 3 must not be zero"))).
Proof.
  intros Hinit Hd Htau Hmax Hsize Hpos Hstep Hq Hp.
  destruct (init_dataset _ _ _ _ _ _ _ Hinit Hd) as (Hlim & rows & Hholds & Hne & Htau' & Hsize').
  rewrite Htau in Htau'. injection Htau' as ->.
  rewrite Hsize in Hsize'. injection Hsize' as ->.
  destruct (series_max_spec (column 0 rows)) as (m & Hm & HIn & Hub).
  { intros E. rewrite E in Hmax. discriminate. }
  rewrite Hmax in Hm. injection Hm as <-.
  assert (SpaceTimeData.computed_frame_step_size h s data animation_step_size
          = OK (Zceil p)) as Hc.
  { rewrite (computed_frame_step_size_holds h s rows Hholds _ data Hd).
    rewrite (density_pos _ tau_max q rows Hmax ltac:(lra) Hq), Hp. reflexivity. }
  assert (0 <= Zceil p)%Z as Hc0.
  { pose proof (rows_nonempty_length rows Hne) as Hn. apply IZR_le in Hn.
    assert (0 <= q)%R as Hq0.
    { apply (proj1 (round64_sign _ _ Hq)).
      apply Rmult_le_pos; [lra | left; now apply Rinv_0_lt_compat]. }
    assert (0 <= p)%R as Hp0 by (apply (proj1 (round64_sign _ _ Hp)); nra).
    apply le_IZR. pose proof (Zceil_bound p). lra. }
  split; [exact HIn|]. split; [exact Hub|]. split; [exact Hc|]. split; [exact Hc0|].
  exists rows. split; [exact Hholds|]. split; [reflexivity|].
  destruct (add_frames_computed h s rows animation_step_size data (Zceil p)
              Hholds Hne Hstep Hd Hc) as [Hrun Hzero].
  rewrite Hlim in Hrun, Hzero. split.
  - intros Hlt. apply Hrun. pose proof (capped_pos 100 (Zceil p) ltac:(lia) Hlt). lia.
  - intros E. rewrite E in Hzero. apply Hzero. reflexivity.
Qed.

(** C7, witness: the end-to-end scenario with the step 2, where 2.0 / 2.0 is
    1.0 and 1.0 * 3 is 3.0. *)
Lemma C7_index_spacing_witness :
  In 2%R [0; 1; 2]%R /\ Forall (fun x => (x <= 2)%R) [0; 1; 2]%R /\
  SpaceTimeData.computed_frame_step_size scenario_after (dataset_of 1) frame1 2
    = OK (Zceil 3) /\
  (0 <= Zceil 3)%Z /\
  exists rows,
    holds scenario_after (dataset_of 1) rows /\ 3%Z = Z.of_nat (length rows) /\
    ((0 < Zceil 3)%Z ->
     SpaceTimeData._add_rerun_animation_frames scenario_after (dataset_of 1) 2 =
       (cap_warning 100 (Zceil 3)
        ++ frames_at rows (frame_indices 3 (capped 100 (Zceil 3))),
        OK tt)) /\
    (Zceil 3 = 0%Z ->
     SpaceTimeData._add_rerun_animation_frames scenario_after (dataset_of 1) 2 =
       ([], Raise (ValueError "range() arg 3 must not be zero"))).
Proof.
  apply (C7_index_spacing scenario_before scenario_after (PyNdarray 1) 1
           tf.CoordinateConversion.spherical_to_cartesian (dataset_of 1) frame1
           [0; 1; 2]%R 2 3 2 1 3).
  - exact scenario_init.
  - reflexivity.
  - reflexivity.
  - exact scenario_tau_max.
  - reflexivity.
  - lra.
  - lra.
  - exact scenario_quotient.
  - exact scenario_product.
Defined.

(** C8.  For a constructed dataset and an animation step that is 0 or
    negative, [_add_rerun_animation_frames] returns at once without an event,
    and [plot] does not call it: without a data frame it raises as it does for
    any step; with one it logs the static scene and opens the viewer; no event
    of its log is a frame event or the warning of the frame selection. *)
Theorem C8_no_animation (h0 h : heap) (v : pyval) (rs : R)
    (conversion : tf.CoordinateConversion.t) (s : SpaceTimeData.self)
    (attractor_radius animation_step_size : R) (env : environ) :
  SpaceTimeData.__init__ h0 v rs conversion = (h, OK s) ->
  (animation_step_size <= 0)%R ->
  SpaceTimeData._add_rerun_animation_frames h s animation_step_size = ([], OK tt) /\
  ((SpaceTimeData.df s = None /\
    SpaceTimeData.plot h s attractor_radius animation_step_size env
      = ([rr_init "gros"], Raise no_df)) \/
   (exists rows,
      holds h s rows /\
      SpaceTimeData.plot h s attractor_radius animation_step_size env
        = (static_scene s rows attractor_radius ++ [sink env], OK tt))) /\
  count_frames (SpaceTimeData.plot h s attractor_radius animation_step_size env).1
    = 0%nat /\
  Forall (fun e => is_frame_event e = false /\
                   forall msg limit, e <> logger_warning msg limit)
         (SpaceTimeData.plot h s attractor_radius animation_step_size env).1.
Proof.
  intros Hinit Hstep. split.
  { unfold SpaceTimeData._add_rerun_animation_frames.
    destruct (Rle_dec animation_step_size 0); [reflexivity | contradiction]. }
  destruct (init_inv _ _ _ _ _ _ Hinit) as (_ & _ & [[Hnone _] | Hsome]).
  - rewrite (plot_no_df h s _ _ _ Hnone). split; [left; now split|].
    split; [reflexivity|]. repeat constructor; discriminate.
  - destruct Hsome as (l & rows & _ & _ & _ & _ & Hholds).
    rewrite (plot_holds h s _ _ _ _ Hholds).
    destruct (Rlt_dec 0 animation_step_size); [lra|].
    unfold mret. cbv beta iota. rewrite app_nil_l. cbn [fst].
    split; [right; exists (converted conversion rows); now split|]. split.
    + rewrite count_frames_app, count_frames_static. now destruct env.
    + apply Forall_app. split; [apply static_scene_no_frame|].
      constructor; [apply sink_no_frame | constructor].
Qed.

(** C8, witness: the end-to-end scenario plotted with the step 0. *)
Lemma C8_no_animation_witness :
  SpaceTimeData._add_rerun_animation_frames scenario_after (dataset_of 1) 0
    = ([], OK tt) /\
  ((SpaceTimeData.df (dataset_of 1) = None /\
    SpaceTimeData.plot scenario_after (dataset_of 1) 0 0 None
      = ([rr_init "gros"], Raise no_df)) \/
   (exists rows,
      holds scenario_after (dataset_of 1) rows /\
      SpaceTimeData.plot scenario_after (dataset_of 1) 0 0 None
        = (static_scene (dataset_of 1) rows 0 ++ [sink None], OK tt))) /\
  count_frames (SpaceTimeData.plot scenario_after (dataset_of 1) 0 0 None).1
    = 0%nat /\
  Forall (fun e => is_frame_event e = false /\
                   forall msg limit, e <> logger_warning msg limit)
         (SpaceTimeData.plot scenario_after (dataset_of 1) 0 0 None).1.
Proof.
  apply (C8_no_animation scenario_before scenario_after (PyNdarray 1) 1
           tf.CoordinateConversion.spherical_to_cartesian (dataset_of 1) 0 0 None).
  - exact scenario_init.
  - lra.
Defined.

(** C9.  Constructed with the spherical-to-Cartesian policy from an array of
    shape (N,5) that is not all zero, the dataset reads, through its columns
    x, y and z, the Cartesian coordinates r sin(theta) cos(phi),
    r sin(theta) sin(phi) and r cos(theta) of each row's original
    (r, theta, phi); its columns tau and t are those of the input; and the
    rows of the caller's array itself have been overwritten with the
    Cartesian triple, no other array of the store being touched. *)
Theorem C9_in_place_conversion (h : heap) (l : loc) (rows : list (list R))
    (rs : R) :
  h !! l = Some (nd2 5 rows) ->
  wf_ndarray (nd2 5 rows) ->
  any (nd2 5 rows) = true ->
  exists h' s data,
    SpaceTimeData.__init__ h (PyNdarray l) rs tf.CoordinateConversion.spherical_to_cartesian
      = (h', OK s) /\
    SpaceTimeData.get_df s = OK data /\
    SpaceTimeData.size h' s = OK (Z.of_nat (length rows)) /\
    df_col h' data "x" = OK (map cartesian_x rows) /\
    df_col h' data "y" = OK (map cartesian_y rows) /\
    df_col h' data "z" = OK (map cartesian_z rows) /\
    df_col h' data "tau" = OK (column 0 rows) /\
    df_col h' data "t" = OK (column 1 rows) /\
    df_values data = l /\
    h' !! l = Some (nd2 5 (map cartesian_row rows)) /\
    (forall l', l' <> l -> h' !! l' = h !! l').
Proof.
  intros Hl Hwf Hany. simpl in Hwf.
  exists (<[l := nd2 5 (map cartesian_row rows)]> h),
    {| SpaceTimeData.rs := rs; SpaceTimeData.max_num_anim_frames := 100;
       SpaceTimeData.df := Some {| df_values := l; df_columns := DATA_COLUMNS |} |},
    {| df_values := l; df_columns := DATA_COLUMNS |}.
  assert (df_rows (<[l := nd2 5 (map cartesian_row rows)]> h)
            {| df_values := l; df_columns := DATA_COLUMNS |}
          = map cartesian_row rows) as Hr.
  { unfold df_rows. simpl. now rewrite lookup_insert_eq. }
  split.
  { rewrite (init_with_data h l rows rs _ Hl Hany). simpl.
    now rewrite (map_convert_row_wf rows Hwf). }
  split; [reflexivity|]. split.
  { unfold SpaceTimeData.size. simpl. now rewrite Hr, length_map. }
  unfold df_col. simpl. rewrite Hr.
  repeat split; try (now rewrite map_map).
  - apply lookup_insert_eq.
  - intros l' Hne. now apply lookup_insert_ne.
Qed.

(** C9, witness: the array of the end-to-end scenario. *)
Lemma C9_in_place_conversion_witness :
  exists h' s data,
    SpaceTimeData.__init__ scenario_before (PyNdarray 1) 1
      tf.CoordinateConversion.spherical_to_cartesian = (h', OK s) /\
    SpaceTimeData.get_df s = OK data /\
    SpaceTimeData.size h' s = OK (Z.of_nat (length scenario_rows)) /\
    df_col h' data "x" = OK (map cartesian_x scenario_rows) /\
    df_col h' data "y" = OK (map cartesian_y scenario_rows) /\
    df_col h' data "z" = OK (map cartesian_z scenario_rows) /\
    df_col h' data "tau" = OK (column 0 scenario_rows) /\
    df_col h' data "t" = OK (column 1 scenario_rows) /\
    df_values data = 1%positive /\
    h' !! 1%positive = Some (nd2 5 (map cartesian_row scenario_rows)) /\
    (forall l', l' <> 1%positive -> h' !! l' = scenario_before !! l').
Proof.
  apply (C9_in_place_conversion scenario_before 1%positive scenario_rows 1).
  - apply lookup_singleton_eq.
  - simpl. repeat constructor.
  - apply (any_true_intro 5 scenario_rows [0; 0; 10; PI / 2; 0]%R 10%R);
      [now left | simpl; tauto | lra].
Defined.

(** C10.  [_log_sphere] logs one point cloud, [sphere_points radius]: 256
    points, one for each pair of a polar angle theta among the 16 values from
    0 to pi and an azimuth phi among the 16 values from 0 to 2 pi (the grids
    come back from [meshgrid] exchanged, which puts the angles in the roles
    the converter expects), each at distance |radius| from the origin.  In the
    log of [plot] for a dataset with data, the sphere surfaces are those of
    the static scene, of radius [rs] and, when positive, of the attractor
    radius: every other logged entity is an animation point. *)
Theorem C10_sphere_point_cloud (h : heap) (s : SpaceTimeData.self)
    (rows : list (list R)) (attractor_radius animation_step_size : R)
    (env : environ) (radius : R) (name : string) (color : list Z) (opacity : R) :
  holds h s rows ->
  SpaceTimeData._log_sphere s radius name color opacity
    = ([rr_log ("world/" ++ name) (Points3D (sphere_points radius) 2 color [])],
       OK tt) /\
  length (sphere_points radius) = 256%nat /\
  (forall p, In p (sphere_points radius) ->
     exists theta phi,
       (0 <= theta <= PI)%R /\ (0 <= phi <= 2 * PI)%R /\
       p = tf.spherical_to_cartesian radius theta phi /\
       norm p = Rabs radius) /\
  (forall theta phi,
     In theta (linspace 0 PI 16) -> In phi (linspace 0 (2 * PI) 16) ->
     In (tf.spherical_to_cartesian radius theta phi) (sphere_points radius)) /\
  (In 0%R (linspace 0 PI 16) /\ In PI (linspace 0 PI 16) /\
   In 0%R (linspace 0 (2 * PI) 16) /\ In (2 * PI)%R (linspace 0 (2 * PI) 16)) /\
  exists rest,
    (SpaceTimeData.plot h s attractor_radius animation_step_size env).1
      = static_scene s rows attractor_radius ++ rest /\
    forall path a, In (rr_log path a) rest -> path = "world/particle"%string.
Proof.
  intros Hholds. pose proof PI_RGT_0 as Hpi.
  split; [apply log_sphere_eq|]. split; [apply sphere_points_length|].
  split; [|split; [|split]].
  - intros p Hp. apply sphere_points_In in Hp as (theta & phi & Ht & Hp & ->).
    exists theta, phi.
    split; [apply (linspace_In 0 PI 16); [lia | lra | assumption]|].
    split; [apply (linspace_In 0 (2 * PI) 16); [lia | lra | assumption]|].
    split; [reflexivity | apply norm_spherical_to_cartesian].
  - intros theta phi Ht Hp. unfold sphere_points. apply in_flat_map.
    exists phi. split; [assumption|]. apply in_map_iff. now exists theta.
  - split; [apply linspace_In_first; lia|]. split; [apply linspace_last; lia|].
    split; [apply linspace_In_first; lia | apply linspace_last; lia].
  - rewrite (plot_holds h s rows _ _ _ Hholds).
    destruct (Rlt_dec 0 animation_step_size) as [Hpos|Hneg].
    + destruct (SpaceTimeData._add_rerun_animation_frames h s animation_step_size)
        as [evs r] eqn:E.
      assert (forall path a, In (rr_log path a) evs -> path = "world/particle"%string)
        as Hevs.
      { intros path a Hin.
        assert (In (rr_log path a)
                  (SpaceTimeData._add_rerun_animation_frames h s animation_step_size).1)
          as Hin' by now rewrite E.
        apply add_frames_events in Hin'
          as (_ & [(msg & lim & H) | (data & k & _ & H)]); [discriminate|].
        now apply (frame_event_not_sphere h data k path a). }
      destruct r as [[]|e].
      * exists (evs ++ [sink env]). split; [reflexivity|].
        intros path a Hin. apply in_app_or in Hin as [Hin | [Hin | []]].
        -- now apply (Hevs path a).
        -- destruct env; discriminate.
      * exists evs. split; [reflexivity | exact Hevs].
    + exists [sink env]. split; [reflexivity|].
      intros path a [Hin | []]. destruct env; discriminate.
Qed.

(** C10, witness: the horizon sphere of radius 1 in the plot of the
    end-to-end scenario with an attractor of radius 3. *)
Lemma C10_sphere_point_cloud_witness :
  SpaceTimeData._log_sphere (dataset_of 1) 1 "black_hole" [138; 43; 226]%Z (2 / 10)
    = ([rr_log ("world/" ++ "black_hole")
          (Points3D (sphere_points 1) 2 [138; 43; 226]%Z [])],
       OK tt) /\
  length (sphere_points 1) = 256%nat /\
  (forall p, In p (sphere_points 1) ->
     exists theta phi,
       (0 <= theta <= PI)%R /\ (0 <= phi <= 2 * PI)%R /\
       p = tf.spherical_to_cartesian 1 theta phi /\
       norm p = Rabs 1) /\
  (forall theta phi,
     In theta (linspace 0 PI 16) -> In phi (linspace 0 (2 * PI) 16) ->
     In (tf.spherical_to_cartesian 1 theta phi) (sphere_points 1)) /\
  (In 0%R (linspace 0 PI 16) /\ In PI (linspace 0 PI 16) /\
   In 0%R (linspace 0 (2 * PI) 16) /\ In (2 * PI)%R (linspace 0 (2 * PI) 16)) /\
  exists rest,
    (SpaceTimeData.plot scenario_after (dataset_of 1) 3 2 None).1
      = static_scene (dataset_of 1) (map convert_row scenario_rows) 3 ++ rest /\
    forall path a, In (rr_log path a) rest -> path = "world/particle"%string.
Proof.
  apply (C10_sphere_point_cloud scenario_after (dataset_of 1)
           (map convert_row scenario_rows) 3 2 None 1 "black_hole"
           [138; 43; 226]%Z (2 / 10)).
  exact scenario_holds.
Defined.

(** * Further properties of the class *)

(** ** What construction does to the store *)

(** X1.  With a conversion policy other than spherical-to-Cartesian the
    constructor does not touch the store: the dataset reads the cells of the
    input as they are, the spatial columns included. *)
Theorem X1_other_policy_keeps_array (h : heap) (l : loc) (rows : list (list R))
    (rs : R) (conversion : tf.CoordinateConversion.t) :
  h !! l = Some (nd2 5 rows) ->
  any (nd2 5 rows) = true ->
  conversion <> tf.CoordinateConversion.spherical_to_cartesian ->
  exists s data,
    SpaceTimeData.__init__ h (PyNdarray l) rs conversion = (h, OK s) /\
    SpaceTimeData.get_df s = OK data /\
    SpaceTimeData.size h s = OK (Z.of_nat (length rows)) /\
    df_col h data "tau" = OK (column 0 rows) /\
    df_col h data "t" = OK (column 1 rows) /\
    df_col h data "x" = OK (column 2 rows) /\
    df_col h data "y" = OK (column 3 rows) /\
    df_col h data "z" = OK (column 4 rows).
Proof.
  intros Hl Hany Hconv.
  exists {| SpaceTimeData.rs := rs; SpaceTimeData.max_num_anim_frames := 100;
            SpaceTimeData.df := Some {| df_values := l; df_columns := DATA_COLUMNS |} |},
    {| df_values := l; df_columns := DATA_COLUMNS |}.
  assert (df_rows h {| df_values := l; df_columns := DATA_COLUMNS |} = rows) as Hr.
  { unfold df_rows. simpl. now rewrite Hl. }
  split.
  { rewrite (init_with_data h l rows rs conversion Hl Hany).
    destruct conversion; [congruence|]. simpl. now rewrite (insert_id h l _ Hl). }
  split; [reflexivity|]. split.
  { unfold SpaceTimeData.size. simpl. now rewrite Hr. }
  unfold df_col. simpl. rewrite Hr. repeat split.
Qed.

(** X1, witness: the array of the end-to-end scenario, identity policy. *)
Lemma X1_other_policy_keeps_array_witness :
  exists s data,
    SpaceTimeData.__init__ scenario_before (PyNdarray 1) 1
      tf.CoordinateConversion.identity = (scenario_before, OK s) /\
    SpaceTimeData.get_df s = OK data /\
    SpaceTimeData.size scenario_before s = OK (Z.of_nat (length scenario_rows)) /\
    df_col scenario_before data "tau" = OK (column 0 scenario_rows) /\
    df_col scenario_before data "t" = OK (column 1 scenario_rows) /\
    df_col scenario_before data "x" = OK (column 2 scenario_rows) /\
    df_col scenario_before data "y" = OK (column 3 scenario_rows) /\
    df_col scenario_before data "z" = OK (column 4 scenario_rows).
Proof.
  apply (X1_other_policy_keeps_array scenario_before 1%positive scenario_rows 1
           tf.CoordinateConversion.identity).
  - apply lookup_singleton_eq.
  - apply (any_true_intro 5 scenario_rows [0; 0; 10; PI / 2; 0]%R 10%R);
      [now left | simpl; tauto | lra].
  - discriminate.
Defined.

(** X2.  Whatever its argument and however it ends, the constructor writes
    to no array but the one it is given; that array keeps its shape; no array
    appears or disappears; and when the constructor raises, the store is
    exactly as it was. *)
Theorem X2_construction_footprint (h h' : heap) (v : pyval) (rs : R)
    (conversion : tf.CoordinateConversion.t) (r : result SpaceTimeData.self) :
  SpaceTimeData.__init__ h v rs conversion = (h', r) ->
  (forall e, r = Raise e -> h' = h) /\
  (forall l, v <> PyNdarray l -> h' !! l = h !! l) /\
  (forall l a, h !! l = Some a ->
     exists a', h' !! l = Some a' /\ shape a' = shape a) /\
  (forall l, h !! l = None -> h' !! l = None).
Proof.
  intros H.
  assert (h' = h \/
          exists l rows, v = PyNdarray l /\ h !! l = Some (nd2 5 rows) /\
                         (forall e, r <> Raise e) /\
                         h' = <[l := nd2 5 (converted conversion rows)]> h) as Hcases.
  { destruct v as [l | rows | ];
      try (rewrite init_not_ndarray in H by reflexivity; injection H as <- _; now left).
    destruct (h !! l) as [a|] eqn:Hl.
    2: { rewrite init_not_ndarray in H by (simpl; now rewrite Hl).
         injection H as <- _. now left. }
    destruct (shape a) as [|n rest] eqn:Hs.
    { rewrite (init_unsized h l a) in H by assumption. injection H as <- _. now left. }
    destruct (decide (rest = [5%nat])) as [->|Hrest].
    - destruct a as [x | x | c rows | d0 d1 d2 more]; simpl in Hs; try discriminate.
      injection Hs as <- ->.
      destruct (any (nd2 5 rows)) eqn:Ha.
      + rewrite (init_with_data h l rows) in H by assumption.
        injection H as <- <-. right. exists l, rows.
        repeat split; try assumption; try discriminate.
      + rewrite (init_empty_state h l rows) in H by assumption.
        injection H as <- _. now left.
    - rewrite (init_bad_shape h l a) in H; [injection H as <- _; now left | assumption | congruence |].
      intros m E. rewrite Hs in E. injection E as _ E. contradiction. }
  destruct Hcases as [-> | (l & rows & -> & Hl & Hok & ->)].
  - repeat split; try reflexivity; eauto.
  - split; [intros e He; now destruct (Hok e)|]. split; [|split].
    + intros l' Hne. apply lookup_insert_ne. congruence.
    + intros l' a Ha. destruct (decide (l' = l)) as [->|Hne].
      * rewrite Hl in Ha. injection Ha as <-. eexists. split; [apply lookup_insert_eq|].
        simpl. now rewrite converted_length.
      * exists a. split; [|reflexivity]. now rewrite lookup_insert_ne by congruence.
    + intros l' Hnone. rewrite lookup_insert_ne; [assumption|]. congruence.
Qed.

(** X2, witness: the construction of the end-to-end scenario. *)
Lemma X2_construction_footprint_witness :
  (forall e, OK (dataset_of 1) = Raise e -> scenario_after = scenario_before) /\
  (forall l, PyNdarray 1 <> PyNdarray l -> scenario_after !! l = scenario_before !! l) /\
  (forall l a, scenario_before !! l = Some a ->
     exists a', scenario_after !! l = Some a' /\ shape a' = shape a) /\
  (forall l, scenario_before !! l = None -> scenario_after !! l = None).
Proof.
  apply (X2_construction_footprint scenario_before scenario_after (PyNdarray 1) 1
           tf.CoordinateConversion.spherical_to_cartesian (OK (dataset_of 1))).
  exact scenario_init.
Defined.

(** ** What [plot] logs for a dataset with data *)

Lemma column_stack_columns (rows : list (list R)) :
  column_stack (column 2 rows) (column 3 rows) (column 4 rows) = map position rows.
Proof.
  unfold column_stack, column. induction rows as [|row rows IH]; [reflexivity|].
  simpl. now rewrite <- IH.
Qed.

Lemma series_at_inv (j : nat) (rows : list (list R)) (k : Z) (v : R) :
  series_at (column j rows) k = OK v ->
  (0 <= k)%Z /\ exists row, rows !! Z.to_nat k = Some row /\ v = nth j row 0%R.
Proof.
  unfold series_at, column. destruct (Z.ltb_spec k 0) as [Hlt|Hge]; [discriminate|].
  rewrite list_lookup_fmap. destruct (rows !! Z.to_nat k) as [row|]; [|discriminate].
  simpl. intros E. injection E as <-. split; [assumption|]. now exists row.
Qed.

(** An event of a turn of the loop belongs to the frame of a row. *)
Lemma log_frame_row (h : heap) (s : SpaceTimeData.self) (rows : list (list R))
    (data : DataFrame) (k : Z) (e : event) :
  holds h s rows -> SpaceTimeData.get_df s = OK data ->
  In e (SpaceTimeData.log_frame h data k).1 ->
  exists row, (0 <= k)%Z /\ rows !! Z.to_nat k = Some row /\ In e (frame_at row).
Proof.
  intros Hholds Hd He.
  destruct (holds_get_df h s rows Hholds) as (data' & Hd' & Hcols & Hr).
  rewrite Hd in Hd'. injection Hd' as <-.
  pose proof He as He'.
  apply log_frame_events in He' as (tc & tc' & tau & t & Htc & Htau & _).
  rewrite df_col_tau, Hr in Htc by assumption. injection Htc as <-.
  apply series_at_inv in Htau as (Hk & row & Hrow & _).
  exists row. split; [assumption|]. split; [assumption|].
  now rewrite (log_frame_ok h data rows Hcols Hr k row Hk Hrow) in He.
Qed.

(** The events of the animation are the warning, time stamps and points
    named "world/particle". *)
Lemma add_frames_kinds (h : heap) (s : SpaceTimeData.self) (anim_step_size : R)
    (e : event) :
  In e (SpaceTimeData._add_rerun_animation_frames h s anim_step_size).1 ->
  is_warning e = true \/ (exists d, e = rr_set_time "tau" d) \/
  (exists a, e = rr_log "world/particle" a).
Proof.
  intros H. apply add_frames_events in H
    as (_ & [(msg & lim & ->) | (data & k & _ & H)]); [now left|].
  right. apply log_frame_events in H
    as (tc & tc' & tau & t & _ & _ & _ & _ & [-> | (x & y & z & ->)]); eauto.
Qed.

(** The log of [plot]: the static scene, then the animation, then, unless
    the animation raised, the viewer. *)
Lemma plot_log (h : heap) (s : SpaceTimeData.self) (rows : list (list R))
    (attractor_radius animation_step_size : R) (env : environ) :
  holds h s rows ->
  exists anim,
    (forall e, In e anim ->
       is_warning e = true \/ (exists d, e = rr_set_time "tau" d) \/
       (exists a, e = rr_log "world/particle" a)) /\
    (forall e, In e anim ->
       (0 < animation_step_size)%R /\
       In e (SpaceTimeData._add_rerun_animation_frames h s animation_step_size).1) /\
    ((SpaceTimeData.plot h s attractor_radius animation_step_size env
        = (static_scene s rows attractor_radius ++ anim ++ [sink env], OK tt)) \/
     (exists x,
        (0 < animation_step_size)%R /\
        (SpaceTimeData._add_rerun_animation_frames h s animation_step_size).2
          = Raise x /\
        SpaceTimeData.plot h s attractor_radius animation_step_size env
          = (static_scene s rows attractor_radius ++ anim, Raise x))).
Proof.
  intros Hholds. rewrite (plot_holds h s rows _ _ _ Hholds).
  destruct (Rlt_dec 0 animation_step_size) as [Hpos|Hneg].
  - exists (SpaceTimeData._add_rerun_animation_frames h s animation_step_size).1.
    split; [intros e; apply add_frames_kinds|]. split; [now intros e|].
    destruct (SpaceTimeData._add_rerun_animation_frames h s animation_step_size)
      as [evs [[]|x]]; [now left|].
    right. exists x. now repeat split.
  - exists []. split; [intros e []|]. split; [intros e []|]. now left.
Qed.

Lemma static_scene_In (s : SpaceTimeData.self) (rows : list (list R))
    (attractor_radius : R) (e : event) :
  In e (static_scene s rows attractor_radius) <->
  e = rr_init "gros" \/
  e = rr_log "world/trajectory" (LineStrips3D [map position rows]) \/
  e = rr_log "world/singularity" (Points3D [(0, 0, 0)%R] 5 [138; 43; 226]%Z []) \/
  e = rr_log "world/black_hole"
        (Points3D (sphere_points (SpaceTimeData.rs s)) 2 [138; 43; 226]%Z []) \/
  ((0 < attractor_radius)%R /\
   e = rr_log "world/attractor"
         (Points3D (sphere_points attractor_radius) 2 [255; 255; 0]%Z [])).
Proof.
  unfold static_scene. rewrite column_stack_columns, in_app_iff.
  cbn [In]. destruct (Rlt_dec 0 attractor_radius) as [Hpos|Hneg]; cbn [In].
  - intuition (subst; auto).
  - intuition (subst; auto).
Qed.

Lemma plot_In (h : heap) (s : SpaceTimeData.self) (rows : list (list R))
    (attractor_radius animation_step_size : R) (env : environ) (e : event) :
  holds h s rows ->
  In e (SpaceTimeData.plot h s attractor_radius animation_step_size env).1 ->
  In e (static_scene s rows attractor_radius) \/
  ((0 < animation_step_size)%R /\
   In e (SpaceTimeData._add_rerun_animation_frames h s animation_step_size).1) \/
  (e = sink env /\
   (SpaceTimeData.plot h s attractor_radius animation_step_size env).2 = OK tt).
Proof.
  intros Hholds.
  destruct (plot_log h s rows attractor_radius animation_step_size env Hholds)
    as (anim & _ & Hanim & [E | (x & _ & _ & E)]); rewrite E; cbn [fst snd];
    rewrite !in_app_iff; cbn [In]; intros [H | H]; auto.
  destruct H as [H | [<- | []]]; auto.
Qed.

Lemma plot_static_In (h : heap) (s : SpaceTimeData.self) (rows : list (list R))
    (attractor_radius animation_step_size : R) (env : environ) (e : event) :
  holds h s rows ->
  In e (static_scene s rows attractor_radius) ->
  In e (SpaceTimeData.plot h s attractor_radius animation_step_size env).1.
Proof.
  intros Hholds He.
  destruct (plot_log h s rows attractor_radius animation_step_size env Hholds)
    as (anim & _ & _ & [E | (x & _ & _ & E)]); rewrite E; cbn [fst];
    apply in_or_app; now left.
Qed.

(** X3.  For a dataset with data, [plot] logs the trajectory as one line
    strip whose points are the spatial triples of the rows, in row order, one
    per row; it does so whatever the attractor radius and the animation step
    are and whether or not the animation raises; nothing else is logged under
    "world/trajectory". *)
Theorem X3_trajectory_path (h : heap) (s : SpaceTimeData.self)
    (rows : list (list R)) (attractor_radius animation_step_size : R)
    (env : environ) :
  holds h s rows ->
  In (rr_log "world/trajectory" (LineStrips3D [map position rows]))
     (SpaceTimeData.plot h s attractor_radius animation_step_size env).1 /\
  (forall a,
     In (rr_log "world/trajectory" a)
        (SpaceTimeData.plot h s attractor_radius animation_step_size env).1 ->
     a = LineStrips3D [map position rows]) /\
  SpaceTimeData.size h s = OK (Z.of_nat (length (map position rows))) /\
  (forall (k : nat) row,
     rows !! k = Some row ->
     map position rows !! k = Some (nth 2 row 0%R, nth 3 row 0%R, nth 4 row 0%R)).
Proof.
  intros Hholds. split; [|split; [|split]].
  - apply (plot_static_In h s rows _ _ _ _ Hholds), static_scene_In. auto.
  - intros a Ha. apply (plot_In h s rows _ _ _ _ Hholds) in Ha as [Ha | [[_ Ha] | [Ha _]]].
    + apply static_scene_In in Ha
        as [Ha | [Ha | [Ha | [Ha | [_ Ha]]]]]; try discriminate.
      now injection Ha as ->.
    + apply add_frames_kinds in Ha as [Ha | [[d Ha] | [b Ha]]]; discriminate.
    + destruct env; discriminate.
  - rewrite length_map. now apply holds_size.
  - intros k row Hrow. now rewrite list_lookup_fmap, Hrow.
Qed.

(** X3, witness: the end-to-end scenario with an attractor and an animation. *)
Lemma X3_trajectory_path_witness :
  In (rr_log "world/trajectory"
        (LineStrips3D [map position (map convert_row scenario_rows)]))
     (SpaceTimeData.plot scenario_after (dataset_of 1) 3 2 None).1 /\
  (forall a,
     In (rr_log "world/trajectory" a)
        (SpaceTimeData.plot scenario_after (dataset_of 1) 3 2 None).1 ->
     a = LineStrips3D [map position (map convert_row scenario_rows)]) /\
  SpaceTimeData.size scenario_after (dataset_of 1)
    = OK (Z.of_nat (length (map position (map convert_row scenario_rows)))) /\
  (forall (k : nat) row,
     map convert_row scenario_rows !! k = Some row ->
     map position (map convert_row scenario_rows) !! k
       = Some (nth 2 row 0%R, nth 3 row 0%R, nth 4 row 0%R)).
Proof.
  apply (X3_trajectory_path scenario_after (dataset_of 1)
           (map convert_row scenario_rows) 3 2 None).
  exact scenario_holds.
Defined.

(** X4.  For a dataset with data, [plot] opens the viewer last and only if
    nothing raised before: when it returns, its log ends with the one viewer
    event the environment selects; when it raises, the exception is the one
    of the frame selection, called with a positive step, and no viewer event
    is in the log. *)
Theorem X4_viewer_only_after_success (h : heap) (s : SpaceTimeData.self)
    (rows : list (list R)) (attractor_radius animation_step_size : R)
    (env : environ) :
  holds h s rows ->
  (forall u,
     (SpaceTimeData.plot h s attractor_radius animation_step_size env).2 = OK u ->
     exists evs,
       (SpaceTimeData.plot h s attractor_radius animation_step_size env).1
         = evs ++ [sink env] /\
       Forall (fun e => is_viewer e = false) evs) /\
  (forall x,
     (SpaceTimeData.plot h s attractor_radius animation_step_size env).2 = Raise x ->
     (0 < animation_step_size)%R /\
     (SpaceTimeData._add_rerun_animation_frames h s animation_step_size).2 = Raise x /\
     Forall (fun e => is_viewer e = false)
            (SpaceTimeData.plot h s attractor_radius animation_step_size env).1).
Proof.
  intros Hholds.
  destruct (plot_log h s rows attractor_radius animation_step_size env Hholds)
    as (anim & Hkinds & _ & Hplot).
  assert (Forall (fun e => is_viewer e = false)
                 (static_scene s rows attractor_radius ++ anim)) as Hquiet.
  { apply Forall_app. split.
    - rewrite Forall_forall. intros e He. apply list_elem_of_In, static_scene_In in He.
      destruct He as [-> | [-> | [-> | [-> | [_ ->]]]]]; reflexivity.
    - rewrite Forall_forall. intros e He. apply list_elem_of_In, Hkinds in He.
      destruct He as [He | [[d ->] | [a ->]]]; [|reflexivity..].
      destruct e; (discriminate || reflexivity). }
  destruct Hplot as [E | (x & Hpos & Hx & E)]; rewrite E; cbn [fst snd]; split.
  - intros u _. exists (static_scene s rows attractor_radius ++ anim).
    split; [now rewrite app_assoc | exact Hquiet].
  - intros x Hx. discriminate.
  - intros u Hu. discriminate.
  - intros x' Hx'. injection Hx' as <-. now repeat split.
Qed.

(** X4, witness: the end-to-end scenario ends with [rr.spawn]; two samples
    at proper time 0 raise and open no viewer. *)
Lemma X4_viewer_only_after_success_witness :
  (exists evs,
     (SpaceTimeData.plot scenario_after (dataset_of 1) 3 2 None).1
       = evs ++ [sink None] /\
     Forall (fun e => is_viewer e = false) evs) /\
  ((0 < 1)%R /\
   (SpaceTimeData._add_rerun_animation_frames
      (store_of (nd2 5 (map convert_row still_rows))) (dataset_of 1) 1).2
     = Raise infinite /\
   Forall (fun e => is_viewer e = false)
          (SpaceTimeData.plot (store_of (nd2 5 (map convert_row still_rows)))
             (dataset_of 1) 0 1 None).1).
Proof.
  split.
  - apply (proj1 (X4_viewer_only_after_success scenario_after (dataset_of 1)
                    (map convert_row scenario_rows) 3 2 None scenario_holds) tt).
    rewrite (plot_holds _ _ _ _ _ _ scenario_holds).
    destruct (Rlt_dec 0 2); [|lra]. now rewrite scenario_add_frames.
  - apply (proj2 (X4_viewer_only_after_success
                    (store_of (nd2 5 (map convert_row still_rows))) (dataset_of 1)
                    (map convert_row still_rows) 0 1 None (holds_store _ 1)) infinite).
    rewrite (plot_holds _ _ _ _ _ _ (holds_store _ 1)).
    destruct (Rlt_dec 0 1); [|lra]. now rewrite still_add_frames.
Defined.

(** X5.  For a dataset with data, [plot] logs the horizon sphere of radius
    [rs] always, and the attractor sphere exactly when the attractor radius
    is positive: a zero or negative radius logs nothing under
    "world/attractor". *)
Theorem X5_attractor_iff_positive (h : heap) (s : SpaceTimeData.self)
    (rows : list (list R)) (attractor_radius animation_step_size : R)
    (env : environ) :
  holds h s rows ->
  In (rr_log "world/black_hole"
        (Points3D (sphere_points (SpaceTimeData.rs s)) 2 [138; 43; 226]%Z []))
     (SpaceTimeData.plot h s attractor_radius animation_step_size env).1 /\
  ((exists a,
      In (rr_log "world/attractor" a)
         (SpaceTimeData.plot h s attractor_radius animation_step_size env).1)
   <-> (0 < attractor_radius)%R) /\
  (forall a,
     In (rr_log "world/attractor" a)
        (SpaceTimeData.plot h s attractor_radius animation_step_size env).1 ->
     a = Points3D (sphere_points attractor_radius) 2 [255; 255; 0]%Z []).
Proof.
  intros Hholds.
  assert (forall a,
            In (rr_log "world/attractor" a)
               (SpaceTimeData.plot h s attractor_radius animation_step_size env).1 ->
            (0 < attractor_radius)%R /\
            a = Points3D (sphere_points attractor_radius) 2 [255; 255; 0]%Z [])
    as Hattr.
  { intros a Ha. apply (plot_In h s rows _ _ _ _ Hholds) in Ha as [Ha | [[_ Ha] | [Ha _]]].
    - apply static_scene_In in Ha
        as [Ha | [Ha | [Ha | [Ha | [Hpos Ha]]]]]; try discriminate.
      injection Ha as ->. now split.
    - apply add_frames_kinds in Ha as [Ha | [[d Ha] | [b Ha]]]; discriminate.
    - destruct env; discriminate. }
  split; [|split].
  - apply (plot_static_In h s rows _ _ _ _ Hholds), static_scene_In. auto.
  - split.
    + intros (a & Ha). now apply (Hattr a).
    + intros Hpos. eexists.
      apply (plot_static_In h s rows _ _ _ _ Hholds), static_scene_In.
      do 4 right. split; [exact Hpos | reflexivity].
  - intros a Ha. now apply (Hattr a).
Qed.

(** X5, witness: the end-to-end scenario with the attractor radius 3. *)
Lemma X5_attractor_iff_positive_witness :
  In (rr_log "world/black_hole"
        (Points3D (sphere_points (SpaceTimeData.rs (dataset_of 1))) 2
           [138; 43; 226]%Z []))
     (SpaceTimeData.plot scenario_after (dataset_of 1) 3 2 None).1 /\
  ((exists a,
      In (rr_log "world/attractor" a)
         (SpaceTimeData.plot scenario_after (dataset_of 1) 3 2 None).1)
   <-> (0 < 3)%R) /\
  (forall a,
     In (rr_log "world/attractor" a)
        (SpaceTimeData.plot scenario_after (dataset_of 1) 3 2 None).1 ->
     a = Points3D (sphere_points 3) 2 [255; 255; 0]%Z []).
Proof.
  apply (X5_attractor_iff_positive scenario_after (dataset_of 1)
           (map convert_row scenario_rows) 3 2 None).
  exact scenario_holds.
Defined.

(** ** The number of frames *)

(** A dataset for which [math.ceil] returns a step holds at least one row. *)
Lemma computed_nonempty (h : heap) (s : SpaceTimeData.self)
    (rows : list (list R)) (anim_step_size : R) (data : DataFrame) (c : Z) :
  holds h s rows ->
  SpaceTimeData.get_df s = OK data ->
  SpaceTimeData.computed_frame_step_size h s data anim_step_size = OK c ->
  rows <> [].
Proof.
  intros Hholds Hd Hc ->.
  rewrite (computed_frame_step_size_holds h s [] Hholds anim_step_size data Hd) in Hc.
  discriminate.
Qed.

(** With a step [c] from [math.ceil] that is positive, and a positive limit. *)
Lemma add_frames_computed_pos (h : heap) (s : SpaceTimeData.self)
    (rows : list (list R)) (anim_step_size : R) (data : DataFrame) (c : Z) :
  holds h s rows ->
  (0 < SpaceTimeData.max_num_anim_frames s)%Z ->
  (0 < anim_step_size)%R ->
  SpaceTimeData.get_df s = OK data ->
  SpaceTimeData.computed_frame_step_size h s data anim_step_size = OK c ->
  (0 < c)%Z ->
  (1 <= Z.of_nat (length rows))%Z /\
  SpaceTimeData._add_rerun_animation_frames h s anim_step_size =
    (cap_warning (SpaceTimeData.max_num_anim_frames s) c
     ++ frames_at rows
          (frame_indices (Z.of_nat (length rows))
             (capped (SpaceTimeData.max_num_anim_frames s) c)),
     OK tt).
Proof.
  intros Hholds Hlim Hs Hd Hc Hpos.
  pose proof (computed_nonempty h s rows anim_step_size data c Hholds Hd Hc) as Hne.
  split; [now apply rows_nonempty_length|].
  apply (add_frames_computed h s rows anim_step_size data c Hholds Hne Hs Hd Hc).
  pose proof (capped_pos _ c Hlim Hpos). lia.
Qed.

Lemma count_frames_cap_warning (limit c : Z) :
  count_frames (cap_warning limit c) = 0%nat.
Proof. unfold cap_warning. now destruct (limit <? c)%Z. Qed.

Lemma frames_at_no_warning (rows : list (list R)) (ks : list Z) (e : event) :
  In e (frames_at rows ks) -> is_warning e = false.
Proof.
  unfold frames_at. intros H. apply in_concat in H as (evs & Hevs & He).
  apply in_map_iff in Hevs as (k & <- & _).
  destruct He as [<- | [<- | []]]; reflexivity.
Qed.

(** X6.  What the limit [max_num_anim_frames] does when the step [c] that
    [math.ceil] returns is positive: the step between frame indices is [c]
    when that is at most the limit and the limit otherwise, the warning being
    logged exactly in the second case; the number of frames is 0 for one
    sample and (N - 2) // step + 1 for more.  So the limit bounds the step,
    not the count: at least (N - 1) / limit frames are shown, and at most
    N - 1. *)
Theorem X6_frame_count (h : heap) (s : SpaceTimeData.self)
    (rows : list (list R)) (anim_step_size : R) (data : DataFrame)
    (N limit c f : Z) :
  holds h s rows ->
  N = Z.of_nat (length rows) ->
  limit = SpaceTimeData.max_num_anim_frames s ->
  (0 < limit)%Z ->
  (0 < anim_step_size)%R ->
  SpaceTimeData.get_df s = OK data ->
  SpaceTimeData.computed_frame_step_size h s data anim_step_size = OK c ->
  (0 < c)%Z ->
  f = capped limit c ->
  (1 <= f <= limit)%Z /\
  ((c <= limit /\ f = c)%Z \/ (limit < c /\ f = limit)%Z) /\
  ((exists e,
      In e (SpaceTimeData._add_rerun_animation_frames h s anim_step_size).1 /\
      is_warning e = true) <-> (limit < c)%Z) /\
  Z.of_nat (count_frames
              (SpaceTimeData._add_rerun_animation_frames h s anim_step_size).1)
    = (if (N =? 1)%Z then 0 else (N - 2) / f + 1)%Z /\
  (N - 1 <= limit * Z.of_nat (count_frames
              (SpaceTimeData._add_rerun_animation_frames h s anim_step_size).1))%Z /\
  (Z.of_nat (count_frames
              (SpaceTimeData._add_rerun_animation_frames h s anim_step_size).1)
     <= N - 1)%Z.
Proof.
  intros Hholds -> -> Hlim Hs Hd Hcomp Hc ->.
  destruct (add_frames_computed_pos h s rows anim_step_size data c
              Hholds Hlim Hs Hd Hcomp Hc) as [HN Hadd].
  set (N := Z.of_nat (length rows)) in *.
  set (limit := SpaceTimeData.max_num_anim_frames s) in *.
  assert ((c <= limit /\ capped limit c = c) \/ (limit < c /\ capped limit c = limit))%Z
    as Hcap.
  { unfold capped. destruct (Z.ltb_spec limit c); [right | left]; lia. }
  set (f := capped limit c) in *.
  assert (1 <= f <= limit)%Z as Hf by lia.
  assert (count_frames
            (SpaceTimeData._add_rerun_animation_frames h s anim_step_size).1
          = Z.to_nat (range_len 1 N f)) as Hcount.
  { rewrite Hadd. cbn [fst].
    rewrite count_frames_app, count_frames_cap_warning, count_frames_frames_at.
    unfold frame_indices. now rewrite length_map, length_seq. }
  split; [exact Hf|]. split; [exact Hcap|]. split; [|rewrite Hcount; split; [|split]].
  - rewrite Hadd. cbn [fst]. split.
    + intros (e & He & Hw). apply in_app_or in He as [He | He].
      * unfold cap_warning in He. destruct (Z.ltb_spec limit c); [assumption | destruct He].
      * rewrite (frames_at_no_warning _ _ _ He) in Hw. discriminate.
    + intros Hlt. unfold cap_warning. destruct (Z.ltb_spec limit c); [|lia].
      eexists. split; [apply in_or_app; left; now left | reflexivity].
  - unfold range_len. destruct (Z.ltb_spec 0 f); [|lia].
    destruct (Z.eqb_spec N 1) as [->|Hne]; [reflexivity|].
    destruct (Z.ltb_spec 1 N); [|lia].
    rewrite Z2Nat.id; [f_equal; f_equal; lia|].
    assert (0 <= (N - 1 - 1) / f)%Z by (apply Z.div_pos; lia). lia.
  - pose proof (range_len_pos 1 N f (Z.to_nat (range_len 1 N f)) ltac:(lia)) as Hr.
    assert (~ (1 + Z.of_nat (Z.to_nat (range_len 1 N f)) * f < N)%Z) as Hn.
    { intros Hlt. apply Hr in Hlt. lia. }
    nia.
  - destruct (Z.to_nat (range_len 1 N f)) as [|n] eqn:E; [lia|].
    pose proof (range_len_pos 1 N f n ltac:(lia)) as Hr.
    assert (1 + Z.of_nat n * f < N)%Z by (apply Hr; lia). nia.
Qed.

(** X6, witness: the 102 samples with the step 1/2 (step 1, no warning, 101
    frames). *)
Lemma X6_frame_count_witness :
  (1 <= capped 100 1 <= 100)%Z /\
  ((1 <= 100 /\ capped 100 1 = 1)%Z \/ (100 < 1 /\ capped 100 1 = 100)%Z) /\
  ((exists e,
      In e (SpaceTimeData._add_rerun_animation_frames dense_after (dataset_of 1) (1 / 2)).1 /\
      is_warning e = true) <-> (100 < 1)%Z) /\
  Z.of_nat (count_frames
              (SpaceTimeData._add_rerun_animation_frames dense_after (dataset_of 1) (1 / 2)).1)
    = (if (102 =? 1)%Z then 0 else (102 - 2) / capped 100 1 + 1)%Z /\
  (102 - 1 <= 100 * Z.of_nat (count_frames
              (SpaceTimeData._add_rerun_animation_frames dense_after (dataset_of 1) (1 / 2)).1))%Z /\
  (Z.of_nat (count_frames
              (SpaceTimeData._add_rerun_animation_frames dense_after (dataset_of 1) (1 / 2)).1)
     <= 102 - 1)%Z.
Proof.
  apply (X6_frame_count dense_after (dataset_of 1) (map convert_row dense_rows)
           (1 / 2) frame1 102 100 1 (capped 100 1)).
  - exact dense_holds.
  - reflexivity.
  - reflexivity.
  - lia.
  - lra.
  - reflexivity.
  - exact dense_step.
  - lia.
  - reflexivity.
Defined.

(** ** A negative time span *)

(** Over a negative greatest proper time the value under [math.ceil] is a
    double that is not positive, or an infinity. *)
Lemma density_neg_span (anim_step_size m : R) (rows : list (list R)) :
  (0 < anim_step_size)%R ->
  series_max (column 0 rows) = Fin m -> (m < 0)%R ->
  (exists p, density anim_step_size rows = Fin p /\ (p <= 0)%R) \/
  (exists sgn, density anim_step_size rows = Inf sgn).
Proof.
  intros Hs Hm Hneg. unfold density. rewrite Hm, np_truediv_fin by lra.
  pose proof (rows_nonempty_length rows (series_max_nonempty rows m Hm)) as Hn.
  apply IZR_le in Hn.
  destruct (round64 (anim_step_size / m)) as [q|sgn|] eqn:Hq.
  - assert (q <= 0)%R as Hq0.
    { apply (proj2 (round64_sign _ _ Hq)).
      assert (/ m < 0)%R by (apply Rinv_lt_0_compat; lra). unfold Rdiv. nra. }
    rewrite np_mul_fin.
    destruct (round64 (q * IZR (Z.of_nat (length rows)))) as [p|sgn|] eqn:Hp.
    + left. exists p. split; [reflexivity|].
      apply (proj2 (round64_sign _ _ Hp)). nra.
    + right. now exists sgn.
    + now apply round64_not_nan in Hp.
  - right. simpl. rewrite Ris_zero_false by lra. eauto.
  - now apply round64_not_nan in Hq.
Qed.

(** X7.  When the greatest proper time of a dataset is negative and the
    animation step positive, no frame is shown and no warning logged.  Line
    145 either computes a step that is zero or negative, or raises
    OverflowError when the double-precision quotient or product overflows; a
    negative step makes [range] empty and the method returns without an
    event; a step of zero makes [range] raise ValueError. *)
Theorem X7_negative_time_span (h : heap) (s : SpaceTimeData.self)
    (rows : list (list R)) (anim_step_size m : R) (data : DataFrame) :
  holds h s rows ->
  (0 < SpaceTimeData.max_num_anim_frames s)%Z ->
  (0 < anim_step_size)%R ->
  SpaceTimeData.get_df s = OK data ->
  series_max (column 0 rows) = Fin m -> (m < 0)%R ->
  (SpaceTimeData._add_rerun_animation_frames h s anim_step_size).1 = [] /\
  ((exists c,
      SpaceTimeData.computed_frame_step_size h s data anim_step_size = OK c /\
      (c <= 0)%Z /\
      SpaceTimeData._add_rerun_animation_frames h s anim_step_size =
        ([], if (c =? 0)%Z
             then Raise (ValueError "range() arg 3 must not be zero")
             else OK tt)) \/
   (SpaceTimeData.computed_frame_step_size h s data anim_step_size = Raise infinite /\
    SpaceTimeData._add_rerun_animation_frames h s anim_step_size
      = ([], Raise infinite))).
Proof.
  intros Hholds Hlim Hs Hd Hm Hneg.
  pose proof (series_max_nonempty rows m Hm) as Hne.
  pose proof (rows_nonempty_length rows Hne) as HN.
  pose proof (computed_frame_step_size_holds h s rows Hholds anim_step_size data Hd)
    as Hcomp.
  destruct (density_neg_span anim_step_size m rows Hs Hm Hneg)
    as [(p & Hp & Hp0) | (sgn & Hinf)].
  - rewrite Hp in Hcomp. simpl in Hcomp.
    assert (Zceil p <= 0)%Z as Hc.
    { pose proof (Zceil_bound p) as Hb.
      assert (Zceil p < 1)%Z; [|lia]. apply lt_IZR. lra. }
    destruct (add_frames_computed h s rows anim_step_size data (Zceil p)
                Hholds Hne Hs Hd Hcomp) as [Hrun Hzero].
    assert (capped (SpaceTimeData.max_num_anim_frames s) (Zceil p) = Zceil p) as Hcap.
    { unfold capped.
      destruct (Z.ltb_spec (SpaceTimeData.max_num_anim_frames s) (Zceil p));
        [lia | reflexivity]. }
    assert (cap_warning (SpaceTimeData.max_num_anim_frames s) (Zceil p) = []) as Hwarn.
    { unfold cap_warning.
      destruct (Z.ltb_spec (SpaceTimeData.max_num_anim_frames s) (Zceil p));
        [lia | reflexivity]. }
    rewrite Hcap, Hwarn in Hrun, Hzero.
    assert (SpaceTimeData._add_rerun_animation_frames h s anim_step_size =
              ([], if (Zceil p =? 0)%Z
                   then Raise (ValueError "range() arg 3 must not be zero")
                   else OK tt)) as Hadd.
    { destruct (Z.eqb_spec (Zceil p) 0) as [E | Hnz].
      - now apply Hzero.
      - rewrite (Hrun Hnz), frame_indices_neg by lia. reflexivity. }
    split; [now rewrite Hadd|]. left. exists (Zceil p). now repeat split.
  - rewrite Hinf in Hcomp. simpl in Hcomp.
    assert (SpaceTimeData._add_rerun_animation_frames h s anim_step_size
            = ([], Raise infinite)) as Hadd.
    { apply (add_frames_ceil_raise h s rows Hholds anim_step_size Hs).
      now rewrite Hinf. }
    split; [now rewrite Hadd|]. right. split; [exact Hcomp | exact Hadd].
Qed.

Lemma backward_holds : holds (store_of (nd2 5 backward_rows)) (dataset_of 1) backward_rows.
Proof. apply holds_store. Qed.

Lemma backward_tau_max : series_max (column 0 backward_rows) = Fin (-1).
Proof.
  apply series_max_unique; [simpl; tauto | repeat constructor; simpl; lra].
Qed.

(** X7, witness: two samples at the proper times -2 and -1, with the step
    1. *)
Lemma X7_negative_time_span_witness :
  (SpaceTimeData._add_rerun_animation_frames
     (store_of (nd2 5 backward_rows)) (dataset_of 1) 1).1 = [] /\
  ((exists c,
      SpaceTimeData.computed_frame_step_size
        (store_of (nd2 5 backward_rows)) (dataset_of 1) frame1 1 = OK c /\
      (c <= 0)%Z /\
      SpaceTimeData._add_rerun_animation_frames
        (store_of (nd2 5 backward_rows)) (dataset_of 1) 1 =
        ([], if (c =? 0)%Z
             then Raise (ValueError "range() arg 3 must not be zero")
             else OK tt)) \/
   (SpaceTimeData.computed_frame_step_size
      (store_of (nd2 5 backward_rows)) (dataset_of 1) frame1 1 = Raise infinite /\
    SpaceTimeData._add_rerun_animation_frames
      (store_of (nd2 5 backward_rows)) (dataset_of 1) 1
      = ([], Raise infinite))).
Proof.
  apply (X7_negative_time_span (store_of (nd2 5 backward_rows)) (dataset_of 1)
           backward_rows 1 (-1) frame1).
  - exact backward_holds.
  - reflexivity.
  - lra.
  - reflexivity.
  - exact backward_tau_max.
  - lra.
Defined.

(** ** The time stamps of the frames *)

Lemma frame_times_app (evs evs' : list event) :
  frame_times (evs ++ evs') = frame_times evs ++ frame_times evs'.
Proof. unfold frame_times. apply flat_map_app. Qed.

Lemma frame_times_cap_warning (limit c : Z) : frame_times (cap_warning limit c) = [].
Proof. unfold cap_warning. now destruct (limit <? c)%Z. Qed.

Lemma frame_times_frames_at (rows : list (list R)) (ks : list Z) :
  frame_times (frames_at rows ks)
    = map (fun k : Z => nth (Z.to_nat k) (column 0 rows) 0%R) ks.
Proof.
  unfold frames_at. induction ks as [|k ks IH]; [reflexivity|].
  cbn [map concat]. rewrite frame_times_app, IH. cbn. f_equal.
  unfold column. symmetry.
  apply (map_nth (fun row : list R => nth 0 row 0%R) rows [] (Z.to_nat k)).
Qed.

Lemma sorted_nth_le (col : list R) (i j : nat) :
  StronglySorted Rle col -> (i <= j < length col)%nat ->
  (nth i col 0 <= nth j col 0)%R.
Proof.
  intros Hs. revert i j. induction Hs as [|x col Hs IH Hx]; intros i j Hij.
  - simpl in Hij. lia.
  - destruct j as [|j].
    + replace i with 0%nat by lia. lra.
    + destruct i as [|i].
      * simpl. rewrite Forall_forall in Hx. apply Hx.
        apply list_elem_of_In, nth_In. simpl in Hij. lia.
      * simpl. apply IH. simpl in Hij. lia.
Qed.

Lemma sorted_map_indices (col : list R) (ks : list Z) :
  StronglySorted Rle col ->
  StronglySorted Z.lt ks ->
  Forall (fun k => (0 <= k < Z.of_nat (length col))%Z) ks ->
  StronglySorted Rle (map (fun k : Z => nth (Z.to_nat k) col 0%R) ks).
Proof.
  intros Hcol Hks. induction Hks as [|k ks Hks IH Hk]; intros Hb; simpl.
  - constructor.
  - apply Forall_cons in Hb as [Hbk Hb]. constructor; [now apply IH|].
    rewrite Forall_forall. intros v Hv.
    apply list_elem_of_In, in_map_iff in Hv as (k' & <- & Hk').
    rewrite Forall_forall in Hk, Hb.
    pose proof (Hk k' (proj2 (list_elem_of_In _ _) Hk')).
    pose proof (Hb k' (proj2 (list_elem_of_In _ _) Hk')).
    apply sorted_nth_le; [assumption | lia].
Qed.

Lemma sorted_INR_seq (start len : nat) :
  StronglySorted Rle (map INR (seq start len)).
Proof.
  revert start. induction len as [|len IH]; intros start; simpl; constructor.
  - apply IH.
  - rewrite Forall_forall. intros x Hx.
    apply list_elem_of_In, in_map_iff in Hx as (k & <- & Hk). apply in_seq in Hk.
    apply le_INR. lia.
Qed.

Lemma dense_sorted : StronglySorted Rle (column 0 (map convert_row dense_rows)).
Proof.
  rewrite column_convert_row by lia.
  change (column 0 dense_rows) with (map INR (seq 0 102)).
  apply sorted_INR_seq.
Qed.

(** X8.  When the step that [math.ceil] returns is positive, the time stamps
    the animation sets are the proper times of the rows at the frame
    indices, in that order; when the proper times of the dataset do not
    decrease from row to row, neither do the time stamps from frame to
    frame. *)
Theorem X8_frame_times_ordered (h : heap) (s : SpaceTimeData.self)
    (rows : list (list R)) (anim_step_size : R) (data : DataFrame) (c f : Z) :
  holds h s rows ->
  (0 < SpaceTimeData.max_num_anim_frames s)%Z ->
  (0 < anim_step_size)%R ->
  SpaceTimeData.get_df s = OK data ->
  SpaceTimeData.computed_frame_step_size h s data anim_step_size = OK c ->
  (0 < c)%Z ->
  f = capped (SpaceTimeData.max_num_anim_frames s) c ->
  StronglySorted Rle (column 0 rows) ->
  frame_times (SpaceTimeData._add_rerun_animation_frames h s anim_step_size).1
    = map (fun k : Z => nth (Z.to_nat k) (column 0 rows) 0%R)
          (frame_indices (Z.of_nat (length rows)) f) /\
  StronglySorted Rle
    (frame_times (SpaceTimeData._add_rerun_animation_frames h s anim_step_size).1).
Proof.
  intros Hholds Hlim Hs Hd Hcomp Hc -> Hsorted.
  destruct (add_frames_computed_pos h s rows anim_step_size data c
              Hholds Hlim Hs Hd Hcomp Hc) as [_ Hadd].
  assert (frame_times (SpaceTimeData._add_rerun_animation_frames h s anim_step_size).1
          = map (fun k : Z => nth (Z.to_nat k) (column 0 rows) 0%R)
                (frame_indices (Z.of_nat (length rows))
                   (capped (SpaceTimeData.max_num_anim_frames s) c)))
    as E.
  { rewrite Hadd. cbn [fst].
    now rewrite frame_times_app, frame_times_cap_warning, frame_times_frames_at. }
  split; [exact E|]. rewrite E.
  assert (0 < capped (SpaceTimeData.max_num_anim_frames s) c)%Z as Hf
    by now apply capped_pos.
  apply sorted_map_indices; [assumption | now apply frame_indices_sorted |].
  eapply Forall_impl; [apply frame_indices_bounds; exact Hf|].
  intros k Hk. simpl in Hk. unfold column. rewrite length_map. lia.
Qed.

(** X8, witness: the 102 samples, whose proper times 0, 1, ..., 101
    increase, with the step 1/2. *)
Lemma X8_frame_times_ordered_witness :
  frame_times
    (SpaceTimeData._add_rerun_animation_frames dense_after (dataset_of 1) (1 / 2)).1
    = map (fun k : Z => nth (Z.to_nat k) (column 0 (map convert_row dense_rows)) 0%R)
          (frame_indices (Z.of_nat (length (map convert_row dense_rows)))
             (capped 100 1)) /\
  StronglySorted Rle
    (frame_times
       (SpaceTimeData._add_rerun_animation_frames dense_after (dataset_of 1) (1 / 2)).1).
Proof.
  apply (X8_frame_times_ordered dense_after (dataset_of 1)
           (map convert_row dense_rows) (1 / 2) frame1 1).
  - exact dense_holds.
  - reflexivity.
  - lra.
  - reflexivity.
  - exact dense_step.
  - lia.
  - reflexivity.
  - exact dense_sorted.
Defined.

(** ** Two datasets on one array *)

(** X9.  The data frame is a view of the caller's array, and construction
    converts that array in place.  So a second dataset constructed from the
    same array converts the already converted rows once more, and the first
    dataset reads the twice converted rows too; if the first conversion left
    no non-zero cell, the second dataset gets no data frame at all. *)
Theorem X9_second_construction (h : heap) (l : loc) (rows : list (list R))
    (rs1 rs2 : R) :
  h !! l = Some (nd2 5 rows) ->
  any (nd2 5 rows) = true ->
  exists h1 s1,
    SpaceTimeData.__init__ h (PyNdarray l) rs1
      tf.CoordinateConversion.spherical_to_cartesian = (h1, OK s1) /\
    holds h1 s1 (map convert_row rows) /\
    (any (nd2 5 (map convert_row rows)) = true ->
     exists h2 s2,
       SpaceTimeData.__init__ h1 (PyNdarray l) rs2
         tf.CoordinateConversion.spherical_to_cartesian = (h2, OK s2) /\
       holds h2 s2 (map convert_row (map convert_row rows)) /\
       holds h2 s1 (map convert_row (map convert_row rows))) /\
    (any (nd2 5 (map convert_row rows)) = false ->
     SpaceTimeData.__init__ h1 (PyNdarray l) rs2
       tf.CoordinateConversion.spherical_to_cartesian = (h1, OK (empty_state rs2))).
Proof.
  intros Hl Hany.
  exists (<[l := nd2 5 (map convert_row rows)]> h),
    {| SpaceTimeData.rs := rs1; SpaceTimeData.max_num_anim_frames := 100;
       SpaceTimeData.df := Some {| df_values := l; df_columns := DATA_COLUMNS |} |}.
  assert ((<[l := nd2 5 (map convert_row rows)]> h) !! l
          = Some (nd2 5 (map convert_row rows))) as Hl1 by apply lookup_insert_eq.
  split; [exact (init_with_data h l rows rs1 _ Hl Hany)|].
  split; [exists l; now split|]. split.
  - intros Hany1.
    exists (<[l := nd2 5 (map convert_row (map convert_row rows))]>
              (<[l := nd2 5 (map convert_row rows)]> h)),
      {| SpaceTimeData.rs := rs2; SpaceTimeData.max_num_anim_frames := 100;
         SpaceTimeData.df := Some {| df_values := l; df_columns := DATA_COLUMNS |} |}.
    split; [exact (init_with_data _ l _ rs2 _ Hl1 Hany1)|].
    split; exists l; (split; [reflexivity | apply lookup_insert_eq]).
  - intros Hany1. exact (init_empty_state _ l _ rs2 _ Hl1 Hany1).
Qed.

Lemma scenario_converted_any : any (nd2 5 (map convert_row scenario_rows)) = true.
Proof.
  apply (any_true_intro 5 _ (convert_row [0; 0; 10; PI / 2; 0]%R)
           (10 * sin (PI / 2) * cos 0)%R).
  - now left.
  - simpl. tauto.
  - rewrite sin_PI2, cos_0. lra.
Qed.

(** X9, witness: two datasets on the array of the end-to-end scenario. *)
Lemma X9_second_construction_witness :
  exists h1 s1 h2 s2,
    SpaceTimeData.__init__ scenario_before (PyNdarray 1) 1
      tf.CoordinateConversion.spherical_to_cartesian = (h1, OK s1) /\
    holds h1 s1 (map convert_row scenario_rows) /\
    SpaceTimeData.__init__ h1 (PyNdarray 1) 2
      tf.CoordinateConversion.spherical_to_cartesian = (h2, OK s2) /\
    holds h2 s2 (map convert_row (map convert_row scenario_rows)) /\
    holds h2 s1 (map convert_row (map convert_row scenario_rows)).
Proof.
  destruct (X9_second_construction scenario_before 1%positive scenario_rows 1 2)
    as (h1 & s1 & Hinit1 & Hholds1 & Htwice & _).
  - apply lookup_singleton_eq.
  - apply (any_true_intro 5 scenario_rows [0; 0; 10; PI / 2; 0]%R 10%R);
      [now left | simpl; tauto | lra].
  - destruct (Htwice scenario_converted_any) as (h2 & s2 & Hinit2 & Hholds2 & Hholds12).
    exists h1, s1, h2, s2. repeat split; assumption.
Defined.

(** ** Repeated points of a sphere surface *)

(** X10.  The point cloud of a sphere holds repeated points: at the polar
    angle 0 every azimuth gives the pole (0, 0, radius), so the pole opens
    each of the 16 rings of the cloud, and the 256 points are not pairwise
    distinct. *)
Theorem X10_sphere_cloud_repeats_pole (radius : R) :
  (forall phi,
     tf.spherical_to_cartesian radius 0 phi = (0, 0, radius)%R) /\
  (forall i : nat, (i < 16)%nat ->
     nth (16 * i) (sphere_points radius) (0, 0, 0)%R = (0, 0, radius)%R) /\
  ~ List.NoDup (sphere_points radius).
Proof.
  assert (forall phi, tf.spherical_to_cartesian radius 0 phi = (0, 0, radius)%R)
    as Hpole.
  { intros phi. unfold tf.spherical_to_cartesian. rewrite sin_0, cos_0.
    f_equal; [f_equal|]; ring. }
  assert (forall i : nat, (i < 16)%nat ->
            nth (16 * i) (sphere_points radius) (0, 0, 0)%R = (0, 0, radius)%R)
    as Hnth.
  { assert ((0 + INR 0 * ((PI - 0) / INR (16 - 1)))%R = 0%R) as E0.
    { change (INR 0) with 0%R. ring. }
    intros i Hi.
    unfold sphere_points, linspace.
    do 16 (destruct i as [|i];
           [cbn [seq map flat_map app nth Nat.mul Nat.add]; rewrite E0; apply Hpole|]).
    lia. }
  split; [exact Hpole|]. split; [exact Hnth|].
  intros Hnd.
  pose proof (proj1 (List.NoDup_nth (sphere_points radius) (0, 0, 0)%R) Hnd
                0%nat 16%nat) as Hnd'.
  clear Hnd. rename Hnd' into Hnd.
  assert (0 = 16)%nat; [|discriminate].
  apply Hnd.
  - rewrite sphere_points_length. lia.
  - rewrite sphere_points_length. lia.
  - transitivity (0, 0, radius)%R;
      [exact (Hnth 0%nat ltac:(lia)) | symmetry; exact (Hnth 1%nat ltac:(lia))].
Qed.

(** ** Animation points and the trajectory path *)

Lemma py_range_In_ge (n f k : Z) (ks : list Z) :
  py_range 1 n f = OK ks -> In k ks -> (1 <= n)%Z -> (1 <= k)%Z.
Proof.
  unfold py_range, range_len. destruct (Z.eqb_spec f 0); [discriminate|].
  intros E Hk Hn. injection E as <-.
  apply in_map_iff in Hk as (i & <- & Hi).
  destruct (Z.ltb_spec 0 f).
  - nia.
  - destruct (Z.ltb_spec n 1); [lia|]. simpl in Hi. destruct Hi.
Qed.

(** An event of the animation other than the warning comes from a turn of
    the loop, for an index that [range(1, size(), step)] yields. *)
Lemma add_frames_events_range (h : heap) (s : SpaceTimeData.self)
    (anim_step_size : R) (e : event) :
  In e (SpaceTimeData._add_rerun_animation_frames h s anim_step_size).1 ->
  is_warning e = true \/
  exists data n f ks k,
    SpaceTimeData.get_df s = OK data /\ SpaceTimeData.size h s = OK n /\
    py_range 1 n f = OK ks /\ In k ks /\
    In e (SpaceTimeData.log_frame h data k).1.
Proof.
  unfold SpaceTimeData._add_rerun_animation_frames.
  destruct (Rle_dec anim_step_size 0) as [|Hpos]; [intros [] |].
  intros H.
  apply lift_bind_In in H as (data & Hd & H).
  apply lift_bind_In in H as (c & Hc & H).
  apply mbind_In in H as [H | (f & _ & H)].
  - left. destruct (_ <? _)%Z; [|destruct H].
    apply mbind_In in H as [[<- | []] | (_ & _ & [])]. reflexivity.
  - right. apply lift_bind_In in H as (n & Hn & H).
    apply lift_bind_In in H as (ks & Hks & H).
    apply for_each_In in H as (k & Hk & H).
    exists data, n, f, ks, k. now repeat split.
Qed.

(** X11.  Every animation point [plot] logs is a point of the trajectory
    path it logged before: the point of some row k of the dataset, with
    k >= 1, so the first sample is never shown as a frame; it is drawn with
    radius 6 in red. *)
Theorem X11_frames_on_path (h : heap) (s : SpaceTimeData.self)
    (rows : list (list R)) (attractor_radius animation_step_size : R)
    (env : environ) (positions : list point) (radii : R) (colors : list Z)
    (labels : list label) :
  holds h s rows ->
  In (rr_log "world/particle" (Points3D positions radii colors labels))
     (SpaceTimeData.plot h s attractor_radius animation_step_size env).1 ->
  exists (k : nat) row,
    (1 <= k)%nat /\ rows !! k = Some row /\
    map position rows !! k = Some (position row) /\
    positions = [position row] /\ radii = 6%R /\ colors = [255; 0; 0]%Z.
Proof.
  intros Hholds Hin.
  apply (plot_In h s rows _ _ _ _ Hholds) in Hin as [Hin | [[_ Hin] | [Hin _]]].
  - apply static_scene_In in Hin
      as [Hin | [Hin | [Hin | [Hin | [_ Hin]]]]]; discriminate.
  - apply add_frames_events_range in Hin
      as [Hin | (data & n & f & ks & k & Hd & Hn & Hks & Hk & Hin)]; [discriminate|].
    destruct (log_frame_row h s rows data k _ Hholds Hd Hin) as (row & Hk0 & Hrow & He).
    rewrite (holds_size h s rows Hholds) in Hn. injection Hn as <-.
    assert (1 <= Z.of_nat (length rows))%Z as Hlen.
    { apply lookup_lt_Some in Hrow. lia. }
    pose proof (py_range_In_ge _ _ _ _ Hks Hk Hlen) as Hk1.
    exists (Z.to_nat k), row. split; [lia|]. split; [exact Hrow|].
    split; [now rewrite list_lookup_fmap, Hrow|].
    destruct He as [He | [He | []]]; [discriminate|].
    injection He as <- <- <- _. now repeat split.
  - destruct env; discriminate.
Qed.

(** X11, witness: the frame of the end-to-end scenario, row 1. *)
Lemma X11_frames_on_path_witness :
  exists (k : nat) row,
    (1 <= k)%nat /\ map convert_row scenario_rows !! k = Some row /\
    map position (map convert_row scenario_rows) !! k = Some (position row) /\
    [(10 * sin (PI / 2) * cos (1 / 10), 10 * sin (PI / 2) * sin (1 / 10),
      10 * cos (PI / 2))%R] = [position row] /\
    6%R = 6%R /\ [255; 0; 0]%Z = [255; 0; 0]%Z.
Proof.
  apply (X11_frames_on_path scenario_after (dataset_of 1)
           (map convert_row scenario_rows) 3 2 None
           [(10 * sin (PI / 2) * cos (1 / 10), 10 * sin (PI / 2) * sin (1 / 10),
             10 * cos (PI / 2))%R]
           6 [255; 0; 0]%Z
           [label_tau 1; label_t (3 / 2);
            label_gamma (SpaceTimeData.time_dilation (3 / 2) 1);
            label_dt (SpaceTimeData.time_diff (3 / 2) 1)]).
  - exact scenario_holds.
  - rewrite (plot_holds _ _ _ _ _ _ scenario_holds).
    destruct (Rlt_dec 0 2); [|lra]. rewrite scenario_add_frames. cbn [fst].
    apply in_or_app. right. apply in_or_app. left. right. left. reflexivity.
Defined.

(** ** Arrays without a non-zero cell *)

(** X12.  From every array of shape (N,5) without a non-zero cell, N = 0
    included, and with every conversion policy, construction succeeds, leaves
    the store as it was and returns an instance that has no attribute [df]:
    [size] raises AttributeError; [plot] raises it after [rr.init] alone,
    whatever its arguments; the frame selection raises it for a positive step
    and returns at once otherwise. *)
Theorem X12_empty_state (h : heap) (l : loc) (rows : list (list R)) (rs : R)
    (conversion : tf.CoordinateConversion.t)
    (attractor_radius animation_step_size : R) (env : environ) :
  h !! l = Some (nd2 5 rows) ->
  any (nd2 5 rows) = false ->
  exists s,
    SpaceTimeData.__init__ h (PyNdarray l) rs conversion = (h, OK s) /\
    SpaceTimeData.df s = None /\
    SpaceTimeData.size h s = Raise no_df /\
    SpaceTimeData.plot h s attractor_radius animation_step_size env
      = ([rr_init "gros"], Raise no_df) /\
    ((0 < animation_step_size)%R ->
     SpaceTimeData._add_rerun_animation_frames h s animation_step_size
       = ([], Raise no_df)) /\
    ((animation_step_size <= 0)%R ->
     SpaceTimeData._add_rerun_animation_frames h s animation_step_size
       = ([], OK tt)).
Proof.
  intros Hl Hany. exists (empty_state rs).
  destruct (empty_state_raises h l rows rs conversion attractor_radius
              animation_step_size env Hl Hany) as (Hinit & Hsize & Hplot).
  split; [exact Hinit|]. split; [reflexivity|]. split; [exact Hsize|].
  split; [exact Hplot|]. unfold SpaceTimeData._add_rerun_animation_frames.
  split; intros Hstep; destruct (Rle_dec animation_step_size 0); try lra; reflexivity.
Qed.

(** X12, witness: the all-zero array of shape (2,5), plotted with an
    attractor and a positive animation step. *)
Lemma X12_empty_state_witness :
  exists s,
    SpaceTimeData.__init__ (store_of (nd2 5 zero_rows)) (PyNdarray 1) 1
      tf.CoordinateConversion.spherical_to_cartesian
      = (store_of (nd2 5 zero_rows), OK s) /\
    SpaceTimeData.df s = None /\
    SpaceTimeData.size (store_of (nd2 5 zero_rows)) s = Raise no_df /\
    SpaceTimeData.plot (store_of (nd2 5 zero_rows)) s 3 2 None
      = ([rr_init "gros"], Raise no_df) /\
    SpaceTimeData._add_rerun_animation_frames (store_of (nd2 5 zero_rows)) s 2
      = ([], Raise no_df).
Proof.
  destruct (X12_empty_state (store_of (nd2 5 zero_rows)) 1%positive zero_rows 1
              tf.CoordinateConversion.spherical_to_cartesian 3 2 None)
    as (s & Hinit & Hdf & Hsize & Hplot & Hpos & _).
  - apply lookup_singleton_eq.
  - apply any_false_intro. repeat constructor.
  - exists s. repeat split; try assumption. apply Hpos. lra.
Defined.

(** ** When the warning is logged *)

Lemma Zceil_gt (n : Z) (x : R) : (n < Zceil x)%Z <-> (IZR n < x)%R.
Proof.
  pose proof (Zceil_bound x) as Hb. split.
  - intros Hlt. assert (IZR n <= IZR (Zceil x) - 1)%R; [|lra].
    rewrite <- minus_IZR. apply IZR_le. lia.
  - intros Hlt. apply lt_IZR. lra.
Qed.

(** The step computation for 11 samples over the time span 11 with the step 100: the
    double nearest to 100 / 11 is 5117726849284655 / 2^49, and the double
    nearest to 11 times that is 7036874417766401 / 2^46, the one that follows
    100. *)
Lemma ramp11_tau_max :
  series_max (column 0 (map convert_row (ramp_rows 11))) = Fin 11.
Proof.
  rewrite (ramp_tau_max 10). f_equal. rewrite INR_IZR_INZ. reflexivity.
Qed.

Lemma ramp11_quotient :
  round64 (100 / 11) = Fin (IZR 5117726849284655 * bpow (-49)).
Proof.
  apply (round64_eval _ 3); try reflexivity; try lia.
  - rewrite Rabs_pos_eq by lra. bpow_num. lra.
  - bpow_num. lra.
Qed.

Lemma ramp11_product :
  round64 (IZR 5117726849284655 * bpow (-49) * IZR 11)
    = Fin (IZR 7036874417766401 * bpow (-46)).
Proof.
  apply (round64_eval _ 6); try reflexivity; try lia.
  - bpow_num. rewrite Rabs_pos_eq by lra. lra.
  - bpow_num. lra.
Qed.

(** X13.  Over a greatest proper time other than zero, with [q] the double
    nearest to step / tau_max and [p] the double nearest to q * N, the
    warning is logged, and the step between frame indices replaced by the
    limit, exactly when [p] exceeds max_num_anim_frames; the frames shown
    then are those of the indices 1, 1 + limit, 1 + 2 limit, ... below N,
    after the one warning.  When [p] is positive and at most the limit, the
    frames are those of the indices 1, 1 + ceil(p), ... below N. *)
Theorem X13_warning_threshold (h : heap) (s : SpaceTimeData.self)
    (rows : list (list R)) (anim_step_size m q p : R) (N limit : Z) :
  holds h s rows ->
  N = Z.of_nat (length rows) ->
  limit = SpaceTimeData.max_num_anim_frames s ->
  (0 < limit)%Z ->
  (0 < anim_step_size)%R ->
  series_max (column 0 rows) = Fin m -> m <> 0%R ->
  round64 (anim_step_size / m) = Fin q ->
  round64 (q * IZR N) = Fin p ->
  ((exists e,
      In e (SpaceTimeData._add_rerun_animation_frames h s anim_step_size).1 /\
      is_warning e = true)
   <-> (IZR limit < p)%R) /\
  ((IZR limit < p)%R ->
   SpaceTimeData._add_rerun_animation_frames h s anim_step_size
     = (logger_warning
          "animation_step_size is too large. Maximum number of animation frames will be limited to"
          limit
        :: frames_at rows (frame_indices N limit), OK tt)) /\
  ((0 < p <= IZR limit)%R ->
   SpaceTimeData._add_rerun_animation_frames h s anim_step_size
     = (frames_at rows (frame_indices N (Zceil p)), OK tt)).
Proof.
  intros Hholds -> -> Hlim Hs Hm Hne Hq Hp.
  destruct (holds_get_df h s rows Hholds) as (data & Hd & _ & _).
  pose proof (series_max_nonempty rows m Hm) as Hrows.
  assert (SpaceTimeData.computed_frame_step_size h s data anim_step_size
          = OK (Zceil p)) as Hc.
  { rewrite (computed_frame_step_size_holds h s rows Hholds _ data Hd).
    rewrite (density_pos _ m q rows Hm Hne Hq), Hp. reflexivity. }
  destruct (add_frames_computed h s rows anim_step_size data (Zceil p)
              Hholds Hrows Hs Hd Hc) as [Hrun Hzero].
  set (N := Z.of_nat (length rows)) in *.
  set (limit := SpaceTimeData.max_num_anim_frames s) in *.
  pose proof (Zceil_gt limit p) as Hthr.
  split; [|split].
  - rewrite <- Hthr. split.
    + intros (e & He & Hw).
      destruct (Z.eq_dec (capped limit (Zceil p)) 0%Z) as [E | Hnz].
      * rewrite (Hzero E) in He. cbn [fst] in He. unfold cap_warning in He.
        destruct (Z.ltb_spec limit (Zceil p)); [assumption | destruct He].
      * rewrite (Hrun Hnz) in He. cbn [fst] in He.
        apply in_app_or in He as [He | He].
        -- unfold cap_warning in He.
           destruct (Z.ltb_spec limit (Zceil p)); [assumption | destruct He].
        -- rewrite (frames_at_no_warning _ _ _ He) in Hw. discriminate.
    + intros Hlt.
      assert (capped limit (Zceil p) <> 0%Z) as Hnz.
      { unfold capped. destruct (Z.ltb_spec limit (Zceil p)); lia. }
      rewrite (Hrun Hnz). cbn [fst]. unfold cap_warning.
      destruct (Z.ltb_spec limit (Zceil p)); [|lia].
      eexists. split; [apply in_or_app; left; now left | reflexivity].
  - intros Hlt. apply Hthr in Hlt.
    assert (capped limit (Zceil p) = limit) as Hcap.
    { unfold capped. destruct (Z.ltb_spec limit (Zceil p)); [reflexivity | lia]. }
    rewrite Hrun by lia. rewrite Hcap. unfold cap_warning.
    destruct (Z.ltb_spec limit (Zceil p)); [reflexivity | lia].
  - intros [Hpos Hle].
    assert (0 < Zceil p)%Z as Hcpos by now apply Zceil_pos.
    assert (~ (limit < Zceil p)%Z) as Hnlt by (rewrite Hthr; lra).
    assert (capped limit (Zceil p) = Zceil p) as Hcap.
    { unfold capped. destruct (Z.ltb_spec limit (Zceil p)); [lia | reflexivity]. }
    rewrite Hrun by lia. rewrite Hcap. unfold cap_warning.
    destruct (Z.ltb_spec limit (Zceil p)); [lia | reflexivity].
Qed.

(** X13, witness: 11 samples at the proper times 1, ..., 11 with the step
    100: the double-precision value of 100 / 11 * 11 lies above 100, so the
    warning is logged and the step is the limit. *)
Lemma X13_warning_threshold_witness :
  (exists e,
     In e (SpaceTimeData._add_rerun_animation_frames (ramp_after 11) (dataset_of 1) 100).1 /\
     is_warning e = true) /\
  SpaceTimeData._add_rerun_animation_frames (ramp_after 11) (dataset_of 1) 100
    = (logger_warning
         "animation_step_size is too large. Maximum number of animation frames will be limited to"
         100
       :: frames_at (map convert_row (ramp_rows 11)) (frame_indices 11 100), OK tt).
Proof.
  destruct (X13_warning_threshold (ramp_after 11) (dataset_of 1)
              (map convert_row (ramp_rows 11)) 100 11
              (IZR 5117726849284655 * bpow (-49))
              (IZR 7036874417766401 * bpow (-46)) 11 100
              (ramp_holds 11) eq_refl eq_refl ltac:(lia) ltac:(lra)
              ramp11_tau_max ltac:(lra) ramp11_quotient ramp11_product)
    as (Hiff & Hwarn & _).
  assert (IZR 100 < IZR 7036874417766401 * bpow (-46))%R as Hlt
    by (bpow_num; lra).
  split.
  - apply Hiff. exact Hlt.
  - apply Hwarn. exact Hlt.
Defined.

(** ** The indices of the frames *)

(** X14.  When the step [c] that [math.ceil] returns is positive, the frames
    shown are those of the indices [range(1, N, frame_step_size)] yields,
    where frame_step_size is [c] capped at the limit: the i-th index is
    1 + i * frame_step_size, for exactly the i that keep it below N; with more
    than one sample the first is 1; they increase strictly and lie in
    [1, N). *)
Theorem X14_frame_indices (h : heap) (s : SpaceTimeData.self)
    (rows : list (list R)) (anim_step_size : R) (data : DataFrame)
    (N limit c frame_step_size : Z) :
  holds h s rows ->
  N = Z.of_nat (length rows) ->
  limit = SpaceTimeData.max_num_anim_frames s ->
  (0 < limit)%Z ->
  (0 < anim_step_size)%R ->
  SpaceTimeData.get_df s = OK data ->
  SpaceTimeData.computed_frame_step_size h s data anim_step_size = OK c ->
  (0 < c)%Z ->
  frame_step_size = capped limit c ->
  exists ks,
    py_range 1 N frame_step_size = OK ks /\
    SpaceTimeData._add_rerun_animation_frames h s anim_step_size =
      (cap_warning limit c ++ frames_at rows ks, OK tt) /\
    (forall (i : nat) (k : Z),
       ks !! i = Some k <-> (k = 1 + Z.of_nat i * frame_step_size /\ k < N)%Z) /\
    ((1 < N)%Z -> ks !! 0%nat = Some 1%Z) /\
    StronglySorted Z.lt ks /\
    Forall (fun k => (1 <= k < N)%Z) ks.
Proof.
  intros Hholds -> -> Hlim Hs Hd Hcomp Hc ->.
  destruct (add_frames_computed_pos h s rows anim_step_size data c
              Hholds Hlim Hs Hd Hcomp Hc) as [_ Hadd].
  pose proof (capped_pos _ c Hlim Hc) as Hf.
  set (f := capped _ c) in *.
  exists (frame_indices (Z.of_nat (length rows)) f).
  split; [now apply py_range_pos|]. split; [exact Hadd|].
  split; [intros i k; now apply frame_indices_lookup|].
  split; [intros HN; now apply frame_indices_head|].
  split; [now apply frame_indices_sorted | now apply frame_indices_bounds].
Qed.

(** X14, witness: 25 samples at the proper times 1, ..., 25 with the step 7,
    for which the computed step is 8. *)
Lemma X14_frame_indices_witness :
  exists ks,
    py_range 1 25 (capped 100 8) = OK ks /\
    SpaceTimeData._add_rerun_animation_frames (ramp_after 25) (dataset_of 1) 7 =
      (cap_warning 100 8 ++ frames_at (map convert_row (ramp_rows 25)) ks, OK tt) /\
    (forall (i : nat) (k : Z),
       ks !! i = Some k <-> (k = 1 + Z.of_nat i * capped 100 8 /\ k < 25)%Z) /\
    ((1 < 25)%Z -> ks !! 0%nat = Some 1%Z) /\
    StronglySorted Z.lt ks /\
    Forall (fun k => (1 <= k < 25)%Z) ks.
Proof.
  apply (X14_frame_indices (ramp_after 25) (dataset_of 1)
           (map convert_row (ramp_rows 25)) 7 frame1 25 100 8 (capped 100 8)).
  - exact (ramp_holds 25).
  - reflexivity.
  - reflexivity.
  - lia.
  - lra.
  - reflexivity.
  - exact ramp25_step.
  - lia.
  - reflexivity.
Defined.

(** ** What the constructor rejects *)

(** X15.  The constructor raises ValueError "dataset must be numpy
    ndarray!" for every argument that is not a NumPy array, and ValueError
    "dataset shape needs to be (N,5)!" for every array with at least one axis
    whose shape is not (N,5), in particular for the shapes (N,4) and (N,6); in
    both cases the store is left as it was and no instance is returned. *)
Theorem X15_construction_rejects (h : heap) (rs : R)
    (conversion : tf.CoordinateConversion.t) :
  (forall v, as_ndarray h v = None ->
     SpaceTimeData.__init__ h v rs conversion =
       (h, Raise (ValueError "dataset must be numpy ndarray!"))) /\
  (forall l a, h !! l = Some a -> shape a <> [] ->
     (forall n, shape a <> [n; 5%nat]) ->
     SpaceTimeData.__init__ h (PyNdarray l) rs conversion =
       (h, Raise (ValueError "dataset shape needs to be (N,5)!"))) /\
  (forall l c rows, h !! l = Some (nd2 c rows) -> c = 4%nat \/ c = 6%nat ->
     SpaceTimeData.__init__ h (PyNdarray l) rs conversion =
       (h, Raise (ValueError "dataset shape needs to be (N,5)!"))).
Proof.
  split; [|split].
  - intros v Hv. now apply init_not_ndarray.
  - intros l a Hl Hs Hn. now apply (init_bad_shape h l a).
  - intros l c rows Hl Hc. apply (init_bad_shape h l (nd2 c rows)); [assumption | discriminate |].
    intros n E. simpl in E. injection E as _ E. lia.
Qed.

(** X15, witness: a list of lists, an array of shape (1,4), an array of shape
    (1,6) and an array of shape (3,). *)
Lemma X15_construction_rejects_witness :
  SpaceTimeData.__init__ (store_of (nd2 4 [[0; 1; 10; 0]%R]))
    (PyList [[0; 1; 10; 0; 0]%R]) 1 tf.CoordinateConversion.spherical_to_cartesian
    = (store_of (nd2 4 [[0; 1; 10; 0]%R]),
       Raise (ValueError "dataset must be numpy ndarray!")) /\
  SpaceTimeData.__init__ (store_of (nd2 4 [[0; 1; 10; 0]%R]))
    (PyNdarray 1) 1 tf.CoordinateConversion.spherical_to_cartesian
    = (store_of (nd2 4 [[0; 1; 10; 0]%R]),
       Raise (ValueError "dataset shape needs to be (N,5)!")) /\
  SpaceTimeData.__init__ (store_of (nd2 6 [[0; 1; 10; 0; 0; 0]%R]))
    (PyNdarray 1) 1 tf.CoordinateConversion.spherical_to_cartesian
    = (store_of (nd2 6 [[0; 1; 10; 0; 0; 0]%R]),
       Raise (ValueError "dataset shape needs to be (N,5)!")) /\
  SpaceTimeData.__init__ (store_of (nd1 [0; 1; 10]%R))
    (PyNdarray 1) 1 tf.CoordinateConversion.spherical_to_cartesian
    = (store_of (nd1 [0; 1; 10]%R),
       Raise (ValueError "dataset shape needs to be (N,5)!")).
Proof.
  split; [|split; [|split]].
  - apply (proj1 (X15_construction_rejects _ 1 tf.CoordinateConversion.spherical_to_cartesian)).
    reflexivity.
  - apply (proj2 (proj2 (X15_construction_rejects _ 1 tf.CoordinateConversion.spherical_to_cartesian))
             1%positive 4%nat [[0; 1; 10; 0]%R]).
    + apply lookup_singleton_eq.
    + now left.
  - apply (proj2 (proj2 (X15_construction_rejects _ 1 tf.CoordinateConversion.spherical_to_cartesian))
             1%positive 6%nat [[0; 1; 10; 0; 0; 0]%R]).
    + apply lookup_singleton_eq.
    + now right.
  - apply (proj1 (proj2 (X15_construction_rejects _ 1 tf.CoordinateConversion.spherical_to_cartesian))
             1%positive (nd1 [0; 1; 10]%R)).
    + apply lookup_singleton_eq.
    + discriminate.
    + intros n. discriminate.
Defined.

(** ** Quotients beyond the range of the doubles *)

Lemma extreme_init (tau : R) :
  SpaceTimeData.__init__ (store_of (nd2 5 (extreme_rows tau))) (PyNdarray 1) 1
    tf.CoordinateConversion.identity
    = (store_of (nd2 5 (extreme_rows tau)), OK (dataset_of 1)).
Proof.
  apply (init_store (extreme_rows tau) 1 tf.CoordinateConversion.identity).
  apply (any_true_intro 5 (extreme_rows tau) [0; 0; 10; 0; 0]%R 10%R);
    [now left | simpl; tauto | lra].
Qed.

Lemma extreme_tau_max (tau : R) :
  (0 <= tau)%R -> series_max (column 0 (extreme_rows tau)) = Fin tau.
Proof.
  intros Ht. apply series_max_unique; [simpl; tauto|].
  constructor; [simpl; lra|]. constructor; [simpl; lra|]. constructor.
Qed.

(** X16.  The step computation where the quotient leaves the range of the doubles, for
    two samples whose greatest proper time is positive.  With the step 2^700
    over the time span 2^-700 the quotient overflows to +infinity and
    [math.ceil] raises OverflowError; with the step 2^-700 over the time span
    2^700 the quotient underflows to 0.0, the step between indices is 0 and
    [range] raises ValueError.  No frame is shown in either case. *)
Theorem X16_extreme_quotients :
  (SpaceTimeData.__init__ (store_of (nd2 5 (extreme_rows (bpow (-700)))))
     (PyNdarray 1) 1 tf.CoordinateConversion.identity
     = (store_of (nd2 5 (extreme_rows (bpow (-700)))), OK (dataset_of 1)) /\
   series_max (column 0 (extreme_rows (bpow (-700)))) = Fin (bpow (-700)) /\
   (0 < bpow (-700))%R /\
   SpaceTimeData.computed_frame_step_size
     (store_of (nd2 5 (extreme_rows (bpow (-700))))) (dataset_of 1) frame1 (bpow 700)
     = Raise infinite /\
   SpaceTimeData._add_rerun_animation_frames
     (store_of (nd2 5 (extreme_rows (bpow (-700))))) (dataset_of 1) (bpow 700)
     = ([], Raise infinite)) /\
  (SpaceTimeData.__init__ (store_of (nd2 5 (extreme_rows (bpow 700))))
     (PyNdarray 1) 1 tf.CoordinateConversion.identity
     = (store_of (nd2 5 (extreme_rows (bpow 700))), OK (dataset_of 1)) /\
   series_max (column 0 (extreme_rows (bpow 700))) = Fin (bpow 700) /\
   (0 < bpow 700)%R /\
   SpaceTimeData.computed_frame_step_size
     (store_of (nd2 5 (extreme_rows (bpow 700)))) (dataset_of 1) frame1 (bpow (-700))
     = OK 0%Z /\
   SpaceTimeData._add_rerun_animation_frames
     (store_of (nd2 5 (extreme_rows (bpow 700)))) (dataset_of 1) (bpow (-700))
     = ([], Raise (ValueError "range() arg 3 must not be zero"))).
Proof.
  pose proof (bpow_gt_0 700) as Hbig. pose proof (bpow_gt_0 (-700)) as Hsmall.
  assert (density (bpow 700) (extreme_rows (bpow (-700))) = Inf true) as Hover.
  { unfold density. rewrite (extreme_tau_max (bpow (-700))) by lra.
    rewrite np_truediv_fin by lra. rewrite bpow_div.
    rewrite round64_bpow_overflow by lia.
    change (Z.of_nat (length (extreme_rows (bpow (-700))))) with 2%Z.
    unfold np_mul. rewrite Ris_zero_false by lra. now rewrite Rsign_pos_true by lra. }
  assert (density (bpow (-700)) (extreme_rows (bpow 700)) = Fin 0) as Hunder.
  { unfold density. rewrite (extreme_tau_max (bpow 700)) by lra.
    rewrite np_truediv_fin by lra. rewrite bpow_div.
    rewrite round64_bpow_underflow by lia.
    rewrite np_mul_fin, Rmult_0_l. apply round64_0. }
  split.
  - split; [apply extreme_init|]. split; [apply extreme_tau_max; lra|].
    split; [exact Hsmall|]. split.
    + rewrite (computed_frame_step_size_holds _ _ _ (holds_store _ 1) _ frame1 eq_refl).
      now rewrite Hover.
    + apply (add_frames_ceil_raise _ _ _ (holds_store _ 1)); [exact Hbig|].
      now rewrite Hover.
  - split; [apply extreme_init|]. split; [apply extreme_tau_max; lra|].
    split; [exact Hbig|].
    assert (SpaceTimeData.computed_frame_step_size
              (store_of (nd2 5 (extreme_rows (bpow 700)))) (dataset_of 1) frame1
              (bpow (-700)) = OK 0%Z) as Hc.
    { rewrite (computed_frame_step_size_holds _ _ _ (holds_store _ 1) _ frame1 eq_refl).
      rewrite Hunder. simpl. f_equal. apply Zceil_eq. lra. }
    split; [exact Hc|].
    destruct (add_frames_computed _ (dataset_of 1) (extreme_rows (bpow 700))
                (bpow (-700)) frame1 0 (holds_store _ 1) ltac:(discriminate)
                Hsmall eq_refl Hc) as [_ Hzero].
    now apply Hzero.
Qed.
